(** * smart_monitor.py: S.M.A.R.T. disk health monitor

  A shallow embedding of [src/smart_monitor.py] and the properties of its
  attribute extractor ([get_disk_info]) and of the health checks in [main].

  Conventions of the embedding.
  - A Python [str] is a Rocq [string]; a character is a code point below
    256 (Latin-1), which covers the output of the diagnostic utility.  The
    degree sign of the temperature field is the single character 176.
  - [re.search] is a backtracking matcher over a small pattern syntax, with
    Python's priorities (left alternative first, greedy repetition longest
    first, lazy repetition shortest first, leftmost start position).
  - [int(s)] is the language's arbitrary-precision conversion; the
    interpreter's configurable limit on the number of digits is not
    modelled.
  - The dict built by [get_disk_info] is a record; the list
    [critical_issues] and the printed lines are an explicit state threaded
    through [main]; exceptions are explicit results.  Every function that
    prints runs in this state: the lines of [run_smartctl],
    [download_file], [extract_exe] and [initialize_smartmontools] are part
    of the output of [main].
  - What the operating system, the network and the diagnostic utility
    answer is a [host]; the paths that the module builds with
    [os.path.join] are values of the host. *)

From Stdlib Require Import ZArith List String Ascii Bool Lia.
From Stdlib Require Import DecimalString DecimalZ DecimalN DecimalPos.
Import ListNotations.

Local Open Scope string_scope.
Local Open Scope Z_scope.

(** ** Python string primitives *)

Module PyStr.

Definition code (a : ascii) : nat := nat_of_ascii a.

Definition in_range (lo hi : nat) (a : ascii) : bool :=
  (Nat.leb lo (code a) && Nat.leb (code a) hi)%bool.

(** [\d] on code points below 256: the ten ASCII digits. *)
Definition is_decimal (a : ascii) : bool := in_range 48 57 a.

(** [\s] and [str.isspace]: TAB..CR, FS..US, space, NEL, NBSP. *)
Definition is_space (a : ascii) : bool :=
  (in_range 9 13 a || in_range 28 32 a
   || Nat.eqb (code a) 133 || Nat.eqb (code a) 160)%bool.

(** Characters accepted by [str.isdigit]: the decimal digits and the
    superscripts two, three and one. *)
Definition is_digit_char (a : ascii) : bool :=
  (is_decimal a || Nat.eqb (code a) 178 || Nat.eqb (code a) 179
   || Nat.eqb (code a) 185)%bool.

Definition newline : ascii := ascii_of_nat 10.
Definition degree : ascii := ascii_of_nat 176.

Fixpoint forallb (p : ascii -> bool) (s : string) : bool :=
  match s with
  | EmptyString => true
  | String a s' => (p a && forallb p s')%bool
  end.

Definition is_empty (s : string) : bool :=
  match s with EmptyString => true | _ => false end.

(** [s.isdigit()] *)
Definition isdigit (s : string) : bool :=
  (negb (is_empty s) && forallb is_digit_char s)%bool.

(** A non-empty run of decimal digits: what [\d+] captures. *)
Definition all_decimal (s : string) : bool :=
  (negb (is_empty s) && forallb is_decimal s)%bool.

Fixpoint startswith (p s : string) : bool :=
  match p with
  | EmptyString => true
  | String a p' =>
      match s with
      | EmptyString => false
      | String b s' => (Ascii.eqb a b && startswith p' s')%bool
      end
  end.

(** [needle in hay] *)
Fixpoint contains (needle hay : string) : bool :=
  (startswith needle hay
   || match hay with
      | EmptyString => false
      | String _ hay' => contains needle hay'
      end)%bool.

(** [c.lower()] on code points below 256. *)
Definition lower_char (a : ascii) : ascii :=
  if (in_range 65 90 a
      || (in_range 192 222 a && negb (Nat.eqb (code a) 215)))%bool
  then ascii_of_nat (code a + 32) else a.

Fixpoint lower (s : string) : string :=
  match s with
  | EmptyString => EmptyString
  | String a s' => String (lower_char a) (lower s')
  end.

(** [s.replace(c, '')] for a one-character [c]. *)
Fixpoint remove_char (c : ascii) (s : string) : string :=
  match s with
  | EmptyString => EmptyString
  | String a s' =>
      if Ascii.eqb a c then remove_char c s' else String a (remove_char c s')
  end.

(** [int(s)] on the strings the program passes to it: [Some n] for a
    non-empty run of decimal digits, [None] (a [ValueError]) for the empty
    string and for a string with any other character of [str.isdigit]. *)
Definition int (s : string) : option Z :=
  option_map Z.of_uint (NilZero.uint_of_string s).

(** [str(n)] for an integer. *)
Definition str (n : Z) : string := NilZero.string_of_int (Z.to_int n).

(** The message of the [ValueError] raised by [int(s)]. *)
Definition invalid_literal (s : string) : string :=
  "invalid literal for int() with base 10: '" ++ s ++ "'".

End PyStr.

(** ** Regular expressions: a backtracking matcher *)

Module Re.

Inductive regex : Type :=
| Eps
| Chr (p : ascii -> bool)
| Seq (r1 r2 : regex)
| Alt (r1 r2 : regex)
| Star (greedy : bool) (r : regex)
| Group (i : nat) (r : regex).

(** Captured groups, most recently closed first. *)
Definition caps : Type := list (nat * string).

Definition cont : Type := string -> caps -> option caps.

Fixpoint take (n : nat) (s : string) : string :=
  match n, s with
  | S n', String a s' => String a (take n' s')
  | _, _ => EmptyString
  end.

(** The text consumed between the input [s] and its suffix [s']. *)
Definition consumed (s s' : string) : string :=
  take (String.length s - String.length s') s.

Definition orelse (x y : option caps) : option caps :=
  match x with Some _ => x | None => y end.

(** Repetition of [body], at most [n] times, each round consuming at
    least one character (the patterns in use repeat single characters).
    Greedy: one more round is tried before the continuation; lazy: the
    continuation is tried first. *)
Fixpoint repeat (body : string -> caps -> cont -> option caps)
    (greedy : bool) (k : cont) (n : nat) (s : string) (c : caps)
    : option caps :=
  match n with
  | O => k s c
  | S n' =>
      let more :=
        body s c (fun s' c' =>
          if Nat.ltb (String.length s') (String.length s)
          then repeat body greedy k n' s' c' else None) in
      if greedy then orelse more (k s c) else orelse (k s c) more
  end.

Fixpoint run (r : regex) (s : string) (c : caps) (k : cont) : option caps :=
  match r with
  | Eps => k s c
  | Chr p =>
      match s with
      | String a s' => if p a then k s' c else None
      | EmptyString => None
      end
  | Seq r1 r2 => run r1 s c (fun s' c' => run r2 s' c' k)
  | Alt r1 r2 => orelse (run r1 s c k) (run r2 s c k)
  | Star g r1 => repeat (run r1) g k (String.length s) s c
  | Group i r1 => run r1 s c (fun s' c' => k s' ((i, consumed s s') :: c'))
  end.

Definition accept : cont := fun _ c => Some c.

(** [re.match(r, s)]: a match anchored at the start of [s]. *)
Definition match_here (r : regex) (s : string) : option caps :=
  run r s [] accept.

(** [re.search(r, s)]: the match at the leftmost start position. *)
Fixpoint search (r : regex) (s : string) : option caps :=
  match match_here r s with
  | Some c => Some c
  | None =>
      match s with
      | EmptyString => None
      | String _ s' => search r s'
      end
  end.

(** [m.group(i)] *)
Fixpoint group (m : caps) (i : nat) : string :=
  match m with
  | [] => EmptyString
  | (j, g) :: m' => if Nat.eqb i j then g else group m' i
  end.

(** Pattern syntax. *)
Fixpoint lit (s : string) : regex :=
  match s with
  | EmptyString => Eps
  | String a s' => Seq (Chr (Ascii.eqb a)) (lit s')
  end.

Definition plus (r : regex) : regex := Seq r (Star true r).
Definition star (r : regex) : regex := Star true r.
Definition lazy_star (r : regex) : regex := Star false r.

(** [.] without and with [re.DOTALL]; [\d]; [\s]; [[0-9,]]. *)
Definition dot : regex := Chr (fun a => negb (Ascii.eqb a PyStr.newline)).
Definition any : regex := Chr (fun _ => true).
Definition digit : regex := Chr PyStr.is_decimal.
Definition space : regex := Chr PyStr.is_space.
Definition digit_or_comma : regex :=
  Chr (fun a => (PyStr.in_range 48 57 a || Ascii.eqb a ",")%bool).

(** The pieces of a pattern, one after the other. *)
Fixpoint seq (rs : list regex) : regex :=
  match rs with
  | [] => Eps
  | [r] => r
  | r :: rs' => Seq r (seq rs')
  end.

(** The declarative reading of a pattern: [matches r s c s' c'] when [r]
    consumes a prefix of [s], leaves [s'] and turns the groups [c] into
    [c']. *)
Inductive matches : regex -> string -> caps -> string -> caps -> Prop :=
| M_Eps s c : matches Eps s c s c
| M_Chr p a s c : p a = true -> matches (Chr p) (String a s) c s c
| M_Seq r1 r2 s c s1 c1 s2 c2 :
    matches r1 s c s1 c1 -> matches r2 s1 c1 s2 c2 ->
    matches (Seq r1 r2) s c s2 c2
| M_AltL r1 r2 s c s' c' :
    matches r1 s c s' c' -> matches (Alt r1 r2) s c s' c'
| M_AltR r1 r2 s c s' c' :
    matches r2 s c s' c' -> matches (Alt r1 r2) s c s' c'
| M_StarStop g r s c : matches (Star g r) s c s c
| M_StarMore g r s c s1 c1 s2 c2 :
    matches r s c s1 c1 -> matches (Star g r) s1 c1 s2 c2 ->
    matches (Star g r) s c s2 c2
| M_Group i r s c s' c' :
    matches r s c s' c' ->
    matches (Group i r) s c s' ((i, consumed s s') :: c').

(** Every answer of the matcher on [r] is a match of [r], handed to the
    continuation. *)
Definition sound_at (r : regex) : Prop :=
  forall s c k x, run r s c k = Some x ->
    exists s' c', matches r s c s' c' /\ k s' c' = Some x.

(** The text [rest] does not go on with a character of [p]. *)
Definition stops (p : ascii -> bool) (rest : string) : bool :=
  match rest with
  | EmptyString => true
  | String a _ => negb (p a)
  end.

End Re.

(** ** The monitor *)

Module Smart.

Import PyStr.

Definition nl : string := String newline EmptyString.

(** *** The record built by [get_disk_info] *)

Record attributes : Type := mk_attributes {
  Temperature : string;
  PowerOnTime : string;
  ReallocatedSectors : string;
  PendingSectors : string;
  UncorrectableSectors : string;
  LifeRemaining : string;
  TotalWritten : string;
  TotalRead : string
}.

Record disk_info : Type := mk_disk_info {
  Model : string;
  SerialNumber : string;
  IsSSD : bool;
  HealthStatus : string;
  Attributes : attributes
}.

(** The value of a field that was not found in the text. *)
Definition NA : string := "N/A".

Definition default_attributes : attributes :=
  mk_attributes NA NA NA NA NA NA NA NA.

Definition default_disk_info : disk_info :=
  mk_disk_info "Unknown" "Unknown" false "Unknown" default_attributes.

(** Assignments [disk_info[...] = v]. *)
Definition set_Model (v : string) (d : disk_info) : disk_info :=
  mk_disk_info v (SerialNumber d) (IsSSD d) (HealthStatus d) (Attributes d).
Definition set_SerialNumber (v : string) (d : disk_info) : disk_info :=
  mk_disk_info (Model d) v (IsSSD d) (HealthStatus d) (Attributes d).
Definition set_IsSSD (v : bool) (d : disk_info) : disk_info :=
  mk_disk_info (Model d) (SerialNumber d) v (HealthStatus d) (Attributes d).
Definition set_HealthStatus (v : string) (d : disk_info) : disk_info :=
  mk_disk_info (Model d) (SerialNumber d) (IsSSD d) v (Attributes d).
Definition set_Attributes (f : attributes -> attributes) (d : disk_info)
    : disk_info :=
  mk_disk_info (Model d) (SerialNumber d) (IsSSD d) (HealthStatus d)
    (f (Attributes d)).

Definition set_Temperature (v : string) : disk_info -> disk_info :=
  set_Attributes (fun a =>
    mk_attributes v (PowerOnTime a) (ReallocatedSectors a)
      (PendingSectors a) (UncorrectableSectors a) (LifeRemaining a)
      (TotalWritten a) (TotalRead a)).
Definition set_PowerOnTime (v : string) : disk_info -> disk_info :=
  set_Attributes (fun a =>
    mk_attributes (Temperature a) v (ReallocatedSectors a)
      (PendingSectors a) (UncorrectableSectors a) (LifeRemaining a)
      (TotalWritten a) (TotalRead a)).
Definition set_ReallocatedSectors (v : string) : disk_info -> disk_info :=
  set_Attributes (fun a =>
    mk_attributes (Temperature a) (PowerOnTime a) v
      (PendingSectors a) (UncorrectableSectors a) (LifeRemaining a)
      (TotalWritten a) (TotalRead a)).
Definition set_PendingSectors (v : string) : disk_info -> disk_info :=
  set_Attributes (fun a =>
    mk_attributes (Temperature a) (PowerOnTime a) (ReallocatedSectors a)
      v (UncorrectableSectors a) (LifeRemaining a)
      (TotalWritten a) (TotalRead a)).
Definition set_UncorrectableSectors (v : string) : disk_info -> disk_info :=
  set_Attributes (fun a =>
    mk_attributes (Temperature a) (PowerOnTime a) (ReallocatedSectors a)
      (PendingSectors a) v (LifeRemaining a)
      (TotalWritten a) (TotalRead a)).
Definition set_LifeRemaining (v : string) : disk_info -> disk_info :=
  set_Attributes (fun a =>
    mk_attributes (Temperature a) (PowerOnTime a) (ReallocatedSectors a)
      (PendingSectors a) (UncorrectableSectors a) v
      (TotalWritten a) (TotalRead a)).
Definition set_TotalWritten (v : string) : disk_info -> disk_info :=
  set_Attributes (fun a =>
    mk_attributes (Temperature a) (PowerOnTime a) (ReallocatedSectors a)
      (PendingSectors a) (UncorrectableSectors a) (LifeRemaining a)
      v (TotalRead a)).
Definition set_TotalRead (v : string) : disk_info -> disk_info :=
  set_Attributes (fun a =>
    mk_attributes (Temperature a) (PowerOnTime a) (ReallocatedSectors a)
      (PendingSectors a) (UncorrectableSectors a) (LifeRemaining a)
      (TotalWritten a) v).

(** *** Exceptions and the host *)

Record exn : Type := Exception { message : string }.

(** *** Findings, output and exceptions *)

Inductive severity : Type := Warning | Critical.

(** The check that reports a finding. *)
Inductive rule : Type :=
| HealthRule | TemperatureRule | LifeRule
| ReallocatedRule | PendingRule | UncorrectableRule.

(** An element of [critical_issues].  The list of the program holds the
    [text]; [rule_of] and [severity_of] name the [append] that produced it
    and the severity its message announces. *)
Record finding : Type := mk_finding {
  rule_of : rule;
  severity_of : severity;
  text : string
}.

Record state : Type := mk_state {
  stdout : list string;
  critical_issues : list finding
}.

Definition initial_state : state := mk_state [] [].

(** A computation that prints, appends findings, and returns or raises. *)
Definition M (A : Type) : Type := state -> (exn + A) * state.

Definition ret {A : Type} (a : A) : M A := fun s => (inr a, s).

Definition bind {A B : Type} (m : M A) (f : A -> M B) : M B :=
  fun s =>
    match m s with
    | (inr a, s') => f a s'
    | (inl e, s') => (inl e, s')
    end.

Definition raise {A : Type} (e : exn) : M A := fun s => (inl e, s).

Definition print (line : string) : M unit :=
  fun s => (inr tt, mk_state (stdout s ++ [line]) (critical_issues s)).

Definition append_issue (f : finding) : M unit :=
  fun s => (inr tt, mk_state (stdout s) (critical_issues s ++ [f])).

Definition get_issues : M (list finding) :=
  fun s => (inr (critical_issues s), s).

(** [try: body  except Exception as e: handler] *)
Definition try_except {A : Type} (body : M A) (handler : exn -> M A) : M A :=
  fun s =>
    match body s with
    | (inl e, s') => handler e s'
    | (inr a, s') => (inr a, s')
    end.

Declare Scope monad_scope.
Delimit Scope monad_scope with monad.
Notation "x <- m ;; k" := (bind m (fun x => k))
  (at level 61, m at next level, right associativity) : monad_scope.
Notation "m ;; k" := (bind m (fun _ => k))
  (at level 61, right associativity) : monad_scope.
Local Open Scope monad_scope.

Fixpoint for_each {A : Type} (xs : list A) (body : A -> M unit) : M unit :=
  match xs with
  | [] => ret tt
  | x :: xs' => body x ;; for_each xs' body
  end.

(** What the script obtains from outside itself.
    - [is_admin]: the result of the function of this name.
    - [SMARTCTL_PATH], [EXTRACT_DIR], [download_path]: the paths that
      [os.path.join] builds from [tempfile.gettempdir()].
    - [tool_present], [tool_extracted]: [os.path.exists(SMARTCTL_PATH)] at
      the start of [initialize_smartmontools] and after the extraction.
    - [makedirs], [urlretrieve url destination], [run_seven_zip exe_path
      extract_path], [run_installer exe_path extract_path]: the exception
      that the call raises, if any; [seven_zip_present] tells whether the
      archiver is installed.
    - [smartctl path args]: the text [process.stdout + process.stderr] of
      one run of the utility, or the exception that the run raised.
    - [now], [node]: the formatted date and [platform.node()].
    - [tb_text b]: the text of [f"{round(b / (1024**4), 2)} TB"], [None]
      when the float division raises; binary floating point is outside this
      development.
    - [fault disk_id]: an unexpected exception raised when
      [get_disk_info] is called for that disk, if any.
    - [format_exc e]: [traceback.format_exc()]. *)
Record host : Type := mk_host {
  is_admin : bool;
  SMARTCTL_PATH : string;
  EXTRACT_DIR : string;
  download_path : string;
  tool_present : bool;
  makedirs : option exn;
  urlretrieve : string -> string -> option exn;
  seven_zip_present : bool;
  run_seven_zip : string -> string -> option exn;
  run_installer : string -> string -> option exn;
  tool_extracted : bool;
  smartctl : string -> list string -> exn + string;
  now : string;
  node : string;
  tb_text : Z -> option string;
  fault : string -> option exn;
  format_exc : exn -> string
}.

(** A call of the host that returns nothing or raises. *)
Definition may_raise (r : option exn) : M unit :=
  match r with
  | Some e => raise e
  | None => ret tt
  end.

Definition SMARTMONTOOLS_URL : string :=
  "https://sourceforge.net/projects/smartmontools/files/smartmontools/7.3/smartmontools-7.3-1.win32-setup.exe/download".

(** [download_file(url, destination)] *)
Definition download_file (h : host) (url destination : string) : M bool :=
  try_except
    (print ("Downloading from " ++ url ++ " to " ++ destination) ;;
     may_raise (urlretrieve h url destination) ;;
     ret true)
    (fun e => print ("Error downloading file: " ++ message e) ;; ret false).

(** [extract_exe(exe_path, extract_path)]: the archiver when it is
    installed, the installer in silent mode otherwise. *)
Definition extract_exe (h : host) (exe_path extract_path : string) : M bool :=
  try_except
    (if seven_zip_present h
     then may_raise (run_seven_zip h exe_path extract_path) ;; ret true
     else may_raise (run_installer h exe_path extract_path) ;; ret true)
    (fun e => print ("Error extracting files: " ++ message e) ;; ret false).

(** [initialize_smartmontools()].  The removal of the installer is inside a
    [try] whose handler does nothing: it neither prints nor raises. *)
Definition initialize_smartmontools (h : host) : M (option string) :=
  if tool_present h
  then print "SmartMonTools already available." ;;
       ret (Some (SMARTCTL_PATH h))
  else
    may_raise (makedirs h) ;;
    downloaded <- download_file h SMARTMONTOOLS_URL (download_path h) ;;
    if negb downloaded then ret None
    else
      extracted <- extract_exe h (download_path h) (EXTRACT_DIR h) ;;
      if negb extracted then ret None
      else if negb (tool_extracted h)
      then print ("ERROR: Failed to find smartctl.exe at expected location: "
                  ++ SMARTCTL_PATH h) ;;
           ret None
      else ret (Some (SMARTCTL_PATH h)).

(** [run_smartctl(smartctl_path, args)] *)
Definition run_smartctl (h : host) (smartctl_path : string)
    (args : list string) : M (option string) :=
  try_except
    (match smartctl h smartctl_path args with
     | inr output => ret (Some output)
     | inl e => raise e
     end)
    (fun e => print ("Error running smartctl: " ++ message e) ;; ret None).

(** The truth value of an output: [None] and [""] are false. *)
Definition truthy (output : option string) : option string :=
  match output with
  | Some s => if is_empty s then None else Some s
  | None => None
  end.

(** *** The display helpers *)

(** [parse_power_on_hours(value)] *)
Definition parse_power_on_hours (value : string) : string :=
  if (String.eqb value NA || is_empty value)%bool then NA
  else match int value with
       | Some hours =>
           let days := hours / 24 in
           let remaining_hours := hours mod 24 in
           str days ++ " days, " ++ str remaining_hours ++ " hours"
       | None => value
       end.

(** [bytes_value = int(value) * 512] *)
Definition lba_bytes_value (value : string) : option Z :=
  option_map (fun n => n * 512) (int value).

(** [parse_lba_to_tb(value)] *)
Definition parse_lba_to_tb (h : host) (value : string) : string :=
  if (String.eqb value NA || is_empty value)%bool then NA
  else match lba_bytes_value value with
       | Some bytes_value =>
           match tb_text h bytes_value with
           | Some s => s
           | None => value
           end
       | None => value
       end.

(** [units = group.replace(',', '')] and
    [bytes_value = int(units) * 512 * 1024] *)
Definition data_units_bytes_value (captured : string) : option Z :=
  let units := remove_char "," captured in
  option_map (fun n => n * 512 * 1024) (int units).

(** The NVMe branch for the data written and read: the text to store, or
    [None] when the [try] block raised and the field is left as it is. *)
Definition data_units_to_tb (h : host) (captured : string) : option string :=
  match data_units_bytes_value captured with
  | Some bytes_value => tb_text h bytes_value
  | None => None
  end.

(** [f"{digits} <degree>C"], where <degree> is the degree sign, code 176 *)
Definition celsius (digits : string) : string :=
  digits ++ " " ++ String degree "C".

Definition percent (s : string) : string := s ++ "%".

(** *** The patterns of [get_disk_info] and [main] *)

Import Re.

(** [r'LABEL\s+(.+)'] *)
Definition labelled (label : string) : regex :=
  seq [lit label; plus space; Group 1 (plus dot)].

(** [r'NAME.*?(\d+)'] *)
Definition attribute_row (name : string) : regex :=
  seq [lit name; lazy_star dot; Group 1 (plus digit)].

(** [r'(NAME1|NAME2).*?(\d+)'] *)
Definition attribute_row2 (name1 name2 : string) : regex :=
  seq [Group 1 (Alt (lit name1) (lit name2)); lazy_star dot;
       Group 2 (plus digit)].

Definition re_device_model : regex := labelled "Device Model:".
Definition re_product : regex := labelled "Product:".
Definition re_model_number : regex := labelled "Model Number:".
Definition re_serial_number : regex := labelled "Serial Number:".

(** [r'SMART overall-health self-assessment test result: (.+)'] *)
Definition re_health : regex :=
  seq [lit "SMART overall-health self-assessment test result: ";
       Group 1 (plus dot)].

(** The NVMe health pattern, with [re.DOTALL]: the header
    [SMART/Health Information], any text, white space, then group 1 made
    of any text, group 2 [normal|failed], any text. *)
Definition re_nvme_health : regex :=
  seq [lit "SMART/Health Information"; star any; plus space;
       Group 1 (seq [star any;
                     Group 2 (Alt (lit "normal") (lit "failed"));
                     star any])].

Definition re_temperature : regex := attribute_row "Temperature_Celsius".
Definition re_alt_temperature : regex :=
  attribute_row2 "Airflow_Temperature_Cel" "Temperature".
(** [r'Temperature:\s+(\d+)\s+Celsius'] *)
Definition re_nvme_temperature : regex :=
  seq [lit "Temperature:"; plus space; Group 1 (plus digit); plus space;
       lit "Celsius"].

Definition re_power_on_hours : regex := attribute_row "Power_On_Hours".
(** [r'Power On Hours:\s+(\d+)'] *)
Definition re_nvme_power_on_hours : regex :=
  seq [lit "Power On Hours:"; plus space; Group 1 (plus digit)].

Definition re_reallocated : regex := attribute_row "Reallocated_Sector_Ct".
Definition re_pending : regex := attribute_row "Current_Pending_Sector".
Definition re_uncorrectable : regex :=
  attribute_row2 "Offline_Uncorrectable" "Reported_Uncorrect".

Definition re_wear : regex :=
  attribute_row2 "Wear_Leveling_Count" "Media_Wearout_Indicator".
(** [r'Percentage Used:\s+(\d+)%'] *)
Definition re_percentage_used : regex :=
  seq [lit "Percentage Used:"; plus space; Group 1 (plus digit); lit "%"].

Definition re_lbas_written : regex := attribute_row "Total_LBAs_Written".
Definition re_lbas_read : regex := attribute_row "Total_LBAs_Read".
(** [r'Data Units Written:\s+([0-9,]+)'] and its twin for the data read *)
Definition re_units_written : regex :=
  seq [lit "Data Units Written:"; plus space; Group 1 (plus digit_or_comma)].
Definition re_units_read : regex :=
  seq [lit "Data Units Read:"; plus space; Group 1 (plus digit_or_comma)].

(** [r'(\d+)'] and [r'(\d+)%'], used by the checks of [main] *)
Definition re_number : regex := Group 1 (plus digit).
Definition re_number_percent : regex := seq [Group 1 (plus digit); lit "%"].

(** *** [get_disk_info] *)

(** Parse model: three labels, the first that matches. *)
Definition parse_model (info_output : string) (d : disk_info) : disk_info :=
  match search re_device_model info_output with
  | Some model_match => set_Model (group model_match 1) d
  | None =>
      match search re_product info_output with
      | Some product_match => set_Model (group product_match 1) d
      | None =>
          match search re_model_number info_output with
          | Some model_match => set_Model (group model_match 1) d
          | None => d
          end
      end
  end.

(** Parse serial number. *)
Definition parse_serial (info_output : string) (d : disk_info) : disk_info :=
  match search re_serial_number info_output with
  | Some serial_match => set_SerialNumber (group serial_match 1) d
  | None => d
  end.

(** Determine if it's an SSD. *)
Definition detect_ssd (info_output : string) (d : disk_info) : disk_info :=
  if (contains "Solid State Device" info_output
      || contains "Rotation Rate: Solid State" info_output
      || contains "NVMe" info_output)%bool
  then set_IsSSD true d
  else if contains "SSD" (Model d) then set_IsSSD true d
  else d.

(** Get health information. *)
Definition parse_health (health_output : string) (d : disk_info)
    : disk_info :=
  match search re_health health_output with
  | Some health_match => set_HealthStatus (group health_match 1) d
  | None =>
      match search re_nvme_health health_output with
      | Some nvme_health_match =>
          if contains "normal" (lower (group nvme_health_match 1))
          then set_HealthStatus "PASSED" d
          else set_HealthStatus "FAILED" d
      | None => d
      end
  end.

(** Parse temperature. *)
Definition parse_temperature_attr (attr_output : string) (d : disk_info)
    : disk_info :=
  match search re_temperature attr_output with
  | Some temp_match => set_Temperature (celsius (group temp_match 1)) d
  | None =>
      match search re_alt_temperature attr_output with
      | Some alt_temp_match =>
          set_Temperature (celsius (group alt_temp_match 2)) d
      | None =>
          match search re_nvme_temperature attr_output with
          | Some nvme_temp_match =>
              set_Temperature (celsius (group nvme_temp_match 1)) d
          | None => d
          end
      end
  end.

(** Parse Power-On Hours. *)
Definition parse_power_on (attr_output : string) (d : disk_info)
    : disk_info :=
  match search re_power_on_hours attr_output with
  | Some poh_match =>
      set_PowerOnTime (parse_power_on_hours (group poh_match 1)) d
  | None =>
      match search re_nvme_power_on_hours attr_output with
      | Some nvme_poh_match =>
          set_PowerOnTime (parse_power_on_hours (group nvme_poh_match 1)) d
      | None => d
      end
  end.

(** HDD specific attributes. *)
Definition parse_reallocated (attr_output : string) (d : disk_info)
    : disk_info :=
  match search re_reallocated attr_output with
  | Some realloc_match => set_ReallocatedSectors (group realloc_match 1) d
  | None => d
  end.

Definition parse_pending (attr_output : string) (d : disk_info)
    : disk_info :=
  match search re_pending attr_output with
  | Some pending_match => set_PendingSectors (group pending_match 1) d
  | None => d
  end.

Definition parse_uncorrectable (attr_output : string) (d : disk_info)
    : disk_info :=
  match search re_uncorrectable attr_output with
  | Some uncorr_match => set_UncorrectableSectors (group uncorr_match 2) d
  | None => d
  end.

Definition parse_hdd (attr_output : string) (d : disk_info) : disk_info :=
  parse_uncorrectable attr_output
    (parse_pending attr_output (parse_reallocated attr_output d)).

(** SSD Life/Wear. *)
Definition parse_wear (attr_output : string) (d : disk_info) : disk_info :=
  match search re_wear attr_output with
  | Some wear_match =>
      if contains "Media_Wearout_Indicator" (group wear_match 1)
      then match int (group wear_match 2) with
           | Some raw =>
               let life_remaining := 100 - raw in
               set_LifeRemaining (percent (str life_remaining)) d
           | None => set_LifeRemaining (percent (group wear_match 2)) d
           end
      else set_LifeRemaining (percent (group wear_match 2)) d
  | None =>
      match search re_percentage_used attr_output with
      | Some nvme_life_match =>
          match int (group nvme_life_match 1) with
          | Some used =>
              let life_remaining := 100 - used in
              set_LifeRemaining (percent (str life_remaining)) d
          | None => d
          end
      | None => d
      end
  end.

(** Total data written. *)
Definition parse_written (h : host) (attr_output : string) (d : disk_info)
    : disk_info :=
  match search re_lbas_written attr_output with
  | Some written_match =>
      set_TotalWritten (parse_lba_to_tb h (group written_match 1)) d
  | None =>
      match search re_units_written attr_output with
      | Some nvme_written_match =>
          match data_units_to_tb h (group nvme_written_match 1) with
          | Some text => set_TotalWritten text d
          | None => d
          end
      | None => d
      end
  end.

(** Total data read. *)
Definition parse_read (h : host) (attr_output : string) (d : disk_info)
    : disk_info :=
  match search re_lbas_read attr_output with
  | Some read_match =>
      set_TotalRead (parse_lba_to_tb h (group read_match 1)) d
  | None =>
      match search re_units_read attr_output with
      | Some nvme_read_match =>
          match data_units_to_tb h (group nvme_read_match 1) with
          | Some text => set_TotalRead text d
          | None => d
          end
      | None => d
      end
  end.

Definition parse_ssd (h : host) (attr_output : string) (d : disk_info)
    : disk_info :=
  parse_read h attr_output
    (parse_written h attr_output (parse_wear attr_output d)).

(** The part of [get_disk_info] that reads the attribute text. *)
Definition parse_attributes (h : host) (attr_output : string)
    (d : disk_info) : disk_info :=
  let d := parse_temperature_attr attr_output d in
  let d := parse_power_on attr_output d in
  let d := if negb (IsSSD d) then parse_hdd attr_output d else d in
  if IsSSD d then parse_ssd h attr_output d else d.

(** The part that reads the identity text. *)
Definition parse_identity (info_output : string) (d : disk_info)
    : disk_info :=
  detect_ssd info_output (parse_serial info_output (parse_model info_output d)).

(** The extractor on the three texts, each [None] or empty when the
    utility gave nothing: the record that [get_disk_info] below returns
    when its runs of the utility give these texts. *)
Definition extract (h : host) (info health attr : option string)
    : disk_info :=
  match truthy info with
  | None => default_disk_info
  | Some info_output =>
      let d := parse_identity info_output default_disk_info in
      let d := match truthy health with
               | Some health_output => parse_health health_output d
               | None => d
               end in
      match truthy attr with
      | None => d
      | Some attr_output => parse_attributes h attr_output d
      end
  end.

(** [get_disk_info(smartctl_path, disk_id)]: the three runs of the utility
    and the record built from their texts. *)
Definition get_disk_info (h : host) (smartctl_path disk_id : string)
    : M disk_info :=
  let d := default_disk_info in
  info_output <- run_smartctl h smartctl_path ["-i"; disk_id] ;;
  match truthy info_output with
  | None => ret d
  | Some info_output =>
      let d := parse_identity info_output d in
      health_output <- run_smartctl h smartctl_path ["-H"; disk_id] ;;
      let d := match truthy health_output with
               | Some health_output => parse_health health_output d
               | None => d
               end in
      attr_output <- run_smartctl h smartctl_path ["-A"; disk_id] ;;
      match truthy attr_output with
      | None => ret d
      | Some attr_output => ret (parse_attributes h attr_output d)
      end
  end.

(** *** [get_physical_disks] *)

(** The line boundaries of [str.splitlines]. *)
Definition is_linebreak (a : ascii) : bool :=
  (in_range 10 13 a || in_range 28 30 a || Nat.eqb (code a) 133)%bool.

Definition is_cr (a : ascii) : bool := Nat.eqb (code a) 13.
Definition is_lf (a : ascii) : bool := Nat.eqb (code a) 10.

(** The pieces between line boundaries; a line feed that follows a
    carriage return belongs to the same boundary. *)
Fixpoint split_breaks (after_cr : bool) (s : string) : list string :=
  match s with
  | EmptyString => [EmptyString]
  | String a s' =>
      if (after_cr && is_lf a)%bool then split_breaks false s'
      else if is_linebreak a then EmptyString :: split_breaks (is_cr a) s'
      else match split_breaks false s' with
           | l :: ls => String a l :: ls
           | [] => [String a EmptyString]
           end
  end.

(** [s.splitlines()]: no empty last line. *)
Definition splitlines (s : string) : list string :=
  let pieces := split_breaks false s in
  if is_empty (last pieces EmptyString) then removelast pieces else pieces.

Fixpoint lstrip (s : string) : string :=
  match s with
  | String a s' => if is_space a then lstrip s' else s
  | EmptyString => EmptyString
  end.

Fixpoint take_word (s : string) : string :=
  match s with
  | String a s' => if is_space a then EmptyString else String a (take_word s')
  | EmptyString => EmptyString
  end.

(** [line.split()[0]] for a line that has a word. *)
Definition first_word (line : string) : string := take_word (lstrip line).

Definition get_physical_disks (h : host) (smartctl_path : string)
    : M (list string) :=
  output <- run_smartctl h smartctl_path ["--scan"] ;;
  match truthy output with
  | None => ret []
  | Some output =>
      ret (map first_word (filter (contains "/dev/") (splitlines output)))
  end.

(** [int(s)] where a [ValueError] propagates. *)
Definition int_or_raise (s : string) : M Z :=
  match int s with
  | Some n => ret n
  | None => raise (Exception (invalid_literal s))
  end.

(** *** The checks of [main] *)

(** [f"Disk {disk_id} ({disk_info['Model']})"] *)
Definition disk_label (disk_id : string) (d : disk_info) : string :=
  "Disk " ++ disk_id ++ " (" ++ Model d ++ ")".

Definition check_health (disk_id : string) (d : disk_info) : M unit :=
  if (negb (String.eqb (HealthStatus d) "PASSED")
      && negb (String.eqb (HealthStatus d) "Unknown"))%bool
  then append_issue (mk_finding HealthRule Critical
         (disk_label disk_id d ++ " health status: " ++ HealthStatus d))
  else ret tt.

Definition check_temperature (disk_id : string) (d : disk_info) : M unit :=
  match search re_number (Temperature (Attributes d)) with
  | Some temp_match =>
      temp <- int_or_raise (group temp_match 1) ;;
      if 60 <=? temp
      then append_issue (mk_finding TemperatureRule Critical
             (disk_label disk_id d ++ " temperature critical: "
              ++ Temperature (Attributes d)))
      else if 50 <=? temp
      then append_issue (mk_finding TemperatureRule Warning
             (disk_label disk_id d ++ " temperature warning: "
              ++ Temperature (Attributes d)))
      else ret tt
  | None => ret tt
  end.

Definition check_life (disk_id : string) (d : disk_info) : M unit :=
  match search re_number_percent (LifeRemaining (Attributes d)) with
  | Some life_match =>
      life_remaining <- int_or_raise (group life_match 1) ;;
      if life_remaining <=? 10
      then append_issue (mk_finding LifeRule Critical
             (disk_label disk_id d ++ " SSD life critically low: "
              ++ LifeRemaining (Attributes d)))
      else if life_remaining <=? 20
      then append_issue (mk_finding LifeRule Warning
             (disk_label disk_id d ++ " SSD life warning: "
              ++ LifeRemaining (Attributes d)))
      else ret tt
  | None => ret tt
  end.

(** [if v != "N/A" and v.isdigit() and int(v) > 0: append(... has v what)] *)
Definition check_sectors (r : rule) (what : string) (disk_id : string)
    (d : disk_info) (v : string) : M unit :=
  if (negb (String.eqb v NA) && isdigit v)%bool
  then n <- int_or_raise v ;;
       if 0 <? n
       then append_issue (mk_finding r Critical
              (disk_label disk_id d ++ " has " ++ v ++ " " ++ what))
       else ret tt
  else ret tt.

(** The body of the loop after the record is built: the report of the
    record and the checks. *)
Definition check_disk (disk_id : string) (d : disk_info) : M unit :=
  let disk_type := if IsSSD d then "SSD" else "HDD" in
  print "----------------------------------------" ;;
  print ("Disk: " ++ disk_id) ;;
  print ("Model: " ++ Model d) ;;
  print ("Type: " ++ disk_type) ;;
  print ("Serial: " ++ SerialNumber d) ;;
  print ("Health Status: " ++ HealthStatus d) ;;
  print ("Temperature: " ++ Temperature (Attributes d)) ;;
  print ("Power-On Time: " ++ PowerOnTime (Attributes d)) ;;
  check_health disk_id d ;;
  check_temperature disk_id d ;;
  if IsSSD d
  then print ("SSD Life Remaining: " ++ LifeRemaining (Attributes d)) ;;
       print ("Total Data Written: " ++ TotalWritten (Attributes d)) ;;
       print ("Total Data Read: " ++ TotalRead (Attributes d)) ;;
       check_life disk_id d
  else print ("Reallocated Sectors: " ++ ReallocatedSectors (Attributes d)) ;;
       print ("Pending Sectors: " ++ PendingSectors (Attributes d)) ;;
       print ("Uncorrectable Sectors: "
              ++ UncorrectableSectors (Attributes d)) ;;
       check_sectors ReallocatedRule "reallocated sectors" disk_id d
         (ReallocatedSectors (Attributes d)) ;;
       check_sectors PendingRule "pending sectors" disk_id d
         (PendingSectors (Attributes d)) ;;
       check_sectors UncorrectableRule "uncorrectable sectors" disk_id d
         (UncorrectableSectors (Attributes d)).

(** The call [get_disk_info(smartctl_path, disk_id)] inside the loop. *)
Definition call_get_disk_info (h : host) (smartctl_path disk_id : string)
    : M disk_info :=
  match fault h disk_id with
  | Some e => raise e
  | None => get_disk_info h smartctl_path disk_id
  end.

(** [f"Processing disk: {disk_id}"] and
    [f"ERROR processing disk {disk_id}: {e}"] *)
Definition processing_line (disk_id : string) : string :=
  "Processing disk: " ++ disk_id.
Definition error_line (disk_id : string) (e : exn) : string :=
  "ERROR processing disk " ++ disk_id ++ ": " ++ message e.

Definition examine_disk (h : host) (smartctl_path disk_id : string)
    : M unit :=
  print (processing_line disk_id) ;;
  d <- call_get_disk_info h smartctl_path disk_id ;;
  check_disk disk_id d.

(** One round of the loop, with its [try] and [except]. *)
Definition process_disk (h : host) (smartctl_path disk_id : string)
    : M unit :=
  try_except (examine_disk h smartctl_path disk_id)
    (fun e => print (error_line disk_id e)).

Definition status_warning : string :=
  nl ++ "Status: WARNING - Critical disk issues detected. See details above.".
Definition status_ok : string :=
  nl ++ "Status: OK - No critical disk issues detected.".

(** Summary section. *)
Definition summary : M Z :=
  print (nl ++ "===== Summary =====") ;;
  issues <- get_issues ;;
  match issues with
  | _ :: _ =>
      print "CRITICAL ISSUES DETECTED:" ;;
      for_each issues (fun issue => print ("- " ++ text issue)) ;;
      print status_warning ;;
      ret 1
  | [] =>
      print "All disks appear to be healthy." ;;
      print status_ok ;;
      ret 0
  end.

(** The scan of the disks that were found, and the summary. *)
Definition scan (h : host) (smartctl_path : string) (disk_ids : list string)
    : M Z :=
  for_each disk_ids (process_disk h smartctl_path) ;;
  summary.

(** The [try] block of [main]. *)
Definition main_body (h : host) : M Z :=
  print "Initializing SmartMonTools..." ;;
  smartctl_path <- initialize_smartmontools h ;;
  match truthy smartctl_path with
  | None => print "ERROR: Failed to initialize SmartMonTools" ;; ret 1
  | Some smartctl_path =>
      print ("Using SmartMonTools at: " ++ smartctl_path) ;;
      print "Scanning for physical disks..." ;;
      disk_ids <- get_physical_disks h smartctl_path ;;
      match disk_ids with
      | [] => print "ERROR: No physical disks detected." ;; ret 1
      | _ :: _ =>
          print (nl ++ "===== S.M.A.R.T. Disk Health Report =====") ;;
          print ("Date: " ++ now h) ;;
          print ("System: " ++ node h) ;;
          print ("Total Disks: " ++ str (Z.of_nat (List.length disk_ids))
                 ++ nl) ;;
          scan h smartctl_path disk_ids
      end
  end.

(** [main()]: the exit status and the final state.  Its handler only
    prints and returns 1; were an exception to leave it, the handler of the
    script would set the status to 1 as well. *)
Definition main (h : host) : Z * state :=
  if negb (is_admin h)
  then (1, mk_state
             ["ERROR: This script requires administrative privileges to run."]
             [])
  else match try_except (main_body h)
               (fun e =>
                  print ("ERROR: An unexpected error occurred: "
                         ++ message e) ;;
                  print ("Stack Trace: " ++ format_exc h e) ;;
                  ret 1) initial_state with
       | (inr status, s) => (status, s)
       | (inl _, s) => (1, s)
       end.

(** The script: the two markers around the output of [main], and the
    exit status of the process. *)
Definition script (h : host) : Z * list string :=
  let (exit_code, s) := main h in
  (exit_code, "<-Start Result->" :: stdout s ++ ["<-End Result->"]).

(** The findings of one record: what the checks append. *)
Definition findings (disk_id : string) (d : disk_info) : list finding :=
  critical_issues (snd (check_disk disk_id d initial_state)).

(** *** Views used to state the properties *)

Definition rule_eqb (r1 r2 : rule) : bool :=
  match r1, r2 with
  | HealthRule, HealthRule | TemperatureRule, TemperatureRule
  | LifeRule, LifeRule | ReallocatedRule, ReallocatedRule
  | PendingRule, PendingRule | UncorrectableRule, UncorrectableRule => true
  | _, _ => false
  end.

(** The findings of a list that one check reported. *)
Definition reported_by (r : rule) (fs : list finding) : list finding :=
  filter (fun f => rule_eqb (rule_of f) r) fs.

(** What a computation appends and prints when it starts from nothing. *)
Definition issues_of {A : Type} (m : M A) : list finding :=
  critical_issues (snd (m initial_state)).
Definition output_of {A : Type} (m : M A) : list string :=
  stdout (snd (m initial_state)).
Definition result_of {A : Type} (m : M A) : exn + A :=
  fst (m initial_state).

(** A computation that only adds to the state, and whose result and
    additions do not depend on the state it starts from. *)
Definition framed {A : Type} (m : M A) : Prop :=
  forall s, m s = (result_of m,
                   mk_state (stdout s ++ output_of m)
                            (critical_issues s ++ issues_of m)).

(** The findings of the checks of one record, taken one check at a time. *)
Definition health_findings (disk_id : string) (d : disk_info) : list finding :=
  issues_of (check_health disk_id d).
Definition temperature_findings (disk_id : string) (d : disk_info)
    : list finding :=
  issues_of (check_temperature disk_id d).
Definition life_findings (disk_id : string) (d : disk_info) : list finding :=
  issues_of (check_life disk_id d).

Definition sector_checks (disk_id : string) (d : disk_info) : M unit :=
  (check_sectors ReallocatedRule "reallocated sectors" disk_id d
     (ReallocatedSectors (Attributes d)) ;;
   check_sectors PendingRule "pending sectors" disk_id d
     (PendingSectors (Attributes d)) ;;
   check_sectors UncorrectableRule "uncorrectable sectors" disk_id d
     (UncorrectableSectors (Attributes d)))%monad.
Definition sector_findings (disk_id : string) (d : disk_info) : list finding :=
  issues_of (sector_checks disk_id d).

(** What a run of the utility returns, [None] when it raised, and the line
    that [run_smartctl] prints then. *)
Definition run_text (h : host) (smartctl_path : string) (args : list string)
    : option string :=
  match smartctl h smartctl_path args with
  | inr output => Some output
  | inl _ => None
  end.
Definition run_errors (h : host) (smartctl_path : string)
    (args : list string) : list string :=
  match smartctl h smartctl_path args with
  | inr _ => []
  | inl e => ["Error running smartctl: " ++ message e]
  end.

(** The record that [get_disk_info] returns for a disk, and the lines of
    its runs that raised: the health and the attribute query are not run
    when the identity query gave nothing. *)
Definition disk_record (h : host) (smartctl_path disk_id : string)
    : disk_info :=
  extract h (run_text h smartctl_path ["-i"; disk_id])
    (run_text h smartctl_path ["-H"; disk_id])
    (run_text h smartctl_path ["-A"; disk_id]).
Definition disk_errors (h : host) (smartctl_path disk_id : string)
    : list string :=
  app (run_errors h smartctl_path ["-i"; disk_id])
    match truthy (run_text h smartctl_path ["-i"; disk_id]) with
    | Some _ =>
        app (run_errors h smartctl_path ["-H"; disk_id])
          (run_errors h smartctl_path ["-A"; disk_id])
    | None => []
    end.

(** The list that [get_physical_disks] returns. *)
Definition scanned_disks (h : host) (smartctl_path : string) : list string :=
  match truthy (run_text h smartctl_path ["--scan"]) with
  | None => []
  | Some output =>
      map first_word (filter (contains "/dev/") (splitlines output))
  end.

(** A line that [run_smartctl] prints for a run that raised. *)
Definition smartctl_error_line (line : string) : Prop :=
  exists e, line = "Error running smartctl: " ++ message e.

(** The findings and the printed lines of one round of the loop. *)
Definition disk_findings (h : host) (smartctl_path disk_id : string)
    : list finding :=
  issues_of (process_disk h smartctl_path disk_id).
Definition disk_output (h : host) (smartctl_path disk_id : string)
    : list string :=
  output_of (process_disk h smartctl_path disk_id).

(** The record before the attribute text is read. *)
Definition before_attributes (info_output : string) (health : option string)
    : disk_info :=
  let d := parse_identity info_output default_disk_info in
  match truthy health with
  | Some health_output => parse_health health_output d
  | None => d
  end.

(** Each step of [get_disk_info] assigns one key of the record or
    nothing. *)
Definition assigns (set : string -> disk_info -> disk_info)
    (step : disk_info -> disk_info) : Prop :=
  forall d, step d = d \/ exists v, step d = set v d.

(** The text stored for a byte count: the rendering in TB, or [fallback]
    when the float division raised. *)
Definition tb_or (h : host) (bytes_value : Z) (fallback : string) : string :=
  match tb_text h bytes_value with
  | Some text => text
  | None => fallback
  end.

(** Findings that all come from one check, and a finding of one of the
    three sector checks. *)
Definition from_rule (r : rule) (fs : list finding) : Prop :=
  Forall (fun f => rule_of f = r) fs.

Definition sector_rule (f : finding) : Prop :=
  rule_of f = ReallocatedRule \/ rule_of f = PendingRule
  \/ rule_of f = UncorrectableRule.

(** The status that the summary section returns for a list of findings:
    the verdict, 0 for OK and 1 for WARNING. *)
Definition verdict (issues : list finding) : exn + Z :=
  fst (summary (mk_state [] issues)).

(** What the stored text of the data written or read is, for the legacy
    pattern and the NVMe pattern of the field. *)
Definition stored_tb (h : host) (legacy units : regex) (a field : string)
    : Prop :=
  match search legacy a with
  | Some m =>
      exists n, int (group m 1) = Some n /\ 0 <= n
        /\ field = tb_or h (n * 512) (group m 1)
  | None =>
      match search units a with
      | Some m =>
          match int (remove_char "," (group m 1)) with
          | Some n => field = tb_or h (n * 512 * 1024) NA
          | None => field = NA
          end
      | None => field = NA
      end
  end.

(** The text of a sector count in a record: unset, or a run of digits. *)
Definition sector_text (v : string) : Prop := v = NA \/ all_decimal v = true.

(** The lines that [main] prints before the loop, with those that
    [initialize_smartmontools] prints, and the lines of the summary. *)
Definition header_lines (h : host) (smartctl_path : string)
    (disk_ids : list string) : list string :=
  "Initializing SmartMonTools..."
  :: app (output_of (initialize_smartmontools h))
       ["Using SmartMonTools at: " ++ smartctl_path;
        "Scanning for physical disks...";
        nl ++ "===== S.M.A.R.T. Disk Health Report =====";
        "Date: " ++ now h;
        "System: " ++ node h;
        "Total Disks: " ++ str (Z.of_nat (List.length disk_ids)) ++ nl].

Definition summary_lines (issues : list finding) : list string :=
  match issues with
  | [] =>
      [nl ++ "===== Summary ====="; "All disks appear to be healthy.";
       status_ok]
  | _ :: _ =>
      [nl ++ "===== Summary ====="; "CRITICAL ISSUES DETECTED:"]
      ++ map (fun issue => "- " ++ text issue) issues ++ [status_warning]
  end.

(** The findings of a batch: those of each disk, in the order of the scan. *)
Definition batch_findings (h : host) (smartctl_path : string)
    (disk_ids : list string) : list finding :=
  List.concat (map (disk_findings h smartctl_path) disk_ids).
Definition batch_output (h : host) (smartctl_path : string)
    (disk_ids : list string) : list string :=
  List.concat (map (disk_output h smartctl_path) disk_ids).

(** *** The remaining display helper and views for further properties *)

(** [parse_temperature(value)] *)
Definition parse_temperature (value : string) : string :=
  if (String.eqb value NA || is_empty value)%bool then NA
  else match search re_number value with
       | Some m => celsius (group m 1)
       | None => celsius value
       end.

(** No occurrence of the literal [name] starts inside [pre] in the text
    [pre ++ s]. *)
Fixpoint starts_nowhere (name pre s : string) : bool :=
  match pre with
  | EmptyString => true
  | String _ pre' =>
      (negb (startswith name (pre ++ s)) && starts_nowhere name pre' s)%bool
  end.

(** A character that [.] matches and that is no digit: what lies between an
    attribute name and the first number of its line. *)
Definition plain_char (a : ascii) : bool :=
  (negb (Ascii.eqb a newline) && negb (is_decimal a))%bool.

(** The finding of a sector check for the text [v] of the counter. *)
Definition sector_issue (r : rule) (what disk_id : string) (d : disk_info)
    (v : string) : list finding :=
  match int v with
  | Some n =>
      if 0 <? n
      then [mk_finding r Critical
              (disk_label disk_id d ++ " has " ++ v ++ " " ++ what)]
      else []
  | None => []
  end.

(** The forms of the texts that the extractor stores. *)
Definition temperature_text (v : string) : Prop :=
  v = NA \/ exists g, all_decimal g = true /\ v = celsius g.
Definition power_on_text (v : string) : Prop :=
  v = NA \/ exists hours, 0 <= hours
    /\ v = str (hours / 24) ++ " days, " ++ str (hours mod 24) ++ " hours".
Definition life_text (v : string) : Prop :=
  v = NA \/ exists g n, all_decimal g = true /\ int g = Some n
    /\ (v = percent g \/ v = percent (str (100 - n))).
Definition label_text (v : string) : Prop :=
  is_empty v = false
  /\ forallb (fun a => negb (Ascii.eqb a newline)) v = true.

(** The lines of the report of a record, as the loop prints them. *)
Definition report_lines (disk_id : string) (d : disk_info) : list string :=
  ["----------------------------------------";
   "Disk: " ++ disk_id;
   "Model: " ++ Model d;
   "Type: " ++ (if IsSSD d then "SSD" else "HDD");
   "Serial: " ++ SerialNumber d;
   "Health Status: " ++ HealthStatus d;
   "Temperature: " ++ Temperature (Attributes d);
   "Power-On Time: " ++ PowerOnTime (Attributes d)]
  ++ (if IsSSD d
      then ["SSD Life Remaining: " ++ LifeRemaining (Attributes d);
            "Total Data Written: " ++ TotalWritten (Attributes d);
            "Total Data Read: " ++ TotalRead (Attributes d)]
      else ["Reallocated Sectors: " ++ ReallocatedSectors (Attributes d);
            "Pending Sectors: " ++ PendingSectors (Attributes d);
            "Uncorrectable Sectors: "
            ++ UncorrectableSectors (Attributes d)]).

(** A disk identifier as the scan gives it: a word. *)
Definition word_text (v : string) : Prop :=
  is_empty v = false /\ forallb (fun a => negb (is_space a)) v = true.

(** [w] is the first word of [line]: white space, then [w], then the end of
    the line or a white-space character. *)
Definition first_word_of (line w : string) : Prop :=
  word_text w
  /\ exists ws rest,
       line = ws ++ w ++ rest
       /\ forallb is_space ws = true
       /\ (rest = "" \/ exists a t, rest = String a t /\ is_space a = true).

End Smart.

(** ** Sample hosts *)

Module Examples.

Import PyStr Smart.

(** [f"{round(b / (1024**4), 2)} TB"] for a byte count below 2^53, where
    the quotient is an exact double: the hundredths are rounded half to
    even and printed without a trailing zero.  The samples stay below that
    bound. *)
Definition sample_tb_text (b : Z) : option string :=
  if ((0 <=? b) && (b <? 2 ^ 53))%bool then
    let q := (b * 100) / 2 ^ 40 in
    let r := (b * 100) mod 2 ^ 40 in
    let hundredths :=
      if (2 ^ 39 <? r) || ((r =? 2 ^ 39) && Z.odd q) then q + 1 else q in
    let whole := hundredths / 100 in
    let cents := hundredths mod 100 in
    let decimals :=
      if cents mod 10 =? 0 then str (cents / 10)
      else if cents <? 10 then "0" ++ str cents else str cents in
    Some (str whole ++ "." ++ decimals ++ " TB")
  else None.

Definition sample_path : string := "C:\Temp\SmartMonTools\bin\smartctl.exe".

(** The exception of a run of the utility that could not be started. *)
Definition run_failed : exn :=
  Exception "[WinError 2] The system cannot find the file specified".

Definition text_or_raise (text : option string) : exn + string :=
  match text with
  | Some t => inr t
  | None => inl run_failed
  end.

(** A host with the utility in place and the given disks; [texts disk_id]
    gives the identity, health and attribute texts of a disk, [None] for a
    run that raises, and [faults] the disks whose examination raises. *)
Definition sample_host (scan_output : string)
    (texts : string -> option string * option string * option string)
    (faults : string -> option exn) : host :=
  mk_host true sample_path "C:\Temp\SmartMonTools"
    "C:\Temp\smartmontools-setup.exe" true None (fun _ _ => None)
    false (fun _ _ => None) (fun _ _ => None) true
    (fun _ args =>
       match args with
       | ["--scan"] => inr scan_output
       | ["-i"; disk_id] => text_or_raise (fst (fst (texts disk_id)))
       | ["-H"; disk_id] => text_or_raise (snd (fst (texts disk_id)))
       | ["-A"; disk_id] => text_or_raise (snd (texts disk_id))
       | _ => inl run_failed
       end)
    "2025-03-12 08:00:00" "WORKSTATION" sample_tb_text faults
    (fun e => "Traceback (most recent call last): " ++ message e).

Definition no_fault : string -> option exn := fun _ => None.

Definition sda : string := "/dev/sda".
Definition sdb : string := "/dev/sdb".
Definition sdc : string := "/dev/sdc".

Definition scan_one : string := "/dev/sda -d ata # /dev/sda, ATA device" ++ nl.
Definition scan_three : string :=
  "/dev/sda -d ata # /dev/sda, ATA device" ++ nl ++
  "/dev/sdb -d ata # /dev/sdb, ATA device" ++ nl ++
  "/dev/sdc -d nvme # /dev/sdc, NVMe device" ++ nl.

Definition hdd_identity : string :=
  "Device Model:     WDC WD10EZEX-08WN4A0" ++ nl ++
  "Serial Number:    WD-WCC6Y1234567" ++ nl ++
  "Rotation Rate:    7200 rpm" ++ nl.

Definition ssd_identity : string :=
  "Device Model:     INTEL SSDSC2BB120G4" ++ nl ++
  "Serial Number:    BTWL1234567" ++ nl ++
  "Rotation Rate:    Solid State Device" ++ nl.

Definition nvme_identity : string :=
  "Model Number:                       Samsung 970 EVO 500GB" ++ nl ++
  "Serial Number:                      S466NX0K123456" ++ nl ++
  "NVMe Version:                       1.3" ++ nl.

Definition health_passed : string :=
  "SMART overall-health self-assessment test result: PASSED" ++ nl.

(** An attribute table as the utility prints it for an ATA disk, with the
    given raw value of the reallocated sector count. *)
Definition hdd_attributes (reallocated_raw : string) : string :=
  "ID# ATTRIBUTE_NAME          FLAG     VALUE WORST THRESH TYPE      UPDATED  WHEN_FAILED RAW_VALUE" ++ nl ++
  "  5 Reallocated_Sector_Ct   0x0033   200   200   140    Pre-fail  Always       -       " ++ reallocated_raw ++ nl ++
  "  9 Power_On_Hours          0x0032   093   093   000    Old_age   Always       -       5432" ++ nl ++
  "194 Temperature_Celsius     0x0022   110   099   000    Old_age   Always       -       37" ++ nl ++
  "197 Current_Pending_Sector  0x0032   200   200   000    Old_age   Always       -       0" ++ nl ++
  "198 Offline_Uncorrectable   0x0030   200   200   000    Old_age   Offline      -       0" ++ nl.

(** The rows of the two wear attributes as the utility prints them, with
    the given raw value, and an attribute table of a solid-state ATA disk
    with one of them. *)
Definition wearout_row (raw : string) : string :=
  "233 Media_Wearout_Indicator 0x0032   100   100   000    Old_age   Always       -       " ++ raw.
Definition leveling_row (raw : string) : string :=
  "177 Wear_Leveling_Count     0x0013   099   099   000    Pre-fail  Always       -       " ++ raw.
Definition ssd_attributes (wear_row : string) : string :=
  "ID# ATTRIBUTE_NAME          FLAG     VALUE WORST THRESH TYPE      UPDATED  WHEN_FAILED RAW_VALUE" ++ nl ++
  "  9 Power_On_Hours          0x0032   099   099   000    Old_age   Always       -       1234" ++ nl ++
  wear_row ++ nl ++
  "194 Temperature_Celsius     0x0022   067   060   000    Old_age   Always       -       33" ++ nl.

Definition nvme_attributes : string :=
  "SMART/Health Information (NVMe Log 0x02)" ++ nl ++
  "Temperature:                        41 Celsius" ++ nl ++
  "Percentage Used:                    85%" ++ nl ++
  "Data Units Read:                    1,048,576 [536 GB]" ++ nl ++
  "Data Units Written:                 2,097,152 [1.07 TB]" ++ nl ++
  "Power On Hours:                     100" ++ nl.

(** One ATA disk whose reallocated sector count has the given raw value. *)
Definition hdd_host (reallocated_raw : string) : host :=
  sample_host scan_one
    (fun _ => (Some hdd_identity, Some health_passed,
               Some (hdd_attributes reallocated_raw)))
    no_fault.

(** One solid-state disk with the given health and attribute texts. *)
Definition ssd_host (health attr : option string) : host :=
  sample_host scan_one (fun _ => (Some ssd_identity, health, attr)) no_fault.

(** One NVMe disk. *)
Definition nvme_host : host :=
  sample_host scan_one
    (fun _ => (Some nvme_identity, Some health_passed, Some nvme_attributes))
    no_fault.

(** Three disks; the examination of the second one raises. *)
Definition three_disk_host : host :=
  sample_host scan_three
    (fun disk_id =>
       if String.eqb disk_id sdc
       then (Some nvme_identity, Some health_passed, Some nvme_attributes)
       else (Some hdd_identity, Some health_passed,
             Some (hdd_attributes "0")))
    (fun disk_id =>
       if String.eqb disk_id sdb
       then Some (Exception "[WinError 5] Access is denied")
       else None).

End Examples.

(** ** Facts about the string primitives *)

Module PyStrFacts.
Import PyStr.

Lemma decimal_char_digit (a : ascii) (u : Decimal.uint) :
  is_decimal a = true -> exists u', uint_of_char a (Some u) = Some u'.
Proof.
  destruct a as [b0 b1 b2 b3 b4 b5 b6 b7].
  destruct b0, b1, b2, b3, b4, b5, b6, b7; intros H;
    try (vm_compute in H; discriminate H); eexists; reflexivity.
Qed.

Lemma decimal_run_uint (s : string) :
  forallb is_decimal s = true ->
  exists u, NilEmpty.uint_of_string s = Some u.
Proof.
  induction s as [| a s IH]; simpl; intros H.
  - eexists; reflexivity.
  - apply andb_prop in H. destruct H as [Ha Hs].
    destruct (IH Hs) as [u ->]. apply decimal_char_digit. assumption.
Qed.

(** [int] succeeds on what [\d+] captures, with a natural number. *)
Lemma int_all_decimal (s : string) :
  all_decimal s = true -> exists n, int s = Some n /\ 0 <= n.
Proof.
  unfold all_decimal, int. intros H. apply andb_prop in H.
  destruct H as [Hne Hs]. destruct (decimal_run_uint s Hs) as [u Hu].
  destruct s as [| a s]; [discriminate |].
  unfold NilZero.uint_of_string. rewrite Hu. simpl.
  exists (Z.of_uint u). split; [reflexivity |].
  unfold Z.of_uint. apply N2Z.is_nonneg.
Qed.

Lemma forallb_impl (p q : ascii -> bool) (s : string) :
  (forall a, p a = true -> q a = true) ->
  forallb p s = true -> forallb q s = true.
Proof.
  intros Hpq. induction s as [| a s IH]; simpl; [reflexivity |].
  intros H. apply andb_prop in H. destruct H as [Ha Hs].
  rewrite (Hpq a Ha), (IH Hs). reflexivity.
Qed.

Lemma isdigit_all_decimal (s : string) :
  all_decimal s = true -> isdigit s = true.
Proof.
  unfold all_decimal, isdigit. intros H. apply andb_prop in H.
  destruct H as [-> Hs]. simpl.
  apply (forallb_impl is_decimal); [| assumption].
  intros a Ha. unfold is_digit_char. rewrite Ha. reflexivity.
Qed.

(** Reading back the decimal text of a natural number. *)
Lemma int_str (n : Z) : 0 <= n -> int (str n) = Some n.
Proof.
  intros Hn. unfold int, str. destruct n as [| p | p]; [reflexivity | | lia].
  simpl. rewrite NilZero.usu by apply Unsigned.to_uint_nonnil.
  simpl. unfold Z.of_uint. rewrite Unsigned.of_to. reflexivity.
Qed.

Lemma NA_not_decimal (s : string) : all_decimal s = true -> String.eqb s "N/A" = false.
Proof.
  intros H. apply String.eqb_neq. intros ->. vm_compute in H. discriminate.
Qed.

End PyStrFacts.

(** ** Facts about the matcher *)

Module ReFacts.
Import Re.

Lemma orelse_some (a b : option caps) (x : caps) :
  orelse a b = Some x -> a = Some x \/ b = Some x.
Proof. destruct a; simpl; auto. Qed.

Lemma repeat_sound (g : bool) (r : regex) (k : cont) :
  sound_at r ->
  forall n s c x, repeat (run r) g k n s c = Some x ->
    exists s' c', matches (Star g r) s c s' c' /\ k s' c' = Some x.
Proof.
  intros Hr n. induction n as [|n IH]; intros s c x H; simpl in H.
  - exists s, c. split; [constructor | assumption].
  - assert (Hcases :
      k s c = Some x \/
      run r s c (fun s' c' =>
        if Nat.ltb (String.length s') (String.length s)
        then repeat (run r) g k n s' c' else None) = Some x).
    { destruct g; apply orelse_some in H; tauto. }
    destruct Hcases as [Hk | Hmore].
    + exists s, c. split; [constructor | assumption].
    + apply Hr in Hmore. destruct Hmore as (s1 & c1 & Hm & Hrest).
      destruct (Nat.ltb (String.length s1) (String.length s));
        [| discriminate].
      apply IH in Hrest. destruct Hrest as (s2 & c2 & Hm2 & Hk).
      exists s2, c2. split; [econstructor; eassumption | assumption].
Qed.

(** Every answer of the matcher is a match of the pattern, handed to the
    continuation. *)
Lemma run_sound (r : regex) : sound_at r.
Proof.
  induction r as [| p | r1 IH1 r2 IH2 | r1 IH1 r2 IH2 | g r1 IH1 | i r1 IH1];
    intros s c k x H; simpl in H.
  - exists s, c. split; [constructor | assumption].
  - destruct s as [| a s']; [discriminate |].
    destruct (p a) eqn:Hp; [| discriminate].
    exists s', c. split; [constructor; assumption | assumption].
  - apply IH1 in H. destruct H as (s1 & c1 & Hm1 & H).
    apply IH2 in H. destruct H as (s2 & c2 & Hm2 & H).
    exists s2, c2. split; [econstructor; eassumption | assumption].
  - apply orelse_some in H. destruct H as [H | H].
    + apply IH1 in H. destruct H as (s1 & c1 & Hm & H).
      exists s1, c1. split; [apply M_AltL; assumption | assumption].
    + apply IH2 in H. destruct H as (s1 & c1 & Hm & H).
      exists s1, c1. split; [apply M_AltR; assumption | assumption].
  - eapply repeat_sound; eassumption.
  - apply IH1 in H. destruct H as (s1 & c1 & Hm & H).
    exists s1, ((i, consumed s s1) :: c1).
    split; [constructor; assumption | assumption].
Qed.

Lemma match_here_sound (r : regex) (s : string) (m : caps) :
  match_here r s = Some m -> exists s', matches r s [] s' m.
Proof.
  unfold match_here. intros H. apply run_sound in H.
  destruct H as (s' & c' & Hm & Hk). unfold accept in Hk.
  injection Hk as ->. exists s'. assumption.
Qed.

Lemma search_sound (r : regex) (s : string) (m : caps) :
  search r s = Some m -> exists t s', matches r t [] s' m.
Proof.
  induction s as [| a s IH]; simpl.
  - destruct (match_here r "") eqn:E; [| discriminate].
    intros H; injection H as ->. apply match_here_sound in E.
    destruct E as (s' & E). eauto.
  - destruct (match_here r (String a s)) eqn:E.
    + intros H; injection H as ->. apply match_here_sound in E.
      destruct E as (s' & E). eauto.
    + assumption.
Qed.

(** *** Shapes of the matches of the patterns in use *)

Lemma length_append (s t : string) :
  String.length (s ++ t) = (String.length s + String.length t)%nat.
Proof. induction s as [| a s IH]; simpl; [reflexivity | now rewrite IH]. Qed.

Lemma take_append (d s : string) : take (String.length d) (d ++ s) = d.
Proof. induction d as [| a d IH]; simpl; [now destruct s | now rewrite IH]. Qed.

Lemma consumed_append (d s : string) : consumed (d ++ s) s = d.
Proof.
  unfold consumed. rewrite length_append.
  replace (String.length d + String.length s - String.length s)%nat
    with (String.length d) by lia.
  apply take_append.
Qed.

Lemma matches_chr p s c s' c' :
  matches (Chr p) s c s' c' ->
  exists a, s = String a s' /\ p a = true /\ c' = c.
Proof. intros H. inversion H; subst. eauto. Qed.

Lemma matches_lit w s c s' c' :
  matches (lit w) s c s' c' -> s = w ++ s' /\ c' = c.
Proof.
  revert s c. induction w as [| a w IH]; intros s c H; simpl in H.
  - inversion H; subst. auto.
  - inversion H; subst.
    match goal with
    | H1 : matches (Chr _) _ _ _ _, H2 : matches (lit _) _ _ _ _ |- _ =>
        apply matches_chr in H1; destruct H1 as (b & -> & Hb & ->);
        apply IH in H2; destruct H2 as (-> & ->)
    end.
    apply Ascii.eqb_eq in Hb. subst. auto.
Qed.

Lemma matches_star_chr g p s c s' c' :
  matches (Star g (Chr p)) s c s' c' ->
  exists d, s = d ++ s' /\ PyStr.forallb p d = true /\ c' = c.
Proof.
  intros H. remember (Star g (Chr p)) as r eqn:Er.
  induction H; try discriminate; injection Er as -> ->.
  - exists "". auto.
  - apply matches_chr in H. destruct H as (a & -> & Ha & ->).
    destruct (IHmatches2 eq_refl) as (d & -> & Hd & ->).
    exists (String a d). simpl. rewrite Ha, Hd. auto.
Qed.

Lemma matches_plus_chr p s c s' c' :
  matches (plus (Chr p)) s c s' c' ->
  exists d, s = d ++ s' /\ PyStr.is_empty d = false
            /\ PyStr.forallb p d = true /\ c' = c.
Proof.
  unfold plus. intros H. inversion H; subst.
  match goal with
  | H1 : matches (Chr _) _ _ _ _, H2 : matches (Star _ _) _ _ _ _ |- _ =>
      apply matches_chr in H1; destruct H1 as (a & -> & Ha & ->);
      apply matches_star_chr in H2; destruct H2 as (d & -> & Hd & ->)
  end.
  exists (String a d). simpl. rewrite Ha, Hd. auto.
Qed.

(** A group around [p+] holds a non-empty run of [p] characters. *)
Lemma matches_group_plus i p s c s' c' :
  matches (Group i (plus (Chr p))) s c s' c' ->
  exists d, s = d ++ s' /\ PyStr.is_empty d = false
            /\ PyStr.forallb p d = true /\ c' = (i, d) :: c.
Proof.
  intros H. inversion H; subst.
  match goal with
  | H1 : matches (plus _) _ _ _ _ |- _ =>
      apply matches_plus_chr in H1; destruct H1 as (d & -> & Hne & Hd & ->)
  end.
  exists d. rewrite consumed_append. auto.
Qed.

Lemma matches_seq2 r1 r2 s c s' c' :
  matches (Seq r1 r2) s c s' c' ->
  exists s1 c1, matches r1 s c s1 c1 /\ matches r2 s1 c1 s' c'.
Proof. intros H. inversion H; subst. eauto. Qed.

(** *** Greedy repetition takes the whole run *)

Lemma repeat_greedy_chr p k d rest c x :
  PyStr.forallb p d = true -> stops p rest = true ->
  k rest c = Some x ->
  forall n, (String.length (d ++ rest) <= n)%nat ->
    repeat (run (Chr p)) true k n (d ++ rest) c = Some x.
Proof.
  intros Hd Hrest Hk. induction d as [| a d IH]; intros n Hn; simpl in *.
  - destruct n as [| n]; simpl; [assumption |].
    destruct rest as [| b rest]; simpl; [assumption |].
    simpl in Hrest. destruct (p b); [discriminate | assumption].
  - apply andb_prop in Hd. destruct Hd as [Ha Hd].
    destruct n as [| n]; [lia |]. simpl. rewrite Ha.
    assert (Hlt : Nat.ltb (String.length (d ++ rest))
                    (S (String.length (d ++ rest))) = true)
      by (apply Nat.ltb_lt; lia).
    rewrite Hlt. rewrite (IH Hd n) by lia. reflexivity.
Qed.

Lemma run_group_plus_greedy i p k d rest c x :
  PyStr.is_empty d = false -> PyStr.forallb p d = true ->
  stops p rest = true ->
  k rest ((i, d) :: c) = Some x ->
  run (Group i (plus (Chr p))) (d ++ rest) c k = Some x.
Proof.
  intros Hne Hd Hrest Hk. destruct d as [| a d]; [discriminate |].
  simpl in Hd. apply andb_prop in Hd. destruct Hd as [Ha Hd].
  cbn [run plus append]. rewrite Ha.
  apply repeat_greedy_chr; try assumption; [| lia].
  change (String a (d ++ rest)) with (String a d ++ rest).
  rewrite consumed_append. assumption.
Qed.

End ReFacts.

(** ** Facts about the patterns of the monitor *)

Module PatternFacts.
Import PyStr Re ReFacts Smart.

(** Takes a match of one of the patterns apart, piece by piece. *)
Ltac split_match :=
  repeat match goal with
  | H : matches (Group _ (plus (Chr _))) _ _ _ _ |- _ =>
      apply matches_group_plus in H;
      let d := fresh "d" in
      destruct H as (d & ? & ? & ? & ?)
  | H : matches (plus (Chr _)) _ _ _ _ |- _ =>
      apply matches_plus_chr in H;
      let d := fresh "w" in
      destruct H as (d & ? & ? & ? & ?)
  | H : matches (Star _ (Chr _)) _ _ _ _ |- _ =>
      apply matches_star_chr in H;
      let d := fresh "w" in
      destruct H as (d & ? & ? & ?)
  | H : matches (lit _) _ _ _ _ |- _ =>
      apply matches_lit in H; destruct H as (? & ?)
  | H : matches (Seq _ _) _ _ _ _ |- _ =>
      apply matches_seq2 in H; destruct H as (? & ? & ? & H)
  end.

Lemma decimal_group (d : string) :
  is_empty d = false -> forallb is_decimal d = true -> all_decimal d = true.
Proof. unfold all_decimal. intros -> ->. reflexivity. Qed.

(** [NAME.*?(\d+)] captures a run of digits as its only group. *)
Lemma search_attribute_row (name s : string) (m : caps) :
  search (attribute_row name) s = Some m ->
  exists d, all_decimal d = true /\ m = [(1%nat, d)].
Proof.
  intros H. apply search_sound in H. destruct H as (t & s' & H).
  unfold attribute_row, lazy_star, digit, dot in H. cbn [seq] in H.
  split_match. subst. eauto using decimal_group.
Qed.

Lemma matches_group_alt_lit i n1 n2 s c s' c' :
  matches (Group i (Alt (lit n1) (lit n2))) s c s' c' ->
  exists n, (n = n1 \/ n = n2) /\ s = n ++ s' /\ c' = (i, n) :: c.
Proof.
  intros H. inversion H; subst.
  match goal with
  | H1 : matches (Alt _ _) _ _ _ _ |- _ => inversion H1; subst
  end; split_match; subst; rewrite consumed_append; eauto.
Qed.

(** [(NAME1|NAME2).*?(\d+)] captures the name and a run of digits. *)
Lemma search_attribute_row2 (name1 name2 s : string) (m : caps) :
  search (attribute_row2 name1 name2) s = Some m ->
  exists n d, (n = name1 \/ n = name2) /\ all_decimal d = true
              /\ m = [(2%nat, d); (1%nat, n)].
Proof.
  intros H. apply search_sound in H. destruct H as (t & s' & H).
  unfold attribute_row2, lazy_star, digit, dot in H. cbn [seq] in H.
  apply matches_seq2 in H. destruct H as (s1 & c1 & H1 & H).
  apply matches_group_alt_lit in H1. destruct H1 as (n & Hn & -> & ->).
  split_match. subst. eauto 8 using decimal_group.
Qed.

Lemma search_nvme_power_on_hours (s : string) (m : caps) :
  search re_nvme_power_on_hours s = Some m ->
  exists d, all_decimal d = true /\ m = [(1%nat, d)].
Proof.
  intros H. apply search_sound in H. destruct H as (t & s' & H).
  unfold re_nvme_power_on_hours, digit, space in H. cbn [seq] in H.
  split_match. subst. eauto using decimal_group.
Qed.

Lemma search_percentage_used (s : string) (m : caps) :
  search re_percentage_used s = Some m ->
  exists d, all_decimal d = true /\ m = [(1%nat, d)].
Proof.
  intros H. apply search_sound in H. destruct H as (t & s' & H).
  unfold re_percentage_used, digit, space in H. cbn [seq] in H.
  split_match. subst. eauto using decimal_group.
Qed.

Lemma search_number (s : string) (m : caps) :
  search re_number s = Some m ->
  exists d, all_decimal d = true /\ m = [(1%nat, d)].
Proof.
  intros H. apply search_sound in H. destruct H as (t & s' & H).
  unfold re_number, digit in H.
  split_match. subst. eauto using decimal_group.
Qed.

Lemma search_number_percent (s : string) (m : caps) :
  search re_number_percent s = Some m ->
  exists d, all_decimal d = true /\ m = [(1%nat, d)].
Proof.
  intros H. apply search_sound in H. destruct H as (t & s' & H).
  unfold re_number_percent, digit in H. cbn [seq] in H.
  split_match. subst. eauto using decimal_group.
Qed.

(** The first run of digits of the text [celsius digits] is [digits]. *)
Lemma search_number_celsius (d : string) :
  all_decimal d = true -> search re_number (celsius d) = Some [(1%nat, d)].
Proof.
  unfold all_decimal. intros H. apply andb_prop in H. destruct H as [Hne Hd].
  apply negb_true_iff in Hne.
  assert (Hrun : match_here re_number (celsius d) = Some [(1%nat, d)]).
  { unfold match_here, re_number, digit, celsius.
    apply run_group_plus_greedy; try assumption; reflexivity. }
  destruct d as [| a d]; [discriminate |].
  unfold celsius in *. cbn [append search] in *. rewrite Hrun. reflexivity.
Qed.

End PatternFacts.

(** ** Facts about the state of [main] *)

Module StateFacts.
Import PyStr Re ReFacts PyStrFacts PatternFacts Smart.

Lemma framed_ret {A : Type} (a : A) : framed (ret a).
Proof.
  intros [out iss]. unfold ret, result_of, output_of, issues_of. simpl.
  now rewrite !app_nil_r.
Qed.

Lemma framed_raise {A : Type} (e : exn) : framed (@raise A e).
Proof.
  intros [out iss]. unfold raise, result_of, output_of, issues_of. simpl.
  now rewrite !app_nil_r.
Qed.

Lemma framed_print (line : string) : framed (print line).
Proof.
  intros [out iss]. unfold print, result_of, output_of, issues_of. simpl.
  now rewrite !app_nil_r.
Qed.

Lemma framed_append_issue (f : finding) : framed (append_issue f).
Proof.
  intros [out iss]. unfold append_issue, result_of, output_of, issues_of.
  simpl. now rewrite !app_nil_r.
Qed.

Lemma framed_bind {A B : Type} (m : M A) (f : A -> M B) :
  framed m -> (forall a, framed (f a)) -> framed (bind m f).
Proof.
  intros Hm Hf s. unfold result_of, output_of, issues_of, bind.
  rewrite (Hm s). unfold result_of, output_of, issues_of.
  destruct (m initial_state) as [[e | a] s0]; simpl; [reflexivity |].
  rewrite (Hf a _), (Hf a s0). unfold result_of, output_of, issues_of. simpl.
  now rewrite !app_assoc.
Qed.

Lemma framed_try_except {A : Type} (m : M A) (handler : exn -> M A) :
  framed m -> (forall e, framed (handler e)) -> framed (try_except m handler).
Proof.
  intros Hm Hh s. unfold result_of, output_of, issues_of, try_except.
  rewrite (Hm s). unfold result_of, output_of, issues_of.
  destruct (m initial_state) as [[e | a] s0]; simpl; [| reflexivity].
  rewrite (Hh e _), (Hh e s0). unfold result_of, output_of, issues_of. simpl.
  now rewrite !app_assoc.
Qed.

Lemma framed_for_each {A : Type} (xs : list A) (body : A -> M unit) :
  (forall x, framed (body x)) -> framed (for_each xs body).
Proof.
  intros Hb. induction xs as [| x xs IH]; simpl.
  - apply framed_ret.
  - apply framed_bind; [apply Hb | intros _; apply IH].
Qed.

Lemma framed_int_or_raise (s : string) : framed (int_or_raise s).
Proof.
  unfold int_or_raise. destruct (int s); [apply framed_ret | apply framed_raise].
Qed.

Lemma framed_may_raise (r : option exn) : framed (may_raise r).
Proof. destruct r; [apply framed_raise | apply framed_ret]. Qed.

(** Solves [framed m] for a computation built from the operations above. *)
Ltac frame :=
  repeat first
    [ apply framed_ret | apply framed_raise | apply framed_print
    | apply framed_append_issue | apply framed_int_or_raise
    | apply framed_may_raise
    | apply framed_bind; [| intros ?]
    | apply framed_try_except; [| intros ?]
    | match goal with
      | |- framed (if ?b then _ else _) => destruct b
      | |- framed (match ?x with _ => _ end) => destruct x
      end ].

Lemma framed_check_health disk_id d : framed (check_health disk_id d).
Proof. unfold check_health. frame. Qed.

Lemma framed_check_temperature disk_id d : framed (check_temperature disk_id d).
Proof. unfold check_temperature. frame. Qed.

Lemma framed_check_life disk_id d : framed (check_life disk_id d).
Proof. unfold check_life. frame. Qed.

Lemma framed_check_sectors r what disk_id d v :
  framed (check_sectors r what disk_id d v).
Proof. unfold check_sectors. frame. Qed.

Lemma framed_check_disk disk_id d : framed (check_disk disk_id d).
Proof.
  unfold check_disk.
  repeat first
    [ apply framed_print | apply framed_check_health
    | apply framed_check_temperature | apply framed_check_life
    | apply framed_check_sectors
    | apply framed_bind; [| intros ?]
    | match goal with |- framed (if ?b then _ else _) => destruct b end ].
Qed.

Lemma framed_run_smartctl h path args : framed (run_smartctl h path args).
Proof. unfold run_smartctl. frame. Qed.

Lemma framed_get_disk_info h path disk_id :
  framed (get_disk_info h path disk_id).
Proof.
  unfold get_disk_info. cbv zeta.
  apply framed_bind; [apply framed_run_smartctl | intros info].
  destruct (truthy info); [| apply framed_ret].
  apply framed_bind; [apply framed_run_smartctl | intros health].
  apply framed_bind; [apply framed_run_smartctl | intros attr].
  destruct (truthy attr); apply framed_ret.
Qed.

Lemma framed_get_physical_disks h path : framed (get_physical_disks h path).
Proof.
  unfold get_physical_disks.
  apply framed_bind; [apply framed_run_smartctl | intros output].
  destruct (truthy output); apply framed_ret.
Qed.

Lemma framed_download_file h url destination :
  framed (download_file h url destination).
Proof. unfold download_file. frame. Qed.

Lemma framed_extract_exe h exe_path extract_path :
  framed (extract_exe h exe_path extract_path).
Proof. unfold extract_exe. frame. Qed.

Lemma framed_initialize_smartmontools h :
  framed (initialize_smartmontools h).
Proof.
  unfold initialize_smartmontools.
  destruct (tool_present h); [frame |].
  apply framed_bind; [apply framed_may_raise | intros _].
  apply framed_bind; [apply framed_download_file | intros downloaded].
  destruct (negb downloaded); [apply framed_ret |].
  apply framed_bind; [apply framed_extract_exe | intros extracted].
  destruct (negb extracted); [apply framed_ret |].
  destruct (negb (tool_extracted h)); frame.
Qed.

Lemma framed_process_disk h path disk_id :
  framed (process_disk h path disk_id).
Proof.
  unfold process_disk. apply framed_try_except; [| intros e; apply framed_print].
  unfold examine_disk. apply framed_bind; [apply framed_print | intros _].
  apply framed_bind; [| intros d; apply framed_check_disk].
  unfold call_get_disk_info.
  destruct (fault h disk_id); [apply framed_raise | apply framed_get_disk_info].
Qed.

(** What a sequence appends, prints and returns. *)
Lemma issues_of_bind {A B : Type} (m : M A) (f : A -> M B) :
  framed m -> (forall a, framed (f a)) ->
  issues_of (bind m f) =
    (issues_of m ++ match result_of m with
                    | inr a => issues_of (f a)
                    | inl _ => []
                    end)%list.
Proof.
  intros Hm Hf. unfold issues_of, result_of, bind.
  destruct (m initial_state) as [[e | a] s0]; simpl.
  - now rewrite app_nil_r.
  - rewrite (Hf a s0). reflexivity.
Qed.

Lemma output_of_bind {A B : Type} (m : M A) (f : A -> M B) :
  framed m -> (forall a, framed (f a)) ->
  output_of (bind m f) =
    (output_of m ++ match result_of m with
                    | inr a => output_of (f a)
                    | inl _ => []
                    end)%list.
Proof.
  intros Hm Hf. unfold output_of, result_of, bind.
  destruct (m initial_state) as [[e | a] s0]; simpl.
  - now rewrite app_nil_r.
  - rewrite (Hf a s0). reflexivity.
Qed.

Lemma result_of_bind {A B : Type} (m : M A) (f : A -> M B) :
  framed m -> (forall a, framed (f a)) ->
  result_of (bind m f) =
    match result_of m with
    | inr a => result_of (f a)
    | inl e => inl e
    end.
Proof.
  intros Hm Hf. unfold result_of, bind.
  destruct (m initial_state) as [[e | a] s0]; simpl; [reflexivity |].
  rewrite (Hf a s0). reflexivity.
Qed.

End StateFacts.

(** ** Facts about the checks *)

Module CheckFacts.
Import PyStr Re ReFacts PyStrFacts PatternFacts Smart StateFacts.

Lemma issues_of_print_bind {B : Type} (line : string) (f : unit -> M B) :
  framed (f tt) -> issues_of (bind (print line) f) = issues_of (f tt).
Proof.
  intros Hf. unfold issues_of, bind, print. simpl. rewrite (Hf _). reflexivity.
Qed.

Lemma result_of_print_bind {B : Type} (line : string) (f : unit -> M B) :
  framed (f tt) -> result_of (bind (print line) f) = result_of (f tt).
Proof.
  intros Hf. unfold result_of, bind, print. simpl. rewrite (Hf _). reflexivity.
Qed.

Lemma output_of_print_bind {B : Type} (line : string) (f : unit -> M B) :
  framed (f tt) ->
  output_of (bind (print line) f) = line :: output_of (f tt).
Proof.
  intros Hf. unfold output_of, bind, print. simpl. rewrite (Hf _). reflexivity.
Qed.

(** The health check and the temperature check never raise. *)
Lemma result_of_check_health disk_id d :
  result_of (check_health disk_id d) = inr tt.
Proof. unfold check_health. now destruct (_ && _)%bool. Qed.

Lemma result_of_check_temperature disk_id d :
  result_of (check_temperature disk_id d) = inr tt.
Proof.
  unfold check_temperature.
  destruct (search re_number (Temperature (Attributes d))) as [m |] eqn:E;
    [| reflexivity].
  apply search_number in E. destruct E as (g & Hg & ->).
  destruct (int_all_decimal g Hg) as (n & Hn & _).
  unfold result_of, bind, int_or_raise. cbn [group Nat.eqb]. rewrite Hn.
  cbn. destruct (60 <=? n); [reflexivity |]. now destruct (50 <=? n).
Qed.

Lemma result_of_check_life disk_id d :
  result_of (check_life disk_id d) = inr tt.
Proof.
  unfold check_life.
  destruct (search re_number_percent (LifeRemaining (Attributes d)))
    as [m |] eqn:E; [| reflexivity].
  apply search_number_percent in E. destruct E as (g & Hg & ->).
  destruct (int_all_decimal g Hg) as (n & Hn & _).
  unfold result_of, bind, int_or_raise. cbn [group Nat.eqb]. rewrite Hn.
  cbn. destruct (n <=? 10); [reflexivity |]. now destruct (n <=? 20).
Qed.

(** Solves [framed m] for the pieces of [check_disk]. *)
Ltac framing :=
  intros; cbv beta;
  repeat first
    [ assumption | apply framed_print | apply framed_check_health
    | apply framed_check_temperature | apply framed_check_life
    | apply framed_check_sectors
    | apply framed_bind; [| intros ?]
    | match goal with |- framed (if ?b then _ else _) => destruct b end ].

(** The findings of a record, check by check. *)
Lemma findings_split disk_id d :
  findings disk_id d =
    (health_findings disk_id d ++ temperature_findings disk_id d
     ++ (if IsSSD d then life_findings disk_id d
         else sector_findings disk_id d))%list.
Proof.
  change (findings disk_id d) with (issues_of (check_disk disk_id d)).
  unfold check_disk. cbv zeta.
  rewrite !issues_of_print_bind by framing.
  rewrite issues_of_bind, result_of_check_health by framing.
  rewrite issues_of_bind, result_of_check_temperature by framing.
  destruct (IsSSD d); rewrite !issues_of_print_bind by framing; reflexivity.
Qed.

(** The report and the checks raise only if a sector check does. *)
Lemma result_of_check_disk disk_id d :
  result_of (check_disk disk_id d) =
    if IsSSD d then inr tt else result_of (sector_checks disk_id d).
Proof.
  unfold check_disk. cbv zeta.
  rewrite !result_of_print_bind by framing.
  rewrite result_of_bind, result_of_check_health by framing.
  rewrite result_of_bind, result_of_check_temperature by framing.
  destruct (IsSSD d); rewrite !result_of_print_bind by framing.
  - apply result_of_check_life.
  - reflexivity.
Qed.

End CheckFacts.

(** ** Facts about the extractor *)

Module ExtractFacts.
Import PyStr Re ReFacts PyStrFacts PatternFacts Smart.

Ltac assigns_by_cases :=
  intros d;
  repeat match goal with
  | |- context [match ?x with _ => _ end] => destruct x
  end; eauto.

Lemma parse_model_assigns i : assigns set_Model (parse_model i).
Proof. unfold parse_model. assigns_by_cases. Qed.

Lemma parse_serial_assigns i : assigns set_SerialNumber (parse_serial i).
Proof. unfold parse_serial. assigns_by_cases. Qed.

Lemma detect_ssd_assigns i d :
  detect_ssd i d = d \/ detect_ssd i d = set_IsSSD true d.
Proof.
  unfold detect_ssd. destruct (_ || _)%bool; [auto |].
  destruct (contains "SSD" (Model d)); auto.
Qed.

Lemma parse_health_assigns hl : assigns set_HealthStatus (parse_health hl).
Proof. unfold parse_health. assigns_by_cases. Qed.

Lemma parse_temperature_assigns a :
  assigns set_Temperature (parse_temperature_attr a).
Proof. unfold parse_temperature_attr. assigns_by_cases. Qed.

Lemma parse_power_on_assigns a : assigns set_PowerOnTime (parse_power_on a).
Proof. unfold parse_power_on. assigns_by_cases. Qed.

Lemma parse_reallocated_assigns a :
  assigns set_ReallocatedSectors (parse_reallocated a).
Proof. unfold parse_reallocated. assigns_by_cases. Qed.

Lemma parse_pending_assigns a : assigns set_PendingSectors (parse_pending a).
Proof. unfold parse_pending. assigns_by_cases. Qed.

Lemma parse_uncorrectable_assigns a :
  assigns set_UncorrectableSectors (parse_uncorrectable a).
Proof. unfold parse_uncorrectable. assigns_by_cases. Qed.

Lemma parse_wear_assigns a : assigns set_LifeRemaining (parse_wear a).
Proof. unfold parse_wear. assigns_by_cases. Qed.

Lemma parse_written_assigns h a : assigns set_TotalWritten (parse_written h a).
Proof. unfold parse_written. assigns_by_cases. Qed.

Lemma parse_read_assigns h a : assigns set_TotalRead (parse_read h a).
Proof. unfold parse_read. assigns_by_cases. Qed.

(** Replaces the outermost step of the goal by its assignment, or by
    nothing. *)
Ltac open_step :=
  match goal with
  | |- context [parse_read ?h ?a ?d] =>
      destruct (parse_read_assigns h a d) as [-> | [? ->]]
  | |- context [parse_written ?h ?a ?d] =>
      destruct (parse_written_assigns h a d) as [-> | [? ->]]
  | |- context [parse_wear ?a ?d] =>
      destruct (parse_wear_assigns a d) as [-> | [? ->]]
  | |- context [parse_uncorrectable ?a ?d] =>
      destruct (parse_uncorrectable_assigns a d) as [-> | [? ->]]
  | |- context [parse_pending ?a ?d] =>
      destruct (parse_pending_assigns a d) as [-> | [? ->]]
  | |- context [parse_reallocated ?a ?d] =>
      destruct (parse_reallocated_assigns a d) as [-> | [? ->]]
  | |- context [parse_power_on ?a ?d] =>
      destruct (parse_power_on_assigns a d) as [-> | [? ->]]
  | |- context [parse_temperature_attr ?a ?d] =>
      destruct (parse_temperature_assigns a d) as [-> | [? ->]]
  | |- context [parse_health ?a ?d] =>
      destruct (parse_health_assigns a d) as [-> | [? ->]]
  | |- context [detect_ssd ?a ?d] =>
      destruct (detect_ssd_assigns a d) as [-> | ->]
  | |- context [parse_serial ?a ?d] =>
      destruct (parse_serial_assigns a d) as [-> | [? ->]]
  | |- context [parse_model ?a ?d] =>
      destruct (parse_model_assigns a d) as [-> | [? ->]]
  end.

Ltac open_steps := repeat open_step; cbn.

(** The identity and health steps leave the attributes alone. *)
Lemma Attributes_parse_identity i d :
  Attributes (parse_identity i d) = Attributes d.
Proof. unfold parse_identity. open_steps; reflexivity. Qed.

Lemma Attributes_parse_health hl d :
  Attributes (parse_health hl d) = Attributes d.
Proof. open_steps; reflexivity. Qed.

Lemma IsSSD_parse_health hl d : IsSSD (parse_health hl d) = IsSSD d.
Proof. open_steps; reflexivity. Qed.

Lemma IsSSD_parse_common a d :
  IsSSD (parse_power_on a (parse_temperature_attr a d)) = IsSSD d.
Proof. open_steps; reflexivity. Qed.

Lemma IsSSD_parse_hdd a d : IsSSD (parse_hdd a d) = IsSSD d.
Proof. unfold parse_hdd. open_steps; reflexivity. Qed.

Lemma IsSSD_parse_ssd h a d : IsSSD (parse_ssd h a d) = IsSSD d.
Proof. unfold parse_ssd. open_steps; reflexivity. Qed.

(** The attribute steps on a solid-state record and on a rotating one. *)
Lemma parse_attributes_ssd h a d :
  IsSSD d = true ->
  parse_attributes h a d =
    parse_ssd h a (parse_power_on a (parse_temperature_attr a d)).
Proof.
  intros H. unfold parse_attributes. cbv zeta.
  rewrite IsSSD_parse_common, H. cbn. rewrite IsSSD_parse_common, H.
  reflexivity.
Qed.

Lemma parse_attributes_hdd h a d :
  IsSSD d = false ->
  parse_attributes h a d =
    parse_hdd a (parse_power_on a (parse_temperature_attr a d)).
Proof.
  intros H. unfold parse_attributes. cbv zeta.
  rewrite IsSSD_parse_common, H. cbn.
  rewrite IsSSD_parse_hdd, IsSSD_parse_common, H. reflexivity.
Qed.

Lemma IsSSD_parse_attributes h a d : IsSSD (parse_attributes h a d) = IsSSD d.
Proof.
  destruct (IsSSD d) eqn:E.
  - rewrite parse_attributes_ssd, IsSSD_parse_ssd, IsSSD_parse_common by assumption.
    assumption.
  - rewrite parse_attributes_hdd, IsSSD_parse_hdd, IsSSD_parse_common by assumption.
    assumption.
Qed.

Lemma HealthStatus_parse_attributes h a d :
  HealthStatus (parse_attributes h a d) = HealthStatus d.
Proof.
  destruct (IsSSD d) eqn:E.
  - rewrite parse_attributes_ssd by assumption. unfold parse_ssd.
    open_steps; reflexivity.
  - rewrite parse_attributes_hdd by assumption. unfold parse_hdd.
    open_steps; reflexivity.
Qed.

Lemma Attributes_before_attributes i health :
  Attributes (before_attributes i health) = default_attributes.
Proof.
  unfold before_attributes. cbv zeta. destruct (truthy health).
  - rewrite Attributes_parse_health, Attributes_parse_identity. reflexivity.
  - rewrite Attributes_parse_identity. reflexivity.
Qed.

Lemma extract_cases h info health attr :
  extract h info health attr =
    match truthy info with
    | None => default_disk_info
    | Some i =>
        match truthy attr with
        | None => before_attributes i health
        | Some a => parse_attributes h a (before_attributes i health)
        end
    end.
Proof. reflexivity. Qed.

End ExtractFacts.

(** ** Properties of the extractor *)

Module ExtractorProperties.
Import PyStr Re ReFacts PyStrFacts PatternFacts Smart ExtractFacts Examples.

(** C7. In every record the extractor builds, the sector counts of a
    rotating disk are set only when the solid-state flag is false, and the
    life remaining and the data written and read only when it is true: the
    fields of the other kind keep the value of a field that was not found. *)
Theorem C7_kind_specific_fields (h : host) (info health attr : option string) :
  let d := extract h info health attr in
  if IsSSD d
  then ReallocatedSectors (Attributes d) = NA
       /\ PendingSectors (Attributes d) = NA
       /\ UncorrectableSectors (Attributes d) = NA
  else LifeRemaining (Attributes d) = NA
       /\ TotalWritten (Attributes d) = NA
       /\ TotalRead (Attributes d) = NA.
Proof.
  cbv zeta. rewrite extract_cases.
  destruct (truthy info) as [i |]; [| cbn; auto].
  pose proof (Attributes_before_attributes i health) as HA.
  destruct (truthy attr) as [a |].
  - rewrite IsSSD_parse_attributes.
    destruct (IsSSD (before_attributes i health)) eqn:E.
    + rewrite parse_attributes_ssd by assumption. unfold parse_ssd.
      open_steps; rewrite HA; auto.
    + rewrite parse_attributes_hdd by assumption. unfold parse_hdd.
      open_steps; rewrite HA; auto.
  - rewrite HA. destruct (IsSSD (before_attributes i health)); cbn; auto.
Qed.


Lemma HealthStatus_parse_identity i d :
  HealthStatus (parse_identity i d) = HealthStatus d.
Proof. unfold parse_identity. open_steps; reflexivity. Qed.

Lemma HealthStatus_extract h info health attr i :
  truthy info = Some i ->
  HealthStatus (extract h info health attr) =
    match truthy health with
    | Some hl => HealthStatus (parse_health hl default_disk_info)
    | None => "Unknown"
    end.
Proof.
  intros Hi. rewrite extract_cases, Hi.
  assert (E : HealthStatus (before_attributes i health) =
              match truthy health with
              | Some hl => HealthStatus (parse_health hl default_disk_info)
              | None => "Unknown"
              end).
  { unfold before_attributes. cbv zeta. destruct (truthy health) as [hl |].
    - unfold parse_health.
      repeat match goal with
      | |- context [match ?x with _ => _ end] => destruct x
      end; cbn; try reflexivity; apply HealthStatus_parse_identity.
    - apply HealthStatus_parse_identity. }
  destruct (truthy attr); [rewrite HealthStatus_parse_attributes |]; exact E.
Qed.

(** C10. When the health text has no overall-health line and the NVMe
    pattern matches, the health status is PASSED exactly when the captured
    segment, in lower case, contains "normal" anywhere (inside a longer word
    or beside "failed"), and FAILED otherwise; without a match it stays
    Unknown. *)
Theorem C10_nvme_health_fallback (h : host) (info health attr : option string)
    (i hl : string) :
  truthy info = Some i -> truthy health = Some hl ->
  search re_health hl = None ->
  let d := extract h info health attr in
  match search re_nvme_health hl with
  | Some m =>
      HealthStatus d =
        (if contains "normal" (lower (group m 1)) then "PASSED" else "FAILED")
  | None => HealthStatus d = "Unknown"
  end.
Proof.
  intros Hi Hh Hno. cbv zeta. rewrite (HealthStatus_extract h _ _ _ i Hi), Hh.
  unfold parse_health. rewrite Hno.
  destruct (search re_nvme_health hl) as [m |]; [| reflexivity].
  destruct (contains "normal" (lower (group m 1))); reflexivity.
Qed.

(** Two health texts of the NVMe form: a segment "ABNORMAL/failed" gives
    PASSED, a segment "failed" gives FAILED. *)
Lemma C10_nvme_health_fallback_witness :
  HealthStatus
    (extract nvme_host (Some nvme_identity)
       (Some ("SMART/Health Information (NVMe Log 0x02)" ++ nl
              ++ "Device state: ABNORMAL/failed" ++ nl))
       (Some nvme_attributes)) = "PASSED"
  /\ HealthStatus
       (extract nvme_host (Some nvme_identity)
          (Some ("SMART/Health Information (NVMe Log 0x02)" ++ nl
                 ++ "Device state: failed" ++ nl))
          (Some nvme_attributes)) = "FAILED".
Proof.
  split.
  - exact (C10_nvme_health_fallback nvme_host (Some nvme_identity)
             (Some ("SMART/Health Information (NVMe Log 0x02)" ++ nl
                    ++ "Device state: ABNORMAL/failed" ++ nl))
             (Some nvme_attributes) nvme_identity _ eq_refl eq_refl eq_refl).
  - exact (C10_nvme_health_fallback nvme_host (Some nvme_identity)
             (Some ("SMART/Health Information (NVMe Log 0x02)" ++ nl
                    ++ "Device state: failed" ++ nl))
             (Some nvme_attributes) nvme_identity _ eq_refl eq_refl eq_refl).
Defined.


(** The fields that the attribute text gives to a record of either kind and
    to a solid-state record. *)
Lemma PowerOnTime_parse_attributes h a d :
  PowerOnTime (Attributes (parse_attributes h a d)) =
    PowerOnTime (Attributes (parse_power_on a d)).
Proof.
  destruct (IsSSD d) eqn:E.
  - rewrite parse_attributes_ssd by assumption. unfold parse_ssd.
    unfold parse_power_on.
    repeat match goal with
    | |- context [match search ?r a with _ => _ end] => destruct (search r a)
    end; open_steps; reflexivity.
  - rewrite parse_attributes_hdd by assumption. unfold parse_hdd.
    unfold parse_power_on.
    repeat match goal with
    | |- context [match search ?r a with _ => _ end] => destruct (search r a)
    end; open_steps; reflexivity.
Qed.

Lemma LifeRemaining_parse_attributes h a d :
  IsSSD d = true ->
  LifeRemaining (Attributes (parse_attributes h a d)) =
    LifeRemaining (Attributes (parse_wear a d)).
Proof.
  intros E. rewrite parse_attributes_ssd by assumption. unfold parse_ssd.
  unfold parse_wear.
  repeat match goal with
  | |- context [match ?x with _ => _ end] => destruct x
  end; open_steps; reflexivity.
Qed.

Lemma TotalWritten_parse_attributes h a d :
  IsSSD d = true ->
  TotalWritten (Attributes (parse_attributes h a d)) =
    TotalWritten (Attributes (parse_written h a d)).
Proof.
  intros E. rewrite parse_attributes_ssd by assumption. unfold parse_ssd.
  unfold parse_written.
  repeat match goal with
  | |- context [match ?x with _ => _ end] => destruct x
  end; open_steps; reflexivity.
Qed.

Lemma TotalRead_parse_attributes h a d :
  IsSSD d = true ->
  TotalRead (Attributes (parse_attributes h a d)) =
    TotalRead (Attributes (parse_read h a d)).
Proof.
  intros E. rewrite parse_attributes_ssd by assumption. unfold parse_ssd.
  unfold parse_read.
  repeat match goal with
  | |- context [match ?x with _ => _ end] => destruct x
  end; open_steps; reflexivity.
Qed.

(** The rendering of a run of digits by [parse_power_on_hours]. *)
Lemma parse_power_on_hours_decimal (g : string) :
  all_decimal g = true ->
  exists hours, int g = Some hours /\ 0 <= hours
    /\ parse_power_on_hours g =
         str (hours / 24) ++ " days, " ++ str (hours mod 24) ++ " hours".
Proof.
  intros Hg. destruct (int_all_decimal g Hg) as (n & Hn & Hpos).
  exists n. repeat split; try assumption.
  unfold parse_power_on_hours.
  change (String.eqb g NA) with (String.eqb g "N/A").
  rewrite (NA_not_decimal g Hg), Hn.
  unfold all_decimal in Hg. apply andb_prop in Hg. destruct Hg as [Hne _].
  apply negb_true_iff in Hne. rewrite Hne. reflexivity.
Qed.

(** C8, as the code has it. Whenever power-on hours are parsed from the
    attribute text (the legacy row, or else the NVMe line), the captured
    text is a number of hours [h], and the record stores the text
    "<h div 24> days, <h mod 24> hours"; the raw count is not stored. *)
Theorem C8_power_on_time_days_hours (h : host)
    (info health attr : option string) (i a : string) (m : caps) :
  truthy info = Some i -> truthy attr = Some a ->
  search re_power_on_hours a = Some m
  \/ (search re_power_on_hours a = None
      /\ search re_nvme_power_on_hours a = Some m) ->
  exists hours, int (group m 1) = Some hours /\ 0 <= hours
    /\ PowerOnTime (Attributes (extract h info health attr)) =
         str (hours / 24) ++ " days, " ++ str (hours mod 24) ++ " hours".
Proof.
  intros Hi Ha Hm. rewrite extract_cases, Hi, Ha.
  rewrite PowerOnTime_parse_attributes. unfold parse_power_on.
  destruct Hm as [Hm | [Hno Hm]].
  - rewrite Hm. apply search_attribute_row in Hm. destruct Hm as (g & Hg & ->).
    cbn. apply parse_power_on_hours_decimal. assumption.
  - rewrite Hno, Hm. apply search_nvme_power_on_hours in Hm.
    destruct Hm as (g & Hg & ->).
    cbn. apply parse_power_on_hours_decimal. assumption.
Qed.

(** The NVMe line "Power On Hours: 100" is stored as "4 days, 4 hours". *)
Lemma C8_power_on_time_days_hours_witness :
  exists hours, int "100" = Some hours /\ 0 <= hours
    /\ PowerOnTime (Attributes (extract nvme_host (Some nvme_identity)
                                  (Some health_passed) (Some nvme_attributes)))
       = str (hours / 24) ++ " days, " ++ str (hours mod 24) ++ " hours".
Proof.
  exact (C8_power_on_time_days_hours nvme_host (Some nvme_identity)
           (Some health_passed) (Some nvme_attributes) nvme_identity
           nvme_attributes [(1%nat, "100")] eq_refl eq_refl
           (or_intror (conj eq_refl eq_refl))).
Defined.

(** C8, as the claim states it, fails: for the NVMe line with 100 hours the
    stored field is the text "4 days, 4 hours", which is not the hour count
    and not an integer. *)
Lemma C8_power_on_time_not_raw_count :
  let d := extract nvme_host (Some nvme_identity) (Some health_passed)
             (Some nvme_attributes) in
  search re_nvme_power_on_hours nvme_attributes = Some [(1%nat, "100")]
  /\ PowerOnTime (Attributes d) = "4 days, 4 hours"
  /\ PowerOnTime (Attributes d) <> "100"
  /\ int (PowerOnTime (Attributes d)) = None.
Proof. cbv zeta. repeat split; try reflexivity. vm_compute. discriminate. Qed.

(** The stored text of the data written, by the legacy row or else the NVMe
    line; the data read has the same shape. *)
Lemma parse_lba_to_tb_decimal h g :
  all_decimal g = true ->
  exists n, int g = Some n /\ 0 <= n
    /\ parse_lba_to_tb h g = tb_or h (n * 512) g.
Proof.
  intros Hg. destruct (int_all_decimal g Hg) as (n & Hn & Hpos).
  exists n. repeat split; try assumption.
  unfold parse_lba_to_tb, lba_bytes_value, tb_or.
  change (String.eqb g NA) with (String.eqb g "N/A").
  rewrite (NA_not_decimal g Hg), Hn.
  unfold all_decimal in Hg. apply andb_prop in Hg. destruct Hg as [Hne _].
  apply negb_true_iff in Hne. rewrite Hne. reflexivity.
Qed.

(** C9. The legacy conversion multiplies the LBA count by 512 and the NVMe
    conversion multiplies the unit count, commas removed, by 512 * 1024; so
    2,147,483,648 LBAs and 2,097,152 data units are each 1024^4 bytes.  On a
    solid-state record these byte counts are what the stored text of the
    data written and read is rendered from. *)
Theorem C9_byte_conversions :
  (forall n, 0 <= n -> lba_bytes_value (str n) = Some (n * 512))
  /\ (forall n captured,
        0 <= n -> remove_char "," captured = str n ->
        data_units_bytes_value captured = Some (n * (512 * 1024)))
  /\ lba_bytes_value "2147483648" = Some (1024 ^ 4)
  /\ data_units_bytes_value "2,097,152" = Some (1024 ^ 4)
  /\ (forall h info health attr a,
        truthy attr = Some a ->
        IsSSD (extract h info health attr) = true ->
        let d := extract h info health attr in
        stored_tb h re_lbas_written re_units_written a
          (TotalWritten (Attributes d))
        /\ stored_tb h re_lbas_read re_units_read a
             (TotalRead (Attributes d))).
Proof.
  split; [| split; [| split; [| split]]].
  - intros n Hn. unfold lba_bytes_value. now rewrite int_str.
  - intros n captured Hn Hc. unfold data_units_bytes_value.
    rewrite Hc, int_str by assumption. cbn. f_equal. lia.
  - reflexivity.
  - reflexivity.
  - intros h info health attr a Ha Hssd. cbv zeta. revert Hssd.
    rewrite extract_cases, Ha.
    destruct (truthy info) as [i |]; [| discriminate].
    rewrite IsSSD_parse_attributes. intros Hssd.
    rewrite (TotalWritten_parse_attributes h a _ Hssd).
    rewrite (TotalRead_parse_attributes h a _ Hssd).
    pose proof (Attributes_before_attributes i health) as HA.
    unfold stored_tb, parse_written, parse_read, data_units_to_tb,
      data_units_bytes_value, tb_or.
    split.
    + destruct (search re_lbas_written a) as [m |] eqn:El.
      * apply search_attribute_row in El. destruct El as (g & Hg & ->).
        cbn [group Nat.eqb].
        destruct (parse_lba_to_tb_decimal h g Hg) as (n & Hn & Hpos & ->).
        exists n. repeat split; assumption.
      * destruct (search re_units_written a) as [m |];
          [| rewrite HA; reflexivity].
        destruct (int (remove_char "," (group m 1))) as [n |]; cbn;
          [| rewrite HA; reflexivity].
        destruct (tb_text h (n * 512 * 1024)); cbn;
          [reflexivity | rewrite HA; reflexivity].
    + destruct (search re_lbas_read a) as [m |] eqn:El.
      * apply search_attribute_row in El. destruct El as (g & Hg & ->).
        cbn [group Nat.eqb].
        destruct (parse_lba_to_tb_decimal h g Hg) as (n & Hn & Hpos & ->).
        exists n. repeat split; assumption.
      * destruct (search re_units_read a) as [m |];
          [| rewrite HA; reflexivity].
        destruct (int (remove_char "," (group m 1))) as [n |]; cbn;
          [| rewrite HA; reflexivity].
        destruct (tb_text h (n * 512 * 1024)); cbn;
          [reflexivity | rewrite HA; reflexivity].
Qed.

(** 2,147,483,648 LBAs are 1024^4 bytes, and the NVMe sample, with
    2,097,152 units written, stores the rendering of 1024^4 bytes. *)
Lemma C9_byte_conversions_witness :
  lba_bytes_value (str 2147483648) = Some (1024 ^ 4)
  /\ data_units_bytes_value "2,097,152" = Some (1024 ^ 4)
  /\ TotalWritten (Attributes (extract nvme_host (Some nvme_identity)
                                 (Some health_passed) (Some nvme_attributes)))
     = tb_or nvme_host (1024 ^ 4) NA.
Proof.
  destruct C9_byte_conversions as (Hlba & Hunits & _ & _ & Hrecord).
  split; [| split].
  - apply (Hlba 2147483648). discriminate.
  - apply (Hunits 2097152 "2,097,152"); [discriminate | reflexivity].
  - destruct (Hrecord nvme_host (Some nvme_identity) (Some health_passed)
                (Some nvme_attributes) nvme_attributes eq_refl eq_refl)
      as (Hwritten & _).
    exact Hwritten.
Defined.

End ExtractorProperties.

(** ** Facts about the findings of each check *)

Module FindingFacts.
Import PyStr Re ReFacts PyStrFacts PatternFacts Smart StateFacts CheckFacts.

Lemma reported_by_app r fs gs :
  reported_by r (fs ++ gs) = (reported_by r fs ++ reported_by r gs)%list.
Proof. apply filter_app. Qed.

Lemma rule_eqb_eq r1 r2 : rule_eqb r1 r2 = true <-> r1 = r2.
Proof. destruct r1, r2; simpl; split; intros H; try reflexivity; discriminate. Qed.

Lemma reported_by_same r fs : from_rule r fs -> reported_by r fs = fs.
Proof.
  induction 1 as [| f fs Hf _ IH]; simpl; [reflexivity |].
  rewrite Hf. replace (rule_eqb r r) with true
    by (symmetry; apply rule_eqb_eq; reflexivity).
  f_equal. assumption.
Qed.

Lemma reported_by_other r r' fs :
  r' <> r -> from_rule r' fs -> reported_by r fs = [].
Proof.
  intros Hne. induction 1 as [| f fs Hf _ IH]; simpl; [reflexivity |].
  rewrite Hf. destruct (rule_eqb r' r) eqn:E; [| assumption].
  apply rule_eqb_eq in E. contradiction.
Qed.

Lemma health_findings_rule disk_id d :
  from_rule HealthRule (health_findings disk_id d).
Proof.
  unfold health_findings, check_health, from_rule.
  destruct (_ && _)%bool; cbn; repeat constructor.
Qed.

Lemma temperature_findings_eq disk_id d :
  temperature_findings disk_id d =
    match search re_number (Temperature (Attributes d)) with
    | Some m =>
        match int (group m 1) with
        | Some temp =>
            if 60 <=? temp
            then [mk_finding TemperatureRule Critical
                    (disk_label disk_id d ++ " temperature critical: "
                     ++ Temperature (Attributes d))]
            else if 50 <=? temp
            then [mk_finding TemperatureRule Warning
                    (disk_label disk_id d ++ " temperature warning: "
                     ++ Temperature (Attributes d))]
            else []
        | None => []
        end
    | None => []
    end.
Proof.
  unfold temperature_findings, check_temperature.
  destruct (search re_number (Temperature (Attributes d))) as [m |];
    [| reflexivity].
  unfold issues_of, bind, int_or_raise.
  destruct (int (group m 1)) as [n |]; [| reflexivity].
  cbn. destruct (60 <=? n); [reflexivity |]. now destruct (50 <=? n).
Qed.

Lemma life_findings_eq disk_id d :
  life_findings disk_id d =
    match search re_number_percent (LifeRemaining (Attributes d)) with
    | Some m =>
        match int (group m 1) with
        | Some life_remaining =>
            if life_remaining <=? 10
            then [mk_finding LifeRule Critical
                    (disk_label disk_id d ++ " SSD life critically low: "
                     ++ LifeRemaining (Attributes d))]
            else if life_remaining <=? 20
            then [mk_finding LifeRule Warning
                    (disk_label disk_id d ++ " SSD life warning: "
                     ++ LifeRemaining (Attributes d))]
            else []
        | None => []
        end
    | None => []
    end.
Proof.
  unfold life_findings, check_life.
  destruct (search re_number_percent (LifeRemaining (Attributes d))) as [m |];
    [| reflexivity].
  unfold issues_of, bind, int_or_raise.
  destruct (int (group m 1)) as [n |]; [| reflexivity].
  cbn. destruct (n <=? 10); [reflexivity |]. now destruct (n <=? 20).
Qed.

Lemma temperature_findings_rule disk_id d :
  from_rule TemperatureRule (temperature_findings disk_id d).
Proof.
  rewrite temperature_findings_eq. unfold from_rule.
  repeat match goal with
  | |- context [match ?x with _ => _ end] => destruct x
  end; repeat constructor.
Qed.

Lemma life_findings_rule disk_id d :
  from_rule LifeRule (life_findings disk_id d).
Proof.
  rewrite life_findings_eq. unfold from_rule.
  repeat match goal with
  | |- context [match ?x with _ => _ end] => destruct x
  end; repeat constructor.
Qed.

(** One sector check appends at most one finding, of its own rule. *)
Lemma check_sectors_issues r what disk_id d v :
  issues_of (check_sectors r what disk_id d v) = [] \/
  issues_of (check_sectors r what disk_id d v) =
    [mk_finding r Critical (disk_label disk_id d ++ " has " ++ v ++ " " ++ what)].
Proof.
  unfold check_sectors. destruct (_ && _)%bool; [| auto].
  unfold issues_of, bind, int_or_raise. destruct (int v) as [n |]; [| auto].
  cbn. destruct (0 <? n); auto.
Qed.

Lemma sector_findings_rule disk_id d :
  Forall sector_rule (sector_findings disk_id d).
Proof.
  unfold sector_findings, sector_checks.
  rewrite issues_of_bind by framing. apply Forall_app. split.
  - destruct (check_sectors_issues ReallocatedRule "reallocated sectors"
                disk_id d (ReallocatedSectors (Attributes d))) as [-> | ->];
      [constructor | constructor; [left; reflexivity | constructor]].
  - destruct (result_of _); [constructor |].
    rewrite issues_of_bind by framing. apply Forall_app. split.
    + destruct (check_sectors_issues PendingRule "pending sectors"
                  disk_id d (PendingSectors (Attributes d))) as [-> | ->];
        [constructor
        | constructor; [right; left; reflexivity | constructor]].
    + destruct (result_of _); [constructor |].
      destruct (check_sectors_issues UncorrectableRule "uncorrectable sectors"
                  disk_id d (UncorrectableSectors (Attributes d))) as [-> | ->];
        [constructor
        | constructor; [right; right; reflexivity | constructor]].
Qed.

Lemma reported_by_sector_other r fs :
  r <> ReallocatedRule -> r <> PendingRule -> r <> UncorrectableRule ->
  Forall sector_rule fs -> reported_by r fs = [].
Proof.
  intros H1 H2 H3. induction 1 as [| f fs Hf _ IH]; simpl; [reflexivity |].
  destruct (rule_eqb (rule_of f) r) eqn:E; [| assumption].
  apply rule_eqb_eq in E. destruct Hf as [Hf | [Hf | Hf]]; congruence.
Qed.

(** The temperature findings of a record are those of the temperature
    check; on a solid-state record the life findings are those of the life
    check. *)
Lemma reported_temperature disk_id d :
  reported_by TemperatureRule (findings disk_id d) =
    temperature_findings disk_id d.
Proof.
  rewrite findings_split, !reported_by_app.
  rewrite (reported_by_other TemperatureRule HealthRule)
    by (discriminate || apply health_findings_rule).
  rewrite (reported_by_same _ _ (temperature_findings_rule disk_id d)).
  destruct (IsSSD d).
  - rewrite (reported_by_other TemperatureRule LifeRule)
      by (discriminate || apply life_findings_rule).
    now rewrite app_nil_r.
  - rewrite (reported_by_sector_other TemperatureRule)
      by (discriminate || apply sector_findings_rule).
    now rewrite app_nil_r.
Qed.

Lemma reported_life disk_id d :
  IsSSD d = true ->
  reported_by LifeRule (findings disk_id d) = life_findings disk_id d.
Proof.
  intros E. rewrite findings_split, E, !reported_by_app.
  rewrite (reported_by_other LifeRule HealthRule)
    by (discriminate || apply health_findings_rule).
  rewrite (reported_by_other LifeRule TemperatureRule)
    by (discriminate || apply temperature_findings_rule).
  apply reported_by_same, life_findings_rule.
Qed.

End FindingFacts.

(** ** Properties of the checks *)

Module CheckProperties.
Import PyStr Re ReFacts PyStrFacts PatternFacts Smart StateFacts CheckFacts.
Import ExtractFacts ExtractorProperties FindingFacts Examples.

(** C2. A record whose temperature field is [celsius digits], with [T] the
    number read from the digits, gets exactly one temperature finding,
    Critical, when [T >= 60]; exactly one, Warning, when [50 <= T < 60];
    none when [T < 50]; and none when the field is unset.  The values 49,
    50, 59 and 60 fall on these sides. *)
Theorem C2_temperature_thresholds (disk_id : string) (d : disk_info) :
  let critical digits :=
    mk_finding TemperatureRule Critical
      (disk_label disk_id d ++ " temperature critical: " ++ celsius digits) in
  let warning digits :=
    mk_finding TemperatureRule Warning
      (disk_label disk_id d ++ " temperature warning: " ++ celsius digits) in
  let reported := reported_by TemperatureRule (findings disk_id d) in
  (Temperature (Attributes d) = NA -> reported = [])
  /\ (forall digits T,
        all_decimal digits = true -> int digits = Some T ->
        Temperature (Attributes d) = celsius digits ->
        (60 <= T -> reported = [critical digits])
        /\ (50 <= T < 60 -> reported = [warning digits])
        /\ (T < 50 -> reported = []))
  /\ (Temperature (Attributes d) = celsius "49" -> reported = [])
  /\ (Temperature (Attributes d) = celsius "50" -> reported = [warning "50"])
  /\ (Temperature (Attributes d) = celsius "59" -> reported = [warning "59"])
  /\ (Temperature (Attributes d) = celsius "60" -> reported = [critical "60"]).
Proof.
  cbv zeta. rewrite reported_temperature, temperature_findings_eq.
  assert (General : forall digits T,
    all_decimal digits = true -> int digits = Some T ->
    Temperature (Attributes d) = celsius digits ->
    match search re_number (Temperature (Attributes d)) with
    | Some m =>
        match int (group m 1) with
        | Some temp =>
            if 60 <=? temp
            then [mk_finding TemperatureRule Critical
                    (disk_label disk_id d ++ " temperature critical: "
                     ++ Temperature (Attributes d))]
            else if 50 <=? temp
            then [mk_finding TemperatureRule Warning
                    (disk_label disk_id d ++ " temperature warning: "
                     ++ Temperature (Attributes d))]
            else []
        | None => []
        end
    | None => []
    end =
    if 60 <=? T
    then [mk_finding TemperatureRule Critical
            (disk_label disk_id d ++ " temperature critical: "
             ++ celsius digits)]
    else if 50 <=? T
    then [mk_finding TemperatureRule Warning
            (disk_label disk_id d ++ " temperature warning: "
             ++ celsius digits)]
    else []).
  { intros digits T Hd HT ->. rewrite (search_number_celsius digits Hd).
    cbn [group Nat.eqb]. rewrite HT. reflexivity. }
  split; [| split; [| repeat split]].
  - intros ->. reflexivity.
  - intros digits T Hd HT Ht. rewrite (General digits T Hd HT Ht).
    repeat split; intros HR.
    + destruct (Z.leb_spec 60 T); [reflexivity | lia].
    + destruct (Z.leb_spec 60 T); [lia |].
      destruct (Z.leb_spec 50 T); [reflexivity | lia].
    + destruct (Z.leb_spec 60 T); [lia |].
      destruct (Z.leb_spec 50 T); [lia | reflexivity].
  - intros Ht. exact (General "49" 49 eq_refl eq_refl Ht).
  - intros Ht. exact (General "50" 50 eq_refl eq_refl Ht).
  - intros Ht. exact (General "59" 59 eq_refl eq_refl Ht).
  - intros Ht. exact (General "60" 60 eq_refl eq_refl Ht).
Qed.

(** The NVMe disk of the samples at 41 degrees has no temperature finding;
    the same record at 60 degrees has one Critical finding. *)
Lemma C2_temperature_thresholds_witness :
  let d := extract nvme_host (Some nvme_identity) (Some health_passed)
             (Some nvme_attributes) in
  reported_by TemperatureRule (findings sda d) = []
  /\ reported_by TemperatureRule
       (findings sda (set_Temperature (celsius "60") d)) =
     [mk_finding TemperatureRule Critical
        ("Disk /dev/sda (Samsung 970 EVO 500GB) temperature critical: "
         ++ celsius "60")].
Proof.
  cbv zeta. split.
  - destruct (C2_temperature_thresholds sda
                (extract nvme_host (Some nvme_identity) (Some health_passed)
                   (Some nvme_attributes))) as (_ & H & _).
    destruct (H "41" 41 eq_refl eq_refl eq_refl) as (_ & _ & Hlow).
    apply Hlow. reflexivity.
  - destruct (C2_temperature_thresholds sda
                (set_Temperature (celsius "60")
                   (extract nvme_host (Some nvme_identity) (Some health_passed)
                   (Some nvme_attributes))))
      as (_ & H & _).
    destruct (H "60" 60 eq_refl eq_refl eq_refl) as (Hhigh & _).
    apply Hhigh. discriminate.
Defined.


(** The findings of a record whose temperature, life remaining and sector
    counts are unset are those of the health check alone. *)
Lemma findings_unset disk_id d :
  Temperature (Attributes d) = NA -> LifeRemaining (Attributes d) = NA ->
  ReallocatedSectors (Attributes d) = NA ->
  PendingSectors (Attributes d) = NA ->
  UncorrectableSectors (Attributes d) = NA ->
  findings disk_id d = health_findings disk_id d.
Proof.
  intros Ht Hl Hr Hp Hu. rewrite findings_split.
  rewrite temperature_findings_eq, Ht. cbn [app].
  replace (if IsSSD d then life_findings disk_id d
           else sector_findings disk_id d) with (@nil finding).
  - now rewrite app_nil_r.
  - destruct (IsSSD d).
    + rewrite life_findings_eq, Hl. reflexivity.
    + unfold sector_findings, sector_checks, check_sectors.
      rewrite Hr, Hp, Hu. reflexivity.
Qed.

Lemma health_findings_unknown disk_id d :
  HealthStatus d = "Unknown" -> health_findings disk_id d = [].
Proof. unfold health_findings, check_health. intros ->. reflexivity. Qed.

Lemma extract_without_attributes h info health attr :
  truthy attr = None ->
  Attributes (extract h info health attr) = default_attributes.
Proof.
  intros Ha. rewrite extract_cases, Ha.
  destruct (truthy info); [apply Attributes_before_attributes | reflexivity].
Qed.

(** C4. A record with health Unknown and with temperature, life remaining
    and the three sector counts unset has no finding and the verdict OK,
    whatever its solid-state flag.  A device whose attribute text is empty
    has every attribute unset: its only possible finding is the one of the
    health check, and with health Unknown it has none and the verdict OK. *)
Theorem C4_unset_record_has_no_finding :
  (forall disk_id d,
     HealthStatus d = "Unknown" ->
     Temperature (Attributes d) = NA -> LifeRemaining (Attributes d) = NA ->
     ReallocatedSectors (Attributes d) = NA ->
     PendingSectors (Attributes d) = NA ->
     UncorrectableSectors (Attributes d) = NA ->
     findings disk_id d = [] /\ verdict (findings disk_id d) = inr 0)
  /\ (forall h info health attr disk_id,
        truthy attr = None ->
        let d := extract h info health attr in
        Attributes d = default_attributes
        /\ findings disk_id d = health_findings disk_id d
        /\ (HealthStatus d = "Unknown" ->
            findings disk_id d = [] /\ verdict (findings disk_id d) = inr 0)).
Proof.
  assert (Unset : forall disk_id d,
    HealthStatus d = "Unknown" ->
    Temperature (Attributes d) = NA -> LifeRemaining (Attributes d) = NA ->
    ReallocatedSectors (Attributes d) = NA ->
    PendingSectors (Attributes d) = NA ->
    UncorrectableSectors (Attributes d) = NA ->
    findings disk_id d = [] /\ verdict (findings disk_id d) = inr 0).
  { intros disk_id d Hh Ht Hl Hr Hp Hu.
    rewrite (findings_unset disk_id d Ht Hl Hr Hp Hu).
    rewrite (health_findings_unknown disk_id d Hh). split; reflexivity. }
  split; [exact Unset |].
  intros h info health attr disk_id Ha. cbv zeta.
  pose proof (extract_without_attributes h info health attr Ha) as HA.
  split; [exact HA |]. split.
  - apply findings_unset; rewrite HA; reflexivity.
  - intros Hh. apply Unset; try assumption; rewrite HA; reflexivity.
Qed.

(** A solid-state disk that gives no health text and an empty attribute
    text: no finding, verdict OK. *)
Lemma C4_unset_record_has_no_finding_witness :
  let d := extract (ssd_host None (Some "")) (Some ssd_identity) None
             (Some "") in
  IsSSD d = true /\ findings sda d = [] /\ verdict (findings sda d) = inr 0.
Proof.
  cbv zeta. split; [reflexivity |].
  destruct C4_unset_record_has_no_finding as (_ & H).
  destruct (H (ssd_host None (Some "")) (Some ssd_identity) None (Some "")
              sda eq_refl) as (_ & _ & Hok).
  apply Hok. reflexivity.
Defined.


(** C3, at attribute tables as the utility prints them.  The row of
    Media_Wearout_Indicator has the raw value 85, and the record stores
    100%, that is 100 minus the first digit of the flag column: no life
    finding is reported and the run exits with 0, as for the raw value 0.
    The row of Wear_Leveling_Count has the raw value 85, and the record
    stores 0%, the first digit of the flag column: the life is reported as
    critically low and the run exits with 1, as for the raw value 100.  The
    NVMe line "Percentage Used: 85%" gives 15% and one Warning. *)
Theorem C3_wear_row_stores_flag_digit :
  let table_host row :=
    ssd_host (Some health_passed) (Some (ssd_attributes row)) in
  let record row :=
    extract (table_host row) (Some ssd_identity) (Some health_passed)
      (Some (ssd_attributes row)) in
  let used :=
    extract nvme_host (Some nvme_identity) (Some health_passed)
      (Some nvme_attributes) in
  (search re_wear (ssd_attributes (wearout_row "85")) =
     Some [(2%nat, "0"); (1%nat, "Media_Wearout_Indicator")]
   /\ result_of (get_disk_info (table_host (wearout_row "85")) sample_path sda)
      = inr (record (wearout_row "85"))
   /\ IsSSD (record (wearout_row "85")) = true
   /\ LifeRemaining (Attributes (record (wearout_row "85"))) = "100%"
   /\ findings sda (record (wearout_row "85")) = []
   /\ fst (main (table_host (wearout_row "85"))) = 0
   /\ record (wearout_row "85") = record (wearout_row "0"))
  /\ (search re_wear (ssd_attributes (leveling_row "85")) =
        Some [(2%nat, "0"); (1%nat, "Wear_Leveling_Count")]
      /\ result_of
           (get_disk_info (table_host (leveling_row "85")) sample_path sda)
         = inr (record (leveling_row "85"))
      /\ LifeRemaining (Attributes (record (leveling_row "85"))) = "0%"
      /\ findings sda (record (leveling_row "85")) =
           [mk_finding LifeRule Critical
              "Disk /dev/sda (INTEL SSDSC2BB120G4) SSD life critically low: 0%"]
      /\ fst (main (table_host (leveling_row "85"))) = 1
      /\ record (leveling_row "85") = record (leveling_row "100"))
  /\ (result_of (get_disk_info nvme_host sample_path sda) = inr used
      /\ LifeRemaining (Attributes used) = "15%"
      /\ findings sda used =
           [mk_finding LifeRule Warning
              "Disk /dev/sda (Samsung 970 EVO 500GB) SSD life warning: 15%"]).
Proof. cbv zeta. repeat apply conj; vm_compute; reflexivity. Qed.

End CheckProperties.

(** ** Facts about the loop over the disks *)

Module ScanFacts.
Import PyStr Re ReFacts PyStrFacts PatternFacts Smart StateFacts CheckFacts.
Import ExtractFacts ExtractorProperties FindingFacts.

(** *** The runs of the utility *)

Lemma run_smartctl_from h path args s :
  run_smartctl h path args s =
    (inr (run_text h path args),
     mk_state (stdout s ++ run_errors h path args) (critical_issues s)).
Proof.
  unfold run_smartctl, try_except, run_text, run_errors.
  destruct (smartctl h path args) as [e | t]; destruct s as [out iss]; cbn;
    rewrite ?app_nil_r; reflexivity.
Qed.

Lemma get_disk_info_from h path disk_id s :
  get_disk_info h path disk_id s =
    (inr (disk_record h path disk_id),
     mk_state (stdout s ++ disk_errors h path disk_id) (critical_issues s)).
Proof.
  unfold get_disk_info, disk_record, disk_errors, bind. cbv zeta.
  rewrite run_smartctl_from, extract_cases.
  destruct (truthy (run_text h path ["-i"; disk_id])) as [i |].
  - rewrite !run_smartctl_from. cbn [stdout critical_issues].
    unfold before_attributes. cbv zeta.
    destruct (truthy (run_text h path ["-A"; disk_id]));
      unfold ret; rewrite <- !app_assoc; reflexivity.
  - unfold ret. cbn [stdout critical_issues]. rewrite app_nil_r. reflexivity.
Qed.

Lemma get_physical_disks_from h path s :
  get_physical_disks h path s =
    (inr (scanned_disks h path),
     mk_state (stdout s ++ run_errors h path ["--scan"]) (critical_issues s)).
Proof.
  unfold get_physical_disks, scanned_disks, bind.
  rewrite run_smartctl_from.
  destruct (truthy (run_text h path ["--scan"])); reflexivity.
Qed.

(** A scan that raised finds no disk. *)
Lemma scanned_disks_no_error h path :
  scanned_disks h path <> [] -> run_errors h path ["--scan"] = [].
Proof.
  unfold scanned_disks, run_text, run_errors.
  destruct (smartctl h path ["--scan"]); [intros H; now contradiction H |].
  reflexivity.
Qed.

Lemma disk_errors_lines h path disk_id :
  Forall smartctl_error_line (disk_errors h path disk_id)
  /\ (List.length (disk_errors h path disk_id) <= 3)%nat.
Proof.
  assert (E : forall args,
            Forall smartctl_error_line (run_errors h path args)
            /\ (List.length (run_errors h path args) <= 1)%nat).
  { intros args. unfold run_errors.
    destruct (smartctl h path args) as [e | t].
    - split; [repeat constructor; exists e; reflexivity | cbn; lia].
    - split; [constructor | cbn; lia]. }
  unfold disk_errors.
  destruct (E ["-i"; disk_id]) as (F1 & L1).
  destruct (E ["-H"; disk_id]) as (F2 & L2).
  destruct (E ["-A"; disk_id]) as (F3 & L3).
  destruct (truthy _).
  - split; [repeat (apply Forall_app; split); assumption |].
    rewrite !length_app. lia.
  - split; [apply Forall_app; split; [assumption | constructor] |].
    rewrite length_app. cbn. lia.
Qed.

(** A round of the loop never raises: its handler only prints. *)
Lemma result_of_process_disk h path disk_id :
  result_of (process_disk h path disk_id) = inr tt.
Proof.
  unfold result_of, process_disk, try_except.
  destruct (examine_disk h path disk_id initial_state) as [[e | []] s];
    reflexivity.
Qed.

(** The loop returns, and each disk adds its own lines and findings. *)
Lemma for_each_process_disk h path disks s :
  for_each disks (process_disk h path) s =
    (inr tt,
     mk_state (stdout s ++ List.concat (map (disk_output h path) disks))
              (critical_issues s ++ List.concat (map (disk_findings h path) disks))).
Proof.
  revert s. induction disks as [| disk_id disks IH]; intros s.
  - cbn. rewrite !app_nil_r. now destruct s.
  - cbn [for_each map List.concat]. unfold bind.
    rewrite (framed_process_disk h path disk_id s).
    rewrite result_of_process_disk, IH. cbn [stdout critical_issues].
    rewrite <- !app_assoc. reflexivity.
Qed.

Lemma process_disk_fault h path disk_id e :
  fault h disk_id = Some e ->
  disk_findings h path disk_id = []
  /\ disk_output h path disk_id =
       [processing_line disk_id; error_line disk_id e].
Proof.
  intros Hf. unfold disk_findings, disk_output, issues_of, output_of,
    process_disk, try_except, examine_disk, call_get_disk_info, bind.
  rewrite Hf. split; reflexivity.
Qed.

(** *** The checks do not raise on an extracted record *)

Lemma result_of_check_sectors r what disk_id d v :
  sector_text v -> result_of (check_sectors r what disk_id d v) = inr tt.
Proof.
  intros [-> | Hv]; [reflexivity |].
  unfold check_sectors. destruct (_ && _)%bool; [| reflexivity].
  destruct (int_all_decimal v Hv) as (n & Hn & _).
  unfold result_of, bind, int_or_raise. rewrite Hn. cbn.
  now destruct (0 <? n).
Qed.

Lemma result_of_sector_checks disk_id d :
  sector_text (ReallocatedSectors (Attributes d)) ->
  sector_text (PendingSectors (Attributes d)) ->
  sector_text (UncorrectableSectors (Attributes d)) ->
  result_of (sector_checks disk_id d) = inr tt.
Proof.
  intros Hr Hp Hu. unfold sector_checks.
  rewrite result_of_bind by framing.
  rewrite (result_of_check_sectors _ _ _ _ _ Hr).
  rewrite result_of_bind by framing.
  rewrite (result_of_check_sectors _ _ _ _ _ Hp).
  apply result_of_check_sectors. assumption.
Qed.

Lemma extract_sector_texts h info health attr :
  let d := extract h info health attr in
  sector_text (ReallocatedSectors (Attributes d))
  /\ sector_text (PendingSectors (Attributes d))
  /\ sector_text (UncorrectableSectors (Attributes d)).
Proof.
  cbv zeta. rewrite extract_cases.
  destruct (truthy info) as [i |]; [| repeat split; left; reflexivity].
  pose proof (Attributes_before_attributes i health) as HA.
  destruct (truthy attr) as [a |];
    [| rewrite HA; repeat split; left; reflexivity].
  destruct (IsSSD (before_attributes i health)) eqn:E.
  - rewrite parse_attributes_ssd by assumption. unfold parse_ssd.
    open_steps; rewrite HA; repeat split; left; reflexivity.
  - rewrite parse_attributes_hdd by assumption.
    unfold parse_hdd, parse_uncorrectable, parse_pending, parse_reallocated.
    destruct (search re_reallocated a) as [m1 |] eqn:E1;
      [apply search_attribute_row in E1; destruct E1 as (g1 & H1 & ->) |];
    (destruct (search re_pending a) as [m2 |] eqn:E2;
      [apply search_attribute_row in E2; destruct E2 as (g2 & H2 & ->) |]);
    (destruct (search re_uncorrectable a) as [m3 |] eqn:E3;
      [apply search_attribute_row2 in E3;
       destruct E3 as (n3 & g3 & _ & H3 & ->) |]);
    open_steps; rewrite ?HA; repeat split;
      solve [left; reflexivity | right; assumption].
Qed.

(** The report and the checks of an extracted record run to their end. *)
Lemma check_disk_extracted h info health attr disk_id :
  result_of (check_disk disk_id (extract h info health attr)) = inr tt.
Proof.
  rewrite result_of_check_disk.
  destruct (IsSSD (extract h info health attr)); [reflexivity |].
  destruct (extract_sector_texts h info health attr) as (Hr & Hp & Hu).
  apply result_of_sector_checks; assumption.
Qed.

(** *** The summary and [main] *)

Lemma summary_ok s :
  critical_issues s = [] ->
  summary s =
    (inr 0,
     mk_state (stdout s ++ [nl ++ "===== Summary =====";
                            "All disks appear to be healthy."; status_ok])
              []).
Proof.
  destruct s as [out iss]. cbn. intros ->. cbn.
  rewrite <- !app_assoc. reflexivity.
Qed.

Lemma for_each_print_issues (issues : list finding) s :
  for_each issues (fun issue => print ("- " ++ text issue)) s =
    (inr tt,
     mk_state (stdout s ++ map (fun issue => "- " ++ text issue) issues)
              (critical_issues s)).
Proof.
  revert s. induction issues as [| f issues IH]; intros [out iss]; cbn.
  - now rewrite app_nil_r.
  - unfold bind. cbn. rewrite IH. cbn. rewrite <- app_assoc. reflexivity.
Qed.

Lemma summary_warning s :
  critical_issues s <> [] ->
  summary s =
    (inr 1,
     mk_state (stdout s ++ [nl ++ "===== Summary =====";
                            "CRITICAL ISSUES DETECTED:"]
               ++ map (fun issue => "- " ++ text issue) (critical_issues s)
               ++ [status_warning])
              (critical_issues s)).
Proof.
  destruct s as [out iss]. cbn. intros Hne.
  destruct iss as [| f iss]; [contradiction |].
  unfold summary, bind, get_issues. cbn [print fst snd stdout critical_issues].
  rewrite for_each_print_issues. cbn.
  rewrite <- !app_assoc. reflexivity.
Qed.

End ScanFacts.

(** ** Properties of the scan *)

Module ScanProperties.
Import PyStr Re ReFacts PyStrFacts PatternFacts Smart StateFacts CheckFacts.
Import ExtractFacts ExtractorProperties FindingFacts ScanFacts Examples.

Lemma summary_from s :
  summary s =
    (inr (match critical_issues s with [] => 0 | _ :: _ => 1 end),
     mk_state (stdout s ++ summary_lines (critical_issues s))
              (critical_issues s)).
Proof.
  destruct (critical_issues s) as [| f fs] eqn:E.
  - rewrite summary_ok by assumption. reflexivity.
  - rewrite summary_warning by (rewrite E; discriminate).
    rewrite E. reflexivity.
Qed.

(** The scan of a batch: the lines and findings of each disk, then the
    summary of all the findings. *)
Lemma scan_from h path disks s :
  scan h path disks s =
    let issues := (critical_issues s ++ batch_findings h path disks)%list in
    (inr (match issues with [] => 0 | _ :: _ => 1 end),
     mk_state (stdout s ++ batch_output h path disks ++ summary_lines issues)
              issues).
Proof.
  unfold scan, bind. rewrite for_each_process_disk, summary_from.
  cbn [stdout critical_issues]. cbv zeta.
  rewrite <- app_assoc. reflexivity.
Qed.

Lemma issues_of_initialize_smartmontools h :
  issues_of (initialize_smartmontools h) = [].
Proof.
  unfold issues_of, initialize_smartmontools, download_file, extract_exe,
    try_except, bind, may_raise.
  destruct (tool_present h); [reflexivity |].
  destruct (makedirs h); [reflexivity |].
  cbn [print ret raise fst snd stdout critical_issues initial_state].
  destruct (urlretrieve h _ _); [reflexivity |].
  cbn [print ret raise negb fst snd stdout critical_issues].
  destruct (seven_zip_present h);
    [destruct (run_seven_zip h _ _) | destruct (run_installer h _ _)];
    try reflexivity;
    cbn [print ret raise negb fst snd stdout critical_issues];
    destruct (tool_extracted h); reflexivity.
Qed.

Lemma get_disk_info_views h path disk_id :
  result_of (get_disk_info h path disk_id) = inr (disk_record h path disk_id)
  /\ output_of (get_disk_info h path disk_id) = disk_errors h path disk_id.
Proof.
  unfold result_of, output_of. rewrite get_disk_info_from. split; reflexivity.
Qed.

(** [main] when the privileges, the utility and at least one disk are
    there. *)
Lemma main_scans h tool path disks :
  is_admin h = true ->
  result_of (initialize_smartmontools h) = inr tool ->
  truthy tool = Some path ->
  result_of (get_physical_disks h path) = inr disks -> disks <> [] ->
  let issues := batch_findings h path disks in
  main h =
    (match issues with [] => 0 | _ :: _ => 1 end,
     mk_state (header_lines h path disks ++ batch_output h path disks
               ++ summary_lines issues)
              issues).
Proof.
  intros Ha Hi Ht Hd Hne. cbv zeta.
  unfold result_of in Hd. rewrite get_physical_disks_from in Hd.
  injection Hd as Hd.
  pose proof (scanned_disks_no_error h path) as Hsilent.
  rewrite Hd in Hsilent. specialize (Hsilent Hne).
  unfold main, try_except, main_body. rewrite Ha. cbn [negb].
  unfold bind at 1. cbn [print].
  unfold bind at 1. rewrite (framed_initialize_smartmontools h _).
  rewrite Hi, issues_of_initialize_smartmontools, Ht.
  unfold bind at 1. cbn [print].
  unfold bind at 1. cbn [print].
  unfold bind at 1. rewrite get_physical_disks_from, Hd, Hsilent.
  destruct disks as [| disk_id disks]; [contradiction |].
  unfold bind. cbn [print fst snd stdout critical_issues initial_state].
  rewrite scan_from. cbv zeta. cbn [stdout critical_issues app].
  unfold header_lines. rewrite !app_nil_r. cbn [app].
  rewrite <- !app_assoc. reflexivity.
Qed.

(** C5. For every batch with at least one disk (with the privileges and
    the utility there), the findings of the run are those of its disks, the
    exit status is 1 exactly when there is a finding, whatever its
    severity, and 0 exactly when there is none, the last line printed is
    the WARNING or the OK status accordingly, and the status is the exit
    status of the script. *)
Theorem C5_status_follows_findings (h : host) (tool : option string)
    (path : string) (disks : list string) :
  is_admin h = true ->
  result_of (initialize_smartmontools h) = inr tool ->
  truthy tool = Some path ->
  result_of (get_physical_disks h path) = inr disks -> disks <> [] ->
  let issues := critical_issues (snd (main h)) in
  issues = batch_findings h path disks
  /\ (fst (main h) = 1 <-> issues <> [])
  /\ (fst (main h) = 0 <-> issues = [])
  /\ last (stdout (snd (main h))) "" =
       match issues with [] => status_ok | _ :: _ => status_warning end
  /\ fst (script h) = fst (main h).
Proof.
  intros Ha Hi Ht Hd Hne. cbv zeta.
  assert (Hscript : fst (script h) = fst (main h))
    by (unfold script; destruct (main h); reflexivity).
  rewrite Hscript. rewrite (main_scans h tool path disks Ha Hi Ht Hd Hne).
  cbn [fst snd critical_issues stdout].
  set (issues := batch_findings h path disks).
  split; [reflexivity |].
  destruct issues as [| f fs]; repeat split; try discriminate;
    try (intros H; now contradiction H).
  - change (summary_lines []) with
      (app [append nl "===== Summary ====="; "All disks appear to be healthy."]
           [status_ok]).
    rewrite !app_assoc. apply last_last.
  - unfold summary_lines. rewrite !app_assoc. apply last_last.
Qed.

(** The NVMe sample: one finding, status 1. *)
Lemma C5_status_follows_findings_witness :
  fst (main nvme_host) = 1 <-> critical_issues (snd (main nvme_host)) <> [].
Proof.
  destruct (C5_status_follows_findings nvme_host (Some sample_path)
              sample_path [sda] eq_refl eq_refl eq_refl eq_refl)
    as (_ & H & _).
  - discriminate.
  - exact H.
Defined.

(** The lines and findings of a disk that is examined without a fault: the
    lines of its runs that raised, the whole report of its record and all
    the findings of its checks. *)
Lemma process_disk_complete h path disk_id :
  fault h disk_id = None ->
  let d := disk_record h path disk_id in
  disk_findings h path disk_id = findings disk_id d
  /\ disk_output h path disk_id =
       (processing_line disk_id
        :: disk_errors h path disk_id ++ output_of (check_disk disk_id d))%list.
Proof.
  intros Hf. cbv zeta.
  assert (R : result_of (check_disk disk_id (disk_record h path disk_id))
              = inr tt) by apply check_disk_extracted.
  assert (E : examine_disk h path disk_id initial_state =
              (inr tt,
               mk_state
                 (processing_line disk_id
                  :: disk_errors h path disk_id
                  ++ output_of
                       (check_disk disk_id (disk_record h path disk_id)))
                 (findings disk_id (disk_record h path disk_id)))).
  { unfold examine_disk, call_get_disk_info, bind. rewrite Hf.
    cbn [print fst snd stdout critical_issues initial_state app].
    rewrite get_disk_info_from. cbn [stdout critical_issues app].
    rewrite (framed_check_disk disk_id (disk_record h path disk_id) _).
    rewrite R. reflexivity. }
  unfold disk_findings, disk_output, issues_of, output_of, process_disk,
    try_except.
  rewrite E. split; reflexivity.
Qed.

(** C6. An exception raised while one disk is examined is caught in the
    round of that disk: the loop always returns, every disk adds its own
    lines and findings, whatever happened to the others, and the scan ends
    with the status of the summary.  The handler also returns when the
    checks of a record raise.  A disk whose extraction raises adds its error
    line and no finding; a disk examined without a fault adds the lines of
    its runs of the utility that raised, the whole report of its record and
    all its findings.  In a batch of three disks where the second one
    raises, the run ends with the summary and holds the complete reports
    and findings of the first and the third. *)
Theorem C6_disk_failures_are_contained (h : host) (path : string) :
  (forall disks s,
     for_each disks (process_disk h path) s =
       (inr tt,
        mk_state (stdout s ++ batch_output h path disks)
                 (critical_issues s ++ batch_findings h path disks)))
  /\ (forall disks,
        result_of (scan h path disks) =
          inr (match batch_findings h path disks with
               | [] => 0
               | _ :: _ => 1
               end))
  /\ (forall disk_id d,
        result_of (try_except (check_disk disk_id d)
                     (fun e => print (error_line disk_id e))) = inr tt)
  /\ (forall disk_id e,
        fault h disk_id = Some e ->
        disk_findings h path disk_id = []
        /\ disk_output h path disk_id =
             [processing_line disk_id; error_line disk_id e])
  /\ (forall disk_id,
        fault h disk_id = None ->
        exists d,
          result_of (get_disk_info h path disk_id) = inr d
          /\ disk_findings h path disk_id = findings disk_id d
          /\ disk_output h path disk_id =
               (processing_line disk_id
                :: output_of (get_disk_info h path disk_id)
                ++ output_of (check_disk disk_id d))%list
          /\ Forall smartctl_error_line
               (output_of (get_disk_info h path disk_id)))
  /\ (forall d1 d2 d3 e r1 r3,
        fault h d1 = None -> fault h d2 = Some e -> fault h d3 = None ->
        result_of (get_disk_info h path d1) = inr r1 ->
        result_of (get_disk_info h path d3) = inr r3 ->
        let issues := (findings d1 r1 ++ findings d3 r3)%list in
        scan h path [d1; d2; d3] initial_state =
          (inr (match issues with [] => 0 | _ :: _ => 1 end),
           mk_state
             ((processing_line d1
               :: output_of (get_disk_info h path d1)
               ++ output_of (check_disk d1 r1))
              ++ [processing_line d2; error_line d2 e]
              ++ (processing_line d3
                  :: output_of (get_disk_info h path d3)
                  ++ output_of (check_disk d3 r3))
              ++ summary_lines issues)
             issues)).
Proof.
  split; [| split; [| split; [| split; [| split]]]].
  - intros disks s. apply for_each_process_disk.
  - intros disks. unfold result_of. rewrite scan_from. reflexivity.
  - intros disk_id d. unfold result_of, try_except.
    destruct (check_disk disk_id d initial_state) as [[e | []] s];
      reflexivity.
  - intros disk_id e. apply process_disk_fault.
  - intros disk_id Hf. exists (disk_record h path disk_id).
    destruct (get_disk_info_views h path disk_id) as (Hr & Ho).
    destruct (process_disk_complete h path disk_id Hf) as (Hi & Hl).
    rewrite Ho. repeat split; try assumption.
    apply disk_errors_lines.
  - intros d1 d2 d3 e r1 r3 H1 H2 H3 R1 R3. cbv zeta. rewrite scan_from.
    destruct (get_disk_info_views h path d1) as (Hr1 & ->).
    destruct (get_disk_info_views h path d3) as (Hr3 & ->).
    rewrite Hr1 in R1. injection R1 as <-.
    rewrite Hr3 in R3. injection R3 as <-.
    unfold batch_findings, batch_output. cbn [map List.concat].
    destruct (process_disk_complete h path d1 H1) as (-> & ->).
    destruct (process_disk_complete h path d3 H3) as (-> & ->).
    destruct (process_disk_fault h path d2 e H2) as (-> & ->).
    cbn [critical_issues stdout initial_state].
    rewrite !app_nil_r. cbn [app]. rewrite <- !app_assoc. cbn [app].
    rewrite <- ?app_assoc. reflexivity.
Qed.

(** The sample with three disks, the second of which is denied: the scan
    reports the first and the third in full, marks the second, and returns
    with the finding of the third.  And a record whose sector count is a
    superscript two, which [isdigit] accepts and [int] refuses: its checks
    raise, and the handler returns. *)
Lemma C6_disk_failures_are_contained_witness :
  let h := three_disk_host in
  let e := Exception "[WinError 5] Access is denied" in
  let r1 := extract h (Some hdd_identity) (Some health_passed)
              (Some (hdd_attributes "0")) in
  let r3 := extract h (Some nvme_identity) (Some health_passed)
              (Some nvme_attributes) in
  let odd :=
    set_ReallocatedSectors (String (ascii_of_nat 178) "") default_disk_info in
  result_of (get_physical_disks h sample_path) = inr [sda; sdb; sdc]
  /\ scan h sample_path [sda; sdb; sdc] initial_state =
       (inr 1,
        mk_state
          ((processing_line sda :: output_of (check_disk sda r1))
           ++ [processing_line sdb; error_line sdb e]
           ++ (processing_line sdc :: output_of (check_disk sdc r3))
           ++ summary_lines (findings sdc r3))
          [mk_finding LifeRule Warning
             "Disk /dev/sdc (Samsung 970 EVO 500GB) SSD life warning: 15%"])
  /\ result_of (check_disk sda odd) =
       inl (Exception (invalid_literal (String (ascii_of_nat 178) "")))
  /\ result_of (try_except (check_disk sda odd)
                  (fun e => print (error_line sda e))) = inr tt.
Proof.
  cbv zeta.
  destruct (C6_disk_failures_are_contained three_disk_host sample_path)
    as (_ & _ & Hcaught & _ & _ & H).
  split; [vm_compute; reflexivity |].
  split; [| split; [vm_compute; reflexivity | apply Hcaught]].
  specialize (H sda sdb sdc (Exception "[WinError 5] Access is denied")
                (extract three_disk_host (Some hdd_identity)
                   (Some health_passed) (Some (hdd_attributes "0")))
                (extract three_disk_host (Some nvme_identity)
                   (Some health_passed) (Some nvme_attributes))
                eq_refl eq_refl eq_refl eq_refl eq_refl).
  vm_compute in H |- *. exact H.
Defined.

(** *** The reallocated sector count *)

(** The check of the reallocated sector count on a rotating record whose
    field holds a number: one Critical finding when the number is positive,
    none when it is zero. *)
Lemma reported_reallocated disk_id d g n :
  IsSSD d = false -> ReallocatedSectors (Attributes d) = g ->
  all_decimal g = true -> int g = Some n ->
  reported_by ReallocatedRule (findings disk_id d) =
    if 0 <? n
    then [mk_finding ReallocatedRule Critical
            (disk_label disk_id d ++ " has " ++ g ++ " reallocated sectors")]
    else [].
Proof.
  intros Hk Hg Hd Hn. rewrite findings_split, Hk, !reported_by_app.
  rewrite (reported_by_other ReallocatedRule HealthRule)
    by (discriminate || apply health_findings_rule).
  rewrite (reported_by_other ReallocatedRule TemperatureRule)
    by (discriminate || apply temperature_findings_rule).
  cbn [app]. unfold sector_findings, sector_checks.
  rewrite issues_of_bind by framing.
  rewrite (result_of_check_sectors ReallocatedRule _ disk_id d
             (ReallocatedSectors (Attributes d)))
    by (right; rewrite Hg; assumption).
  rewrite reported_by_app.
  assert (Hrest : reported_by ReallocatedRule
            (issues_of
               (bind (check_sectors PendingRule "pending sectors" disk_id d
                        (PendingSectors (Attributes d)))
                  (fun _ =>
                     check_sectors UncorrectableRule "uncorrectable sectors"
                       disk_id d (UncorrectableSectors (Attributes d)))))
            = []).
  { rewrite issues_of_bind by framing. rewrite reported_by_app.
    destruct (check_sectors_issues PendingRule "pending sectors" disk_id d
                (PendingSectors (Attributes d))) as [-> | ->];
      destruct (result_of _); cbn; try reflexivity;
      destruct (check_sectors_issues UncorrectableRule
                  "uncorrectable sectors" disk_id d
                  (UncorrectableSectors (Attributes d))) as [-> | ->];
      reflexivity. }
  rewrite Hrest, app_nil_r.
  unfold check_sectors. rewrite Hg.
  change (String.eqb g NA) with (String.eqb g "N/A").
  rewrite (NA_not_decimal g Hd), (isdigit_all_decimal g Hd).
  unfold issues_of, bind, int_or_raise. rewrite Hn. cbn.
  destruct (0 <? n); reflexivity.
Qed.

(** C1, at an attribute table as the utility prints it. The row of the
    reallocated sector count has the raw value 8, and the record of the disk
    stores "0", the first digit of the flag column: no finding is reported
    and the run exits with 0.  The record is the one of the table whose raw
    value is 0. *)
Theorem C1_reallocated_row_stores_flag_digit :
  let d := extract (hdd_host "8") (Some hdd_identity) (Some health_passed)
             (Some (hdd_attributes "8")) in
  result_of (get_disk_info (hdd_host "8") sample_path sda) = inr d
  /\ search re_reallocated (hdd_attributes "8") = Some [(1%nat, "0")]
  /\ IsSSD d = false
  /\ ReallocatedSectors (Attributes d) = "0"
  /\ reported_by ReallocatedRule (findings sda d) = []
  /\ findings sda d = []
  /\ fst (main (hdd_host "8")) = 0
  /\ result_of (get_disk_info (hdd_host "0") sample_path sda) = inr d.
Proof. cbv zeta. repeat apply conj; vm_compute; reflexivity. Qed.

End ScanProperties.

(** ** Where the patterns match *)

Module SearchFacts.
Import PyStr Re ReFacts PyStrFacts PatternFacts Smart.

Lemma run_lit_mismatch name s c k :
  startswith name s = false -> run (lit name) s c k = None.
Proof.
  revert s. induction name as [| a name IH]; intros s H; [discriminate |].
  destruct s as [| b s]; [reflexivity |]. cbn in *.
  destruct (Ascii.eqb a b); [| reflexivity]. apply IH. assumption.
Qed.

Lemma run_lit_match name s c k : run (lit name) (name ++ s) c k = k s c.
Proof.
  induction name as [| a name IH]; [reflexivity |].
  cbn. rewrite Ascii.eqb_refl. apply IH.
Qed.

(** A pattern that begins with a literal is tried in vain wherever the
    literal does not start. *)
Lemma search_skips name r pre s :
  starts_nowhere name pre s = true ->
  search (Seq (lit name) r) (pre ++ s) = search (Seq (lit name) r) s.
Proof.
  induction pre as [| a pre IH]; [reflexivity |].
  cbn [starts_nowhere]. intros H. apply andb_prop in H. destruct H as [Hn Hp].
  apply negb_true_iff in Hn.
  change (String a pre ++ s) with (String a (pre ++ s)) in *.
  cbn [search]. unfold match_here. cbn [run].
  rewrite run_lit_mismatch by assumption. apply IH. assumption.
Qed.

Lemma search_here r s m : match_here r s = Some m -> search r s = Some m.
Proof. intros H. destruct s; cbn [search]; rewrite H; reflexivity. Qed.

(** Lazy repetition steps over the characters on which the continuation
    fails. *)
Lemma repeat_lazy_chr p q k gap rest c x :
  (forall a t, q a = true -> k (String a t) c = None) ->
  PyStr.forallb p gap = true -> PyStr.forallb q gap = true ->
  k rest c = Some x ->
  forall n, (String.length (gap ++ rest) <= n)%nat ->
    repeat (run (Chr p)) false k n (gap ++ rest) c = Some x.
Proof.
  intros Hq Hp Hg Hk. induction gap as [| a gap IH]; intros n Hn.
  - cbn. destruct n; cbn; rewrite ?Hk; reflexivity.
  - cbn in Hp, Hg, Hn. apply andb_prop in Hp. destruct Hp as [Hpa Hp].
    apply andb_prop in Hg. destruct Hg as [Hqa Hg].
    destruct n as [| n]; [lia |].
    change (String a gap ++ rest) with (String a (gap ++ rest)).
    cbn [repeat run]. rewrite (Hq a _ Hqa), Hpa. cbn [orelse].
    assert (Hlt : Nat.ltb (String.length (gap ++ rest))
                    (String.length (String a (gap ++ rest))) = true)
      by (apply Nat.ltb_lt; cbn; lia).
    rewrite Hlt. apply IH; [assumption | assumption | lia].
Qed.

Lemma run_plus_greedy p k w rest c x :
  is_empty w = false -> PyStr.forallb p w = true -> stops p rest = true ->
  k rest c = Some x ->
  run (plus (Chr p)) (w ++ rest) c k = Some x.
Proof.
  intros Hne Hw Hrest Hk. destruct w as [| a w]; [discriminate |].
  cbn in Hw. apply andb_prop in Hw. destruct Hw as [Ha Hw].
  cbn [run plus append]. rewrite Ha.
  apply repeat_greedy_chr; try assumption. lia.
Qed.

Lemma forallb_plain gap :
  PyStr.forallb plain_char gap = true ->
  PyStr.forallb (fun a => negb (Ascii.eqb a newline)) gap = true
  /\ PyStr.forallb (fun a => negb (is_decimal a)) gap = true.
Proof.
  induction gap as [| a gap IH]; cbn [PyStr.forallb]; [auto |].
  intros H. apply andb_prop in H. destruct H as [Ha Hg].
  unfold plain_char in Ha. apply andb_prop in Ha. destruct Ha as [Hn Hd].
  destruct (IH Hg) as [H1 H2]. rewrite Hn, Hd, H1, H2. auto.
Qed.

(** [NAME.*?(\d+)] finds, at the first place where [NAME] starts, the first
    run of digits that follows it on the line. *)
Lemma search_attribute_row_first name pre gap d rest :
  starts_nowhere name pre (name ++ gap ++ d ++ rest) = true ->
  PyStr.forallb plain_char gap = true ->
  all_decimal d = true -> stops is_decimal rest = true ->
  search (attribute_row name) (pre ++ name ++ gap ++ d ++ rest)
    = Some [(1%nat, d)].
Proof.
  intros Hpre Hgap Hd Hrest. destruct (forallb_plain gap Hgap) as [Hdot Hnd].
  unfold all_decimal in Hd. apply andb_prop in Hd. destruct Hd as [Hne Hd].
  apply negb_true_iff in Hne.
  unfold attribute_row. cbn [seq]. rewrite search_skips by assumption.
  apply search_here. unfold match_here. cbn [run].
  rewrite run_lit_match. unfold lazy_star, dot. cbn [run].
  apply (repeat_lazy_chr _ (fun a => negb (is_decimal a))); try assumption.
  - intros a t Ha. unfold plus, digit. cbn [run].
    apply negb_true_iff in Ha. rewrite Ha. reflexivity.
  - unfold digit. apply run_group_plus_greedy; try assumption. reflexivity.
  - lia.
Qed.

End SearchFacts.

(** ** Further properties of the extractor *)

Module ExtractorExtras.
Import PyStr Re ReFacts PyStrFacts PatternFacts Smart ExtractFacts.
Import ExtractorProperties SearchFacts Examples.

Lemma ReallocatedSectors_parse_attributes h a d :
  IsSSD d = false ->
  ReallocatedSectors (Attributes (parse_attributes h a d)) =
    ReallocatedSectors (Attributes (parse_reallocated a d)).
Proof.
  intros E. rewrite parse_attributes_hdd by assumption.
  unfold parse_hdd, parse_reallocated.
  destruct (search re_reallocated a); open_steps; reflexivity.
Qed.

Lemma Temperature_parse_attributes h a d :
  Temperature (Attributes (parse_attributes h a d)) =
    Temperature (Attributes (parse_temperature_attr a d)).
Proof.
  destruct (IsSSD d) eqn:E.
  - rewrite parse_attributes_ssd by assumption.
    unfold parse_ssd, parse_temperature_attr.
    repeat match goal with
    | |- context [match search ?r a with _ => _ end] => destruct (search r a)
    end; open_steps; reflexivity.
  - rewrite parse_attributes_hdd by assumption.
    unfold parse_hdd, parse_temperature_attr.
    repeat match goal with
    | |- context [match search ?r a with _ => _ end] => destruct (search r a)
    end; open_steps; reflexivity.
Qed.

Lemma truthy_text pre name s :
  is_empty name = false -> truthy (Some (pre ++ name ++ s)) = Some (pre ++ name ++ s).
Proof.
  intros H. destruct pre; [destruct name; [discriminate |] |]; reflexivity.
Qed.

(** X1. The pattern of an attribute row, [NAME.*?(\d+)], captures the first
    run of digits that follows the first occurrence of the name on its
    line, whatever comes later on the line.  So on a rotating disk the
    stored reallocated sector count is the first number after
    "Reallocated_Sector_Ct". *)
Theorem X1_attribute_row_first_number (h : host) (info health : option string)
    (i name pre gap d rest : string) :
  truthy info = Some i ->
  PyStr.forallb plain_char gap = true ->
  all_decimal d = true -> stops is_decimal rest = true ->
  (starts_nowhere name pre (name ++ gap ++ d ++ rest) = true ->
   search (attribute_row name) (pre ++ name ++ gap ++ d ++ rest)
     = Some [(1%nat, d)])
  /\ (let attr := pre ++ "Reallocated_Sector_Ct" ++ gap ++ d ++ rest in
      starts_nowhere "Reallocated_Sector_Ct" pre
        ("Reallocated_Sector_Ct" ++ gap ++ d ++ rest) = true ->
      IsSSD (extract h info health (Some attr)) = false ->
      ReallocatedSectors (Attributes (extract h info health (Some attr))) = d).
Proof.
  intros Hi Hgap Hd Hrest. split.
  - intros Hpre. apply search_attribute_row_first; assumption.
  - cbv zeta. intros Hpre. rewrite extract_cases, Hi.
    rewrite truthy_text by reflexivity.
    rewrite IsSSD_parse_attributes. intros Hk.
    rewrite ReallocatedSectors_parse_attributes by assumption.
    unfold parse_reallocated, re_reallocated.
    rewrite search_attribute_row_first by assumption. reflexivity.
Qed.

(** The table of the utility: after the name come blanks and the flag
    column "0x0033", so the number stored is 0 where the raw value is 8. *)
Lemma X1_attribute_row_first_number_witness :
  ReallocatedSectors
    (Attributes (extract (hdd_host "8") (Some hdd_identity)
                   (Some health_passed) (Some (hdd_attributes "8")))) = "0".
Proof.
  refine (proj2 (X1_attribute_row_first_number (hdd_host "8")
                   (Some hdd_identity) (Some health_passed) hdd_identity
                   "Reallocated_Sector_Ct"
                   ("ID# ATTRIBUTE_NAME          FLAG     VALUE WORST THRESH TYPE      UPDATED  WHEN_FAILED RAW_VALUE"
                    ++ nl ++ "  5 ")
                   "   " "0"
                   ("x0033   200   200   140    Pre-fail  Always       -       8"
                    ++ nl ++
                    "  9 Power_On_Hours          0x0032   093   093   000    Old_age   Always       -       5432" ++ nl ++
                    "194 Temperature_Celsius     0x0022   110   099   000    Old_age   Always       -       37" ++ nl ++
                    "197 Current_Pending_Sector  0x0032   200   200   000    Old_age   Always       -       0" ++ nl ++
                    "198 Offline_Uncorrectable   0x0030   200   200   000    Old_age   Offline      -       0" ++ nl)
                   eq_refl eq_refl eq_refl eq_refl) _ _);
    vm_compute; reflexivity.
Defined.


Lemma decimal_not_space (a : ascii) : is_decimal a = true -> is_space a = false.
Proof.
  destruct a as [b0 b1 b2 b3 b4 b5 b6 b7].
  destruct b0, b1, b2, b3, b4, b5, b6, b7; intros H;
    try (vm_compute in H; discriminate H); reflexivity.
Qed.

Lemma stops_space_decimal d rest :
  all_decimal d = true -> stops is_space (d ++ rest) = true.
Proof.
  unfold all_decimal. destruct d as [| a d]; [discriminate |].
  cbn. intros H. apply andb_prop in H. destruct H as [Ha _].
  now rewrite (decimal_not_space a Ha).
Qed.

Lemma search_nvme_power_on_hours_first pre ws d rest :
  starts_nowhere "Power On Hours:" pre
    ("Power On Hours:" ++ ws ++ d ++ rest) = true ->
  is_empty ws = false -> PyStr.forallb is_space ws = true ->
  all_decimal d = true -> stops is_decimal rest = true ->
  search re_nvme_power_on_hours (pre ++ "Power On Hours:" ++ ws ++ d ++ rest)
    = Some [(1%nat, d)].
Proof.
  intros Hpre Hne Hws Hd Hrest.
  pose proof (stops_space_decimal d rest Hd) as Hstop.
  unfold all_decimal in Hd. apply andb_prop in Hd. destruct Hd as [Hdne Hd].
  apply negb_true_iff in Hdne.
  unfold re_nvme_power_on_hours. cbn [seq].
  rewrite search_skips by assumption.
  apply search_here. unfold match_here. cbn [run].
  rewrite run_lit_match. unfold space.
  apply run_plus_greedy; try assumption.
  unfold digit. apply run_group_plus_greedy; try assumption. reflexivity.
Qed.

(** X2. From an NVMe line "Power On Hours:", blanks, digits, the hours read
    are the digits up to the first character that is no digit: with a
    thousands separator, as in "1,234", only the digits before the comma
    count, and the stored time is computed from them. *)
Theorem X2_power_on_hours_stop_at_separator (h : host)
    (info health : option string) (i pre ws d rest : string) :
  let attr := pre ++ "Power On Hours:" ++ ws ++ d ++ rest in
  truthy info = Some i ->
  search re_power_on_hours attr = None ->
  starts_nowhere "Power On Hours:" pre
    ("Power On Hours:" ++ ws ++ d ++ rest) = true ->
  is_empty ws = false -> PyStr.forallb is_space ws = true ->
  all_decimal d = true -> stops is_decimal rest = true ->
  exists hours, int d = Some hours
    /\ PowerOnTime (Attributes (extract h info health (Some attr))) =
         str (hours / 24) ++ " days, " ++ str (hours mod 24) ++ " hours".
Proof.
  cbv zeta. intros Hi Hlegacy Hpre Hne Hws Hd Hrest.
  rewrite extract_cases, Hi. rewrite truthy_text by reflexivity.
  rewrite PowerOnTime_parse_attributes. unfold parse_power_on.
  rewrite Hlegacy, search_nvme_power_on_hours_first by assumption.
  cbn [group Nat.eqb Attributes PowerOnTime set_PowerOnTime set_Attributes].
  destruct (parse_power_on_hours_decimal d Hd) as (hours & Hh & _ & ->).
  exists hours. split; [assumption | reflexivity].
Qed.

(** The line "Power On Hours:  1,234" is stored as one hour. *)
Lemma X2_power_on_hours_stop_at_separator_witness :
  PowerOnTime
    (Attributes (extract nvme_host (Some nvme_identity) (Some health_passed)
                   (Some ("Temperature:                        41 Celsius"
                          ++ nl ++ "Power On Hours:" ++ "  " ++ "1"
                          ++ ",234" ++ nl))))
  = "0 days, 1 hours".
Proof.
  destruct (X2_power_on_hours_stop_at_separator nvme_host
              (Some nvme_identity) (Some health_passed) nvme_identity
              ("Temperature:                        41 Celsius" ++ nl)
              "  " "1" (",234" ++ nl)
              eq_refl eq_refl eq_refl eq_refl eq_refl eq_refl eq_refl)
    as (hours & Hh & Hp).
  injection Hh as <-. exact Hp.
Defined.


Lemma search_nvme_temperature (s : string) (m : caps) :
  search re_nvme_temperature s = Some m ->
  exists d, all_decimal d = true /\ m = [(1%nat, d)].
Proof.
  intros H. apply search_sound in H. destruct H as (t & s' & H).
  unfold re_nvme_temperature, digit, space in H. cbn [seq] in H.
  apply matches_seq2 in H. destruct H as (s1 & c1 & H1 & H).
  apply matches_seq2 in H. destruct H as (s2 & c2 & H2 & H).
  apply matches_seq2 in H. destruct H as (s3 & c3 & H3 & H).
  apply matches_seq2 in H. destruct H as (s4 & c4 & H4 & H).
  split_match. subst. eauto using decimal_group.
Qed.

Lemma search_labelled (label s : string) (m : caps) :
  search (labelled label) s = Some m ->
  exists g, label_text g /\ m = [(1%nat, g)].
Proof.
  intros H. apply search_sound in H. destruct H as (t & s' & H).
  unfold labelled, dot, space in H. cbn [seq] in H.
  split_match. subst. unfold label_text. eauto.
Qed.

Lemma Model_parse_attributes h a d :
  Model (parse_attributes h a d) = Model d
  /\ SerialNumber (parse_attributes h a d) = SerialNumber d.
Proof.
  destruct (IsSSD d) eqn:E.
  - rewrite parse_attributes_ssd by assumption. unfold parse_ssd.
    open_steps; split; reflexivity.
  - rewrite parse_attributes_hdd by assumption. unfold parse_hdd.
    open_steps; split; reflexivity.
Qed.

(** The fields that come from the identity text alone. *)
Lemma identity_fields h info health attr i :
  truthy info = Some i ->
  let d := extract h info health attr in
  let d0 := parse_identity i default_disk_info in
  Model d = Model d0 /\ SerialNumber d = SerialNumber d0
  /\ IsSSD d = IsSSD d0.
Proof.
  intros Hi. cbv zeta. rewrite extract_cases, Hi.
  assert (B : Model (before_attributes i health)
              = Model (parse_identity i default_disk_info)
              /\ SerialNumber (before_attributes i health)
                 = SerialNumber (parse_identity i default_disk_info)
              /\ IsSSD (before_attributes i health)
                 = IsSSD (parse_identity i default_disk_info)).
  { unfold before_attributes. cbv zeta.
    destruct (truthy health); [| auto]. open_step; cbn; auto. }
  destruct B as (B1 & B2 & B3).
  destruct (truthy attr) as [a |]; [| auto].
  destruct (Model_parse_attributes h a (before_attributes i health))
    as (-> & ->).
  rewrite IsSSD_parse_attributes. auto.
Qed.

Lemma Model_parse_identity i d :
  Model (parse_identity i d) = Model (parse_model i d)
  /\ SerialNumber (parse_identity i d) = SerialNumber (parse_serial i d).
Proof.
  unfold parse_identity. split.
  - destruct (detect_ssd_assigns i (parse_serial i (parse_model i d)))
      as [-> | ->]; cbn;
      destruct (parse_serial_assigns i (parse_model i d)) as [-> | [? ->]];
      reflexivity.
  - destruct (detect_ssd_assigns i (parse_serial i (parse_model i d)))
      as [-> | ->]; cbn; unfold parse_serial;
      destruct (search re_serial_number i);
      destruct (parse_model_assigns i d) as [-> | [? ->]]; reflexivity.
Qed.

Lemma label_text_Unknown : label_text "Unknown".
Proof. split; reflexivity. Qed.

Lemma Model_label_text i :
  label_text (Model (parse_model i default_disk_info))
  /\ label_text (SerialNumber (parse_serial i default_disk_info)).
Proof.
  split.
  - unfold parse_model.
    destruct (search re_device_model i) as [m |] eqn:E1;
      [apply search_labelled in E1; destruct E1 as (g & Hg & ->); exact Hg |].
    destruct (search re_product i) as [m |] eqn:E2;
      [apply search_labelled in E2; destruct E2 as (g & Hg & ->); exact Hg |].
    destruct (search re_model_number i) as [m |] eqn:E3;
      [apply search_labelled in E3; destruct E3 as (g & Hg & ->); exact Hg |].
    apply label_text_Unknown.
  - unfold parse_serial.
    destruct (search re_serial_number i) as [m |] eqn:E1;
      [apply search_labelled in E1; destruct E1 as (g & Hg & ->); exact Hg |].
    apply label_text_Unknown.
Qed.

Lemma temperature_text_parse a d :
  temperature_text (Temperature (Attributes d)) ->
  temperature_text (Temperature (Attributes (parse_temperature_attr a d))).
Proof.
  intros Hd. unfold parse_temperature_attr.
  destruct (search re_temperature a) as [m |] eqn:E1.
  { apply search_attribute_row in E1. destruct E1 as (g & Hg & ->).
    right. exists g. split; [assumption | reflexivity]. }
  destruct (search re_alt_temperature a) as [m |] eqn:E2.
  { apply search_attribute_row2 in E2. destruct E2 as (n & g & _ & Hg & ->).
    right. exists g. split; [assumption | reflexivity]. }
  destruct (search re_nvme_temperature a) as [m |] eqn:E3.
  { apply search_nvme_temperature in E3. destruct E3 as (g & Hg & ->).
    right. exists g. split; [assumption | reflexivity]. }
  assumption.
Qed.

Lemma power_on_text_parse a d :
  power_on_text (PowerOnTime (Attributes d)) ->
  power_on_text (PowerOnTime (Attributes (parse_power_on a d))).
Proof.
  intros Hd. unfold parse_power_on.
  destruct (search re_power_on_hours a) as [m |] eqn:E1.
  { apply search_attribute_row in E1. destruct E1 as (g & Hg & ->).
    destruct (parse_power_on_hours_decimal g Hg) as (hours & _ & Hpos & Hr).
    right. exists hours. split; [assumption | exact Hr]. }
  destruct (search re_nvme_power_on_hours a) as [m |] eqn:E2.
  { apply search_nvme_power_on_hours in E2. destruct E2 as (g & Hg & ->).
    destruct (parse_power_on_hours_decimal g Hg) as (hours & _ & Hpos & Hr).
    right. exists hours. split; [assumption | exact Hr]. }
  assumption.
Qed.

Lemma life_text_parse a d :
  life_text (LifeRemaining (Attributes d)) ->
  life_text (LifeRemaining (Attributes (parse_wear a d))).
Proof.
  intros Hd. unfold parse_wear.
  destruct (search re_wear a) as [m |] eqn:E1.
  { apply search_attribute_row2 in E1. destruct E1 as (n & g & _ & Hg & ->).
    destruct (int_all_decimal g Hg) as (raw & Hraw & _).
    cbn [group Nat.eqb]. rewrite Hraw.
    destruct (contains "Media_Wearout_Indicator" n);
      right; exists g, raw; repeat split; auto. }
  destruct (search re_percentage_used a) as [m |] eqn:E2; [| assumption].
  apply search_percentage_used in E2. destruct E2 as (g & Hg & ->).
  destruct (int_all_decimal g Hg) as (used & Hused & _).
  cbn [group Nat.eqb]. rewrite Hused.
  right. exists g, used. repeat split; auto.
Qed.

(** X3. Every text that the extractor stores is unset or has the form its
    reader expects: the temperature is a run of digits followed by the
    degree unit, the power-on time is "D days, H hours" for a number of
    hours, each sector count is a run of digits, the life remaining is a
    number (possibly 100 minus a number, hence possibly negative) followed
    by a percent sign, and the model and the serial number are never empty
    and hold no line feed. *)
Theorem X3_stored_texts_are_well_formed (h : host)
    (info health attr : option string) :
  let d := extract h info health attr in
  temperature_text (Temperature (Attributes d))
  /\ power_on_text (PowerOnTime (Attributes d))
  /\ sector_text (ReallocatedSectors (Attributes d))
  /\ sector_text (PendingSectors (Attributes d))
  /\ sector_text (UncorrectableSectors (Attributes d))
  /\ life_text (LifeRemaining (Attributes d))
  /\ label_text (Model d)
  /\ label_text (SerialNumber d).
Proof.
  cbv zeta.
  destruct (ScanFacts.extract_sector_texts h info health attr)
    as (Hr & Hp & Hu).
  assert (Hcommon :
    temperature_text (Temperature (Attributes (extract h info health attr)))
    /\ power_on_text (PowerOnTime (Attributes (extract h info health attr)))
    /\ life_text (LifeRemaining (Attributes (extract h info health attr)))).
  { rewrite extract_cases.
    destruct (truthy info) as [i |];
      [| repeat split; left; reflexivity].
    pose proof (Attributes_before_attributes i health) as HA.
    destruct (truthy attr) as [a |];
      [| rewrite HA; repeat split; left; reflexivity].
    rewrite Temperature_parse_attributes, PowerOnTime_parse_attributes.
    split; [| split].
    - apply temperature_text_parse. rewrite HA. left. reflexivity.
    - apply power_on_text_parse. rewrite HA. left. reflexivity.
    - destruct (IsSSD (before_attributes i health)) eqn:E.
      + rewrite LifeRemaining_parse_attributes by assumption.
        apply life_text_parse. rewrite HA. left. reflexivity.
      + rewrite parse_attributes_hdd by assumption. unfold parse_hdd.
        open_steps; rewrite HA; left; reflexivity. }
  destruct Hcommon as (Ht & Hpo & Hl).
  assert (Hlabels : label_text (Model (extract h info health attr))
                    /\ label_text (SerialNumber (extract h info health attr))).
  { destruct (truthy info) as [i |] eqn:Hi.
    - destruct (identity_fields h info health attr i Hi) as (-> & -> & _).
      destruct (Model_parse_identity i default_disk_info) as (-> & ->).
      apply Model_label_text.
    - rewrite extract_cases, Hi. split; apply label_text_Unknown. }
  destruct Hlabels as (Hm & Hs).
  exact (conj Ht (conj Hpo (conj Hr (conj Hp (conj Hu
           (conj Hl (conj Hm Hs))))))).
Qed.


Lemma IsSSD_parse_identity i d :
  IsSSD d = false ->
  IsSSD (parse_identity i d) =
    (contains "Solid State Device" i
     || contains "Rotation Rate: Solid State" i
     || contains "NVMe" i
     || contains "SSD" (Model (parse_identity i d)))%bool.
Proof.
  intros Hd. destruct (Model_parse_identity i d) as (HM & _). rewrite HM.
  unfold parse_identity, detect_ssd.
  assert (Hm : Model (parse_serial i (parse_model i d)) = Model (parse_model i d)).
  { destruct (parse_serial_assigns i (parse_model i d)) as [-> | [? ->]];
      reflexivity. }
  assert (Hk : IsSSD (parse_serial i (parse_model i d)) = false).
  { destruct (parse_serial_assigns i (parse_model i d)) as [-> | [? ->]];
      destruct (parse_model_assigns i d) as [-> | [? ->]]; exact Hd. }
  rewrite Hm.
  destruct (contains "Solid State Device" i
            || contains "Rotation Rate: Solid State" i
            || contains "NVMe" i)%bool; [reflexivity |].
  cbn [orb]. destruct (contains "SSD" (Model (parse_model i d)));
    [reflexivity | exact Hk].
Qed.

(** X4. The model, the serial number and the solid-state flag of a record
    come from the identity text alone: the model is the text after the first
    of the labels "Device Model:", "Product:", "Model Number:" that the text
    has, tried in this order wherever they stand, or "Unknown"; the flag is
    set exactly when the text has one of the three solid-state phrases or
    the model contains "SSD"; the health text, the attribute text and the
    host change none of them. *)
Theorem X4_identity_fields_from_identity_text (h h' : host)
    (info health attr health' attr' : option string) (i : string) :
  truthy info = Some i ->
  let d := extract h info health attr in
  let d' := extract h' info health' attr' in
  Model d =
    match search re_device_model i with
    | Some m => group m 1
    | None =>
        match search re_product i with
        | Some m => group m 1
        | None =>
            match search re_model_number i with
            | Some m => group m 1
            | None => "Unknown"
            end
        end
    end
  /\ SerialNumber d =
       match search re_serial_number i with
       | Some m => group m 1
       | None => "Unknown"
       end
  /\ IsSSD d =
       (contains "Solid State Device" i
        || contains "Rotation Rate: Solid State" i
        || contains "NVMe" i
        || contains "SSD" (Model d))%bool
  /\ Model d' = Model d /\ SerialNumber d' = SerialNumber d
  /\ IsSSD d' = IsSSD d.
Proof.
  intros Hi. cbv zeta.
  destruct (identity_fields h info health attr i Hi) as (-> & -> & ->).
  destruct (identity_fields h' info health' attr' i Hi) as (-> & -> & ->).
  rewrite (IsSSD_parse_identity i default_disk_info eq_refl).
  destruct (Model_parse_identity i default_disk_info) as (-> & ->).
  repeat split.
  - unfold parse_model.
    repeat match goal with
    | |- context [match search ?r i with _ => _ end] => destruct (search r i)
    end; reflexivity.
  - unfold parse_serial. destruct (search re_serial_number i); reflexivity.
Qed.

(** An identity text with a "Product:" line before its "Device Model:"
    line: the model is the one of the "Device Model:" line. *)
Lemma X4_identity_fields_from_identity_text_witness :
  let info := Some ("Product:          ST1000 SSD" ++ nl ++
                    "Device Model:     WDC WD10EZEX" ++ nl) in
  let d := extract (hdd_host "0") info (Some health_passed)
             (Some (hdd_attributes "0")) in
  Model d = "WDC WD10EZEX" /\ IsSSD d = false
  /\ Model (extract nvme_host info None None) = Model d.
Proof.
  cbv zeta.
  destruct (X4_identity_fields_from_identity_text (hdd_host "0") nvme_host
              (Some ("Product:          ST1000 SSD" ++ nl ++
                     "Device Model:     WDC WD10EZEX" ++ nl))
              (Some health_passed) (Some (hdd_attributes "0")) None None
              ("Product:          ST1000 SSD" ++ nl ++
               "Device Model:     WDC WD10EZEX" ++ nl) eq_refl)
    as (Hm & _ & Hk & Hm' & _).
  split; [exact Hm |]. split; [| exact Hm'].
  rewrite Hk, Hm. vm_compute. reflexivity.
Defined.

End ExtractorExtras.

(** ** Further properties of the checks *)

Module CheckExtras.
Import PyStr Re ReFacts PyStrFacts PatternFacts Smart StateFacts CheckFacts.
Import ExtractFacts ExtractorProperties FindingFacts CheckProperties.
Import ScanFacts ScanProperties SearchFacts ExtractorExtras Examples.

(** X5. When the identity query of a disk gives nothing, [get_disk_info]
    returns the default record at once, without the health and the
    attribute query, whatever the utility would answer to them: it prints
    what the identity query printed and nothing else, and the disk is
    reported with health Unknown and without any finding. *)
Theorem X5_silent_disk_has_no_finding (h : host) (path disk_id : string)
    (info : option string) :
  result_of (run_smartctl h path ["-i"; disk_id]) = inr info ->
  truthy info = None ->
  result_of (get_disk_info h path disk_id) = inr default_disk_info
  /\ output_of (get_disk_info h path disk_id) =
       output_of (run_smartctl h path ["-i"; disk_id])
  /\ findings disk_id default_disk_info = []
  /\ (fault h disk_id = None -> disk_findings h path disk_id = []).
Proof.
  intros Hr Hi.
  unfold result_of in Hr. rewrite run_smartctl_from in Hr.
  injection Hr as Hr.
  assert (E : disk_record h path disk_id = default_disk_info)
    by (unfold disk_record; rewrite extract_cases, Hr, Hi; reflexivity).
  assert (F : findings disk_id default_disk_info = []).
  { rewrite findings_unset by reflexivity.
    apply health_findings_unknown. reflexivity. }
  destruct (get_disk_info_views h path disk_id) as (-> & ->).
  rewrite E. split; [reflexivity |]. split; [| split; [exact F |]].
  - unfold output_of at 1. rewrite run_smartctl_from.
    unfold disk_errors. rewrite Hr, Hi. cbn [stdout snd initial_state app].
    apply app_nil_r.
  - intros Hf.
    destruct (process_disk_complete h path disk_id Hf) as (-> & _).
    rewrite E. exact F.
Qed.

(** A disk that answers the identity query with an empty text while its
    health text reports a failure: the default record and no finding. *)
Lemma X5_silent_disk_has_no_finding_witness :
  let h := sample_host scan_one
             (fun _ => (Some "",
                        Some ("SMART overall-health self-assessment test result: FAILED!" ++ nl),
                        Some (hdd_attributes "8")))
             no_fault in
  result_of (get_disk_info h sample_path sda) = inr default_disk_info
  /\ disk_findings h sample_path sda = [].
Proof.
  cbv zeta.
  destruct (X5_silent_disk_has_no_finding
              (sample_host scan_one
                 (fun _ => (Some "",
                            Some ("SMART overall-health self-assessment test result: FAILED!" ++ nl),
                            Some (hdd_attributes "8")))
                 no_fault) sample_path sda (Some "") eq_refl eq_refl)
    as (Hr & _ & _ & Hd).
  split; [exact Hr | exact (Hd eq_refl)].
Defined.

Lemma reported_health disk_id d :
  reported_by HealthRule (findings disk_id d) = health_findings disk_id d.
Proof.
  rewrite findings_split, !reported_by_app.
  rewrite (reported_by_same _ _ (health_findings_rule disk_id d)).
  rewrite (reported_by_other HealthRule TemperatureRule)
    by (discriminate || apply temperature_findings_rule).
  destruct (IsSSD d).
  - rewrite (reported_by_other HealthRule LifeRule)
      by (discriminate || apply life_findings_rule).
    now rewrite app_nil_r.
  - rewrite (reported_by_sector_other HealthRule)
      by (discriminate || apply sector_findings_rule).
    now rewrite app_nil_r.
Qed.

(** X6. When the health text has the overall-health line, the health status
    of the record is the rest of that line as it stands, and the checks
    report exactly one health finding, Critical, unless that text is exactly
    "PASSED" or "Unknown"; in those two cases they report none. *)
Theorem X6_health_line_is_copied_and_checked (h : host)
    (info health attr : option string) (i hl disk_id : string) (m : caps) :
  truthy info = Some i -> truthy health = Some hl ->
  search re_health hl = Some m ->
  let d := extract h info health attr in
  HealthStatus d = group m 1
  /\ label_text (group m 1)
  /\ reported_by HealthRule (findings disk_id d) =
       if (String.eqb (group m 1) "PASSED"
           || String.eqb (group m 1) "Unknown")%bool
       then []
       else [mk_finding HealthRule Critical
               (disk_label disk_id d ++ " health status: " ++ group m 1)].
Proof.
  intros Hi Hh Hm. cbv zeta.
  assert (E : HealthStatus (extract h info health attr) = group m 1).
  { rewrite (HealthStatus_extract h info health attr i Hi), Hh.
    unfold parse_health. rewrite Hm. reflexivity. }
  split; [exact E |]. split.
  - apply search_sound in Hm. destruct Hm as (t & s' & Hm).
    unfold re_health, dot in Hm. cbn [seq] in Hm. split_match. subst.
    split; assumption.
  - rewrite reported_health. unfold health_findings, check_health.
    rewrite E.
    destruct (String.eqb (group m 1) "PASSED");
      destruct (String.eqb (group m 1) "Unknown"); reflexivity.
Qed.

(** The health line "FAILED!" gives one Critical finding with that text. *)
Lemma X6_health_line_is_copied_and_checked_witness :
  let health := Some ("SMART overall-health self-assessment test result: FAILED!" ++ nl) in
  let d := extract (hdd_host "0") (Some hdd_identity) health
             (Some (hdd_attributes "0")) in
  reported_by HealthRule (findings sda d) =
    [mk_finding HealthRule Critical
       "Disk /dev/sda (WDC WD10EZEX-08WN4A0) health status: FAILED!"].
Proof.
  cbv zeta.
  destruct (X6_health_line_is_copied_and_checked (hdd_host "0")
              (Some hdd_identity)
              (Some ("SMART overall-health self-assessment test result: FAILED!" ++ nl))
              (Some (hdd_attributes "0")) hdd_identity
              ("SMART overall-health self-assessment test result: FAILED!" ++ nl)
              sda [(1%nat, "FAILED!")] eq_refl eq_refl eq_refl)
    as (_ & _ & H).
  exact H.
Defined.


Lemma search_number_percent_signed sign d :
  sign = "" \/ sign = "-" -> all_decimal d = true ->
  search re_number_percent (sign ++ d ++ "%") = Some [(1%nat, d)].
Proof.
  intros Hs Hd.
  assert (Here : match_here re_number_percent (d ++ "%") = Some [(1%nat, d)]).
  { unfold all_decimal in Hd. apply andb_prop in Hd. destruct Hd as [Hne Hd].
    apply negb_true_iff in Hne.
    unfold match_here, re_number_percent, digit. cbn [seq].
    change (run (Seq ?r1 ?r2) ?s ?c ?k)
      with (run r1 s c (fun s' c' => run r2 s' c' k)).
    apply run_group_plus_greedy; try assumption; reflexivity. }
  destruct Hs as [-> | ->].
  - apply search_here. exact Here.
  - cbn [append search]. rewrite (search_here _ _ _ Here). reflexivity.
Qed.

(** X7. On a solid-state record whose life remaining is a number followed
    by a percent sign, the check reads the digits and not the sign: it
    reports exactly one Critical finding when the number read is at most 10,
    exactly one Warning when it is 11 to 20, nothing above 20.  So a life of
    "-5%" (a wear indicator of 105) is reported as critically low and a life
    of "-50%" is not reported.  On a rotating record the life is never
    checked. *)
Theorem X7_life_thresholds_ignore_sign (disk_id : string) (d : disk_info) :
  (forall sign digits n,
     IsSSD d = true -> sign = "" \/ sign = "-" ->
     all_decimal digits = true -> int digits = Some n ->
     LifeRemaining (Attributes d) = sign ++ digits ++ "%" ->
     reported_by LifeRule (findings disk_id d) =
       if n <=? 10
       then [mk_finding LifeRule Critical
               (disk_label disk_id d ++ " SSD life critically low: "
                ++ sign ++ digits ++ "%")]
       else if n <=? 20
       then [mk_finding LifeRule Warning
               (disk_label disk_id d ++ " SSD life warning: "
                ++ sign ++ digits ++ "%")]
       else [])
  /\ (IsSSD d = false -> reported_by LifeRule (findings disk_id d) = []).
Proof.
  split.
  - intros sign digits n Hk Hs Hd Hn Hl.
    rewrite (reported_life disk_id d Hk), life_findings_eq, Hl.
    rewrite (search_number_percent_signed sign digits Hs Hd).
    cbn [group Nat.eqb]. rewrite Hn. reflexivity.
  - intros Hk. rewrite findings_split, Hk, !reported_by_app.
    rewrite (reported_by_other LifeRule HealthRule)
      by (discriminate || apply health_findings_rule).
    rewrite (reported_by_other LifeRule TemperatureRule)
      by (discriminate || apply temperature_findings_rule).
    rewrite (reported_by_sector_other LifeRule)
      by (discriminate || apply sector_findings_rule).
    reflexivity.
Qed.

(** A wear indicator of 105 is stored as "-5%" and reported as critically
    low. *)
Lemma X7_life_thresholds_ignore_sign_witness :
  let d := extract (ssd_host None (Some "Media_Wearout_Indicator: 105"))
             (Some ssd_identity) None
             (Some "Media_Wearout_Indicator: 105") in
  LifeRemaining (Attributes d) = "-5%"
  /\ reported_by LifeRule (findings sda d) =
       [mk_finding LifeRule Critical
          "Disk /dev/sda (INTEL SSDSC2BB120G4) SSD life critically low: -5%"].
Proof.
  cbv zeta. split; [vm_compute; reflexivity |].
  destruct (X7_life_thresholds_ignore_sign sda
              (extract (ssd_host None (Some "Media_Wearout_Indicator: 105"))
                 (Some ssd_identity) None
                 (Some "Media_Wearout_Indicator: 105"))) as (H & _).
  exact (H "-" "5" 5 eq_refl (or_intror eq_refl) eq_refl eq_refl eq_refl).
Defined.

Lemma check_sectors_issue r what disk_id d v :
  sector_text v ->
  issues_of (check_sectors r what disk_id d v) =
    sector_issue r what disk_id d v.
Proof.
  intros [-> | Hv]; [reflexivity |].
  unfold check_sectors, sector_issue.
  change (String.eqb v NA) with (String.eqb v "N/A").
  rewrite (NA_not_decimal v Hv), (isdigit_all_decimal v Hv).
  destruct (int_all_decimal v Hv) as (n & Hn & _).
  unfold issues_of, bind, int_or_raise. rewrite Hn. cbn.
  destruct (0 <? n); reflexivity.
Qed.

Lemma sector_issue_rule r what disk_id d v :
  from_rule r (sector_issue r what disk_id d v).
Proof.
  unfold sector_issue, from_rule. destruct (int v) as [n |]; [| constructor].
  destruct (0 <? n); repeat constructor.
Qed.

Lemma sector_findings_eq disk_id d :
  sector_text (ReallocatedSectors (Attributes d)) ->
  sector_text (PendingSectors (Attributes d)) ->
  sector_text (UncorrectableSectors (Attributes d)) ->
  sector_findings disk_id d =
    (sector_issue ReallocatedRule "reallocated sectors" disk_id d
       (ReallocatedSectors (Attributes d))
     ++ sector_issue PendingRule "pending sectors" disk_id d
          (PendingSectors (Attributes d))
     ++ sector_issue UncorrectableRule "uncorrectable sectors" disk_id d
          (UncorrectableSectors (Attributes d)))%list.
Proof.
  intros Hr Hp Hu. unfold sector_findings, sector_checks.
  rewrite issues_of_bind by framing.
  rewrite (result_of_check_sectors _ _ _ _ _ Hr).
  rewrite issues_of_bind by framing.
  rewrite (result_of_check_sectors _ _ _ _ _ Hp).
  rewrite !check_sectors_issue by assumption. reflexivity.
Qed.

(** X8. On a rotating record whose three sector counts are unset or runs of
    digits, each count that reads as a positive number gives exactly one
    Critical finding that names the count and quotes its text, a count of
    zero or an unset count gives none, and the findings come in the order
    reallocated, pending, uncorrectable.  On a solid-state record the
    counts are never checked. *)
Theorem X8_sector_counts_are_checked_one_by_one (disk_id : string)
    (d : disk_info) :
  let reallocated :=
    sector_issue ReallocatedRule "reallocated sectors" disk_id d
      (ReallocatedSectors (Attributes d)) in
  let pending :=
    sector_issue PendingRule "pending sectors" disk_id d
      (PendingSectors (Attributes d)) in
  let uncorrectable :=
    sector_issue UncorrectableRule "uncorrectable sectors" disk_id d
      (UncorrectableSectors (Attributes d)) in
  (IsSSD d = false ->
   sector_text (ReallocatedSectors (Attributes d)) ->
   sector_text (PendingSectors (Attributes d)) ->
   sector_text (UncorrectableSectors (Attributes d)) ->
   findings disk_id d =
     (health_findings disk_id d ++ temperature_findings disk_id d
      ++ reallocated ++ pending ++ uncorrectable)%list
   /\ reported_by ReallocatedRule (findings disk_id d) = reallocated
   /\ reported_by PendingRule (findings disk_id d) = pending
   /\ reported_by UncorrectableRule (findings disk_id d) = uncorrectable)
  /\ (IsSSD d = true ->
      reported_by ReallocatedRule (findings disk_id d) = []
      /\ reported_by PendingRule (findings disk_id d) = []
      /\ reported_by UncorrectableRule (findings disk_id d) = []).
Proof.
  cbv zeta. split.
  - intros Hk Hr Hp Hu. rewrite findings_split, Hk.
    rewrite (sector_findings_eq disk_id d Hr Hp Hu).
    split; [reflexivity |].
    rewrite !reported_by_app.
    repeat split.
    + rewrite (reported_by_other ReallocatedRule HealthRule)
        by (discriminate || apply health_findings_rule).
      rewrite (reported_by_other ReallocatedRule TemperatureRule)
        by (discriminate || apply temperature_findings_rule).
      rewrite (reported_by_same ReallocatedRule)
        by apply sector_issue_rule.
      rewrite (reported_by_other ReallocatedRule PendingRule)
        by (discriminate || apply sector_issue_rule).
      rewrite (reported_by_other ReallocatedRule UncorrectableRule)
        by (discriminate || apply sector_issue_rule).
      cbn [app]. now rewrite app_nil_r.
    + rewrite (reported_by_other PendingRule HealthRule)
        by (discriminate || apply health_findings_rule).
      rewrite (reported_by_other PendingRule TemperatureRule)
        by (discriminate || apply temperature_findings_rule).
      rewrite (reported_by_other PendingRule ReallocatedRule)
        by (discriminate || apply sector_issue_rule).
      rewrite (reported_by_same PendingRule) by apply sector_issue_rule.
      rewrite (reported_by_other PendingRule UncorrectableRule)
        by (discriminate || apply sector_issue_rule).
      cbn [app]. now rewrite app_nil_r.
    + rewrite (reported_by_other UncorrectableRule HealthRule)
        by (discriminate || apply health_findings_rule).
      rewrite (reported_by_other UncorrectableRule TemperatureRule)
        by (discriminate || apply temperature_findings_rule).
      rewrite (reported_by_other UncorrectableRule ReallocatedRule)
        by (discriminate || apply sector_issue_rule).
      rewrite (reported_by_other UncorrectableRule PendingRule)
        by (discriminate || apply sector_issue_rule).
      rewrite (reported_by_same UncorrectableRule)
        by apply sector_issue_rule.
      reflexivity.
  - intros Hk. rewrite findings_split, Hk, !reported_by_app.
    repeat split.
    + rewrite (reported_by_other ReallocatedRule HealthRule)
        by (discriminate || apply health_findings_rule).
      rewrite (reported_by_other ReallocatedRule TemperatureRule)
        by (discriminate || apply temperature_findings_rule).
      rewrite (reported_by_other ReallocatedRule LifeRule)
        by (discriminate || apply life_findings_rule).
      reflexivity.
    + rewrite (reported_by_other PendingRule HealthRule)
        by (discriminate || apply health_findings_rule).
      rewrite (reported_by_other PendingRule TemperatureRule)
        by (discriminate || apply temperature_findings_rule).
      rewrite (reported_by_other PendingRule LifeRule)
        by (discriminate || apply life_findings_rule).
      reflexivity.
    + rewrite (reported_by_other UncorrectableRule HealthRule)
        by (discriminate || apply health_findings_rule).
      rewrite (reported_by_other UncorrectableRule TemperatureRule)
        by (discriminate || apply temperature_findings_rule).
      rewrite (reported_by_other UncorrectableRule LifeRule)
        by (discriminate || apply life_findings_rule).
      reflexivity.
Qed.

(** A rotating record with 0 reallocated, 3 pending and 12 uncorrectable
    sectors: two findings, pending first. *)
Lemma X8_sector_counts_are_checked_one_by_one_witness :
  let d := set_UncorrectableSectors "12"
             (set_PendingSectors "3"
                (set_ReallocatedSectors "0" default_disk_info)) in
  findings sda d =
    [mk_finding PendingRule Critical
       "Disk /dev/sda (Unknown) has 3 pending sectors";
     mk_finding UncorrectableRule Critical
       "Disk /dev/sda (Unknown) has 12 uncorrectable sectors"].
Proof.
  cbv zeta.
  destruct (X8_sector_counts_are_checked_one_by_one sda
              (set_UncorrectableSectors "12"
                 (set_PendingSectors "3"
                    (set_ReallocatedSectors "0" default_disk_info))))
    as (H & _).
  destruct (H eq_refl (or_intror eq_refl) (or_intror eq_refl)
              (or_intror eq_refl)) as (Hall & _).
  rewrite Hall. vm_compute. reflexivity.
Defined.


(** The checks print nothing. *)
Lemma output_of_check_health disk_id d :
  output_of (check_health disk_id d) = [].
Proof. unfold check_health. now destruct (_ && _)%bool. Qed.

Lemma output_of_int_bind (v : string) (f : Z -> M unit) :
  (forall n, output_of (f n) = []) ->
  output_of (bind (int_or_raise v) f) = [].
Proof.
  intros Hf. unfold output_of, bind, int_or_raise.
  destruct (int v) as [n |]; [apply Hf | reflexivity].
Qed.

Lemma output_of_check_temperature disk_id d :
  output_of (check_temperature disk_id d) = [].
Proof.
  unfold check_temperature.
  destruct (search re_number (Temperature (Attributes d))); [| reflexivity].
  apply output_of_int_bind. intros n.
  destruct (60 <=? n); [reflexivity |]. now destruct (50 <=? n).
Qed.

Lemma output_of_check_life disk_id d :
  output_of (check_life disk_id d) = [].
Proof.
  unfold check_life.
  destruct (search re_number_percent (LifeRemaining (Attributes d)));
    [| reflexivity].
  apply output_of_int_bind. intros n.
  destruct (n <=? 10); [reflexivity |]. now destruct (n <=? 20).
Qed.

Lemma output_of_check_sectors r what disk_id d v :
  output_of (check_sectors r what disk_id d v) = [].
Proof.
  unfold check_sectors. destruct (_ && _)%bool; [| reflexivity].
  apply output_of_int_bind. intros n. now destruct (0 <? n).
Qed.

Lemma output_of_silent_bind {A B : Type} (m : M A) (f : A -> M B) :
  framed m -> (forall a, framed (f a)) ->
  output_of m = [] -> (forall a, output_of (f a) = []) ->
  output_of (bind m f) = [].
Proof.
  intros Fm Ff Hm Hf. rewrite output_of_bind, Hm by assumption.
  destruct (result_of m); [reflexivity | apply Hf].
Qed.

Lemma output_of_sector_checks disk_id d :
  output_of (sector_checks disk_id d) = [].
Proof.
  unfold sector_checks.
  apply output_of_silent_bind;
    [framing | framing | apply output_of_check_sectors | intros _].
  apply output_of_silent_bind;
    [framing | framing | apply output_of_check_sectors | intros _].
  apply output_of_check_sectors.
Qed.

(** The report of a record is printed whole, whatever its checks do. *)
Lemma output_of_check_disk disk_id d :
  output_of (check_disk disk_id d) = report_lines disk_id d.
Proof.
  unfold check_disk, report_lines. cbv zeta.
  rewrite !output_of_print_bind by framing.
  rewrite output_of_bind, result_of_check_health, output_of_check_health
    by framing.
  rewrite output_of_bind, result_of_check_temperature,
    output_of_check_temperature by framing.
  cbn [app]. do 8 f_equal.
  destruct (IsSSD d); rewrite !output_of_print_bind by framing.
  - rewrite output_of_check_life. reflexivity.
  - change (output_of _) with (output_of (sector_checks disk_id d)).
    rewrite output_of_sector_checks. reflexivity.
Qed.

(** X9. For every triple of texts, the report and the checks of the
    extracted record run to their end without an exception.  So the round
    of a disk that is examined without a fault prints its "Processing disk"
    line, one line "Error running smartctl: ..." for each of its at most
    three runs of the utility that raised, and the eleven lines of the
    report of its record, and no error line of the loop.  When its three
    runs return, the record is the one extracted from their texts and the
    round prints exactly twelve lines. *)
Theorem X9_extracted_records_never_raise (h : host) :
  (forall info health attr disk_id,
     result_of (check_disk disk_id (extract h info health attr)) = inr tt)
  /\ (forall path disk_id,
        fault h disk_id = None ->
        exists d,
          result_of (get_disk_info h path disk_id) = inr d
          /\ disk_output h path disk_id =
               (processing_line disk_id
                :: output_of (get_disk_info h path disk_id)
                ++ report_lines disk_id d)%list
          /\ Forall smartctl_error_line
               (output_of (get_disk_info h path disk_id))
          /\ (List.length (output_of (get_disk_info h path disk_id)) <= 3)%nat
          /\ List.length (report_lines disk_id d) = 11%nat
          /\ (forall i hl a,
                smartctl h path ["-i"; disk_id] = inr i ->
                smartctl h path ["-H"; disk_id] = inr hl ->
                smartctl h path ["-A"; disk_id] = inr a ->
                d = extract h (Some i) (Some hl) (Some a)
                /\ disk_output h path disk_id =
                     processing_line disk_id :: report_lines disk_id d
                /\ List.length (disk_output h path disk_id) = 12%nat)).
Proof.
  split.
  - intros info health attr disk_id. apply check_disk_extracted.
  - intros path disk_id Hf. exists (disk_record h path disk_id).
    destruct (get_disk_info_views h path disk_id) as (Hr & Ho).
    destruct (process_disk_complete h path disk_id Hf) as (_ & Hl).
    rewrite output_of_check_disk in Hl.
    destruct (disk_errors_lines h path disk_id) as (Hlines & Hlen).
    assert (Heleven : List.length
                        (report_lines disk_id (disk_record h path disk_id))
                      = 11%nat)
      by (unfold report_lines; destruct (IsSSD _); reflexivity).
    rewrite Ho. do 5 (split; [assumption |]).
    intros i hl a Hi Hh Ha.
    assert (Hclean : disk_errors h path disk_id = []).
    { unfold disk_errors, run_errors, run_text. rewrite Hi, Hh, Ha.
      destruct (truthy (Some i)); reflexivity. }
    rewrite Hl, Hclean. cbn [app List.length]. rewrite Heleven.
    repeat split.
    unfold disk_record, run_text. rewrite Hi, Hh, Ha. reflexivity.
Qed.

(** The round of the NVMe sample. *)
Lemma X9_extracted_records_never_raise_witness :
  disk_output nvme_host sample_path sda =
    processing_line sda
    :: report_lines sda
         (extract nvme_host (Some nvme_identity) (Some health_passed)
            (Some nvme_attributes)).
Proof.
  destruct (X9_extracted_records_never_raise nvme_host) as (_ & H).
  destruct (H sample_path sda eq_refl) as (d & _ & _ & _ & _ & _ & Hclean).
  destruct (Hclean nvme_identity health_passed nvme_attributes
              eq_refl eq_refl eq_refl) as (-> & Ho & _).
  exact Ho.
Defined.

End CheckExtras.

(** ** Further properties of the helpers and of [main] *)

Module ScanExtras.
Import PyStr Re ReFacts PyStrFacts PatternFacts Smart StateFacts CheckFacts.
Import ExtractFacts ExtractorProperties FindingFacts CheckProperties.
Import ScanFacts ScanProperties SearchFacts ExtractorExtras Examples.

Lemma celsius_not_NA d :
  all_decimal d = true -> String.eqb (celsius d) NA = false.
Proof.
  intros Hd. apply String.eqb_neq. intros H.
  destruct d as [| a d]; [discriminate |].
  unfold celsius, NA in H. cbn in H. injection H as Ha _. subst a.
  vm_compute in Hd. discriminate.
Qed.

Lemma celsius_not_empty d : is_empty (celsius d) = false.
Proof. destruct d; reflexivity. Qed.

(** X10. [parse_temperature] gives "N/A" for "N/A" and for the empty text;
    for a text with a digit it gives the first run of digits followed by the
    degree unit, and parsing that result again changes nothing; for a text
    without a digit it gives the text itself followed by the unit. *)
Theorem X10_parse_temperature_first_number (value : string) :
  (value = NA \/ value = "" -> parse_temperature value = NA)
  /\ (value <> NA -> value <> "" ->
      match search re_number value with
      | Some m =>
          all_decimal (group m 1) = true
          /\ parse_temperature value = celsius (group m 1)
          /\ parse_temperature (parse_temperature value)
             = parse_temperature value
      | None => parse_temperature value = celsius value
      end).
Proof.
  split.
  - intros [-> | ->]; reflexivity.
  - intros Hna Hne.
    assert (P : parse_temperature value =
                match search re_number value with
                | Some m => celsius (group m 1)
                | None => celsius value
                end).
    { unfold parse_temperature. apply String.eqb_neq in Hna. rewrite Hna.
      destruct value; [exfalso; apply Hne; reflexivity | reflexivity]. }
    rewrite P.
    destruct (search re_number value) as [m |] eqn:E; [| reflexivity].
    apply search_number in E. destruct E as (g & Hg & ->).
    cbn [group Nat.eqb]. repeat split; [assumption |].
    unfold parse_temperature.
    rewrite (celsius_not_NA g Hg), (celsius_not_empty g).
    cbn [orb]. rewrite (search_number_celsius g Hg). reflexivity.
Qed.

(** The text "Temp: 37 C (max 45)" gives 37 with the unit, a fixed point. *)
Lemma X10_parse_temperature_first_number_witness :
  parse_temperature "Temp: 37 C (max 45)" = celsius "37"
  /\ parse_temperature (parse_temperature "Temp: 37 C (max 45)")
     = parse_temperature "Temp: 37 C (max 45)".
Proof.
  destruct (X10_parse_temperature_first_number "Temp: 37 C (max 45)")
    as (_ & H).
  assert (H1 : "Temp: 37 C (max 45)" <> NA) by discriminate.
  assert (H2 : "Temp: 37 C (max 45)" <> "") by discriminate.
  specialize (H H1 H2). cbn in H. destruct H as (_ & Ha & Hb).
  split; assumption.
Defined.

(** *** The scan for disks *)

Lemma take_word_no_space s :
  forallb (fun a => negb (is_space a)) (take_word s) = true.
Proof.
  induction s as [| a s IH]; [reflexivity |].
  cbn [take_word]. destruct (is_space a) eqn:E; [reflexivity |].
  cbn [forallb]. rewrite E, IH. reflexivity.
Qed.

Lemma lstrip_cases s :
  (lstrip s = "" /\ forallb is_space s = true)
  \/ exists a t, lstrip s = String a t /\ is_space a = false.
Proof.
  induction s as [| a s IH]; [left; split; reflexivity |].
  cbn [lstrip forallb]. destruct (is_space a) eqn:E.
  - destruct IH as [[-> ->] | (b & t & -> & Hb)]; [left | right]; eauto.
  - right. eauto.
Qed.

Lemma blank_line_has_no_device s :
  forallb is_space s = true -> contains "/dev/" s = false.
Proof.
  induction s as [| a s IH]; [reflexivity |].
  cbn [forallb]. intros H. apply andb_prop in H. destruct H as [Ha Hs].
  cbn [contains]. rewrite (IH Hs).
  replace (startswith "/dev/" (String a s)) with false; [reflexivity |].
  cbn [startswith]. destruct (Ascii.eqb "/" a) eqn:E; [| reflexivity].
  apply Ascii.eqb_eq in E. subst a. discriminate Ha.
Qed.

Lemma first_word_of_device_line line :
  contains "/dev/" line = true -> word_text (first_word line).
Proof.
  intros H. unfold word_text, first_word. split; [| apply take_word_no_space].
  destruct (lstrip_cases line) as [[_ Hb] | (a & t & -> & Ha)].
  - rewrite (blank_line_has_no_device line Hb) in H. discriminate.
  - cbn [take_word]. rewrite Ha. reflexivity.
Qed.

Lemma lstrip_split s :
  exists ws, s = ws ++ lstrip s /\ forallb is_space ws = true.
Proof.
  induction s as [| a s IH]; [exists ""; split; reflexivity |].
  cbn [lstrip]. destruct (is_space a) eqn:E.
  - destruct IH as (ws & Hs & Hws). exists (String a ws).
    cbn [append forallb]. rewrite <- Hs, E, Hws. split; reflexivity.
  - exists "". split; reflexivity.
Qed.

Lemma take_word_split s :
  exists rest,
    s = take_word s ++ rest
    /\ (rest = "" \/ exists a t, rest = String a t /\ is_space a = true).
Proof.
  induction s as [| a s IH]; [exists ""; split; [reflexivity | left; reflexivity] |].
  cbn [take_word]. destruct (is_space a) eqn:E.
  - exists (String a s). split; [reflexivity |]. right. eauto.
  - destruct IH as (rest & Hs & Hrest). exists rest.
    cbn [append]. rewrite <- Hs. split; [reflexivity | assumption].
Qed.

Lemma first_word_is_first_word_of line :
  contains "/dev/" line = true -> first_word_of line (first_word line).
Proof.
  intros H. split; [apply first_word_of_device_line; assumption |].
  unfold first_word.
  destruct (lstrip_split line) as (ws & Hl & Hws).
  destruct (take_word_split (lstrip line)) as (rest & Hr & Hrest).
  exists ws, rest. rewrite <- Hr, <- Hl. repeat split; assumption.
Qed.

(** X11. [get_physical_disks] always returns, and prints only what its run
    of the utility prints.  It returns one identifier for each line of the
    scan output that contains "/dev/", in the order of the lines, and each
    identifier is the first word of its line: it is not empty, holds no
    white space, is preceded on the line by white space only and followed
    by the end of the line or a white-space character.  So taking the first
    word never fails.  When the scan gives no output there is no disk. *)
Theorem X11_disk_identifiers_are_words (h : host) (path : string) :
  exists output disks,
    result_of (run_smartctl h path ["--scan"]) = inr output
    /\ result_of (get_physical_disks h path) = inr disks
    /\ output_of (get_physical_disks h path) =
         output_of (run_smartctl h path ["--scan"])
    /\ Forall word_text disks
    /\ (truthy output = None -> disks = [])
    /\ (forall text,
          truthy output = Some text ->
          Forall2 first_word_of
            (filter (contains "/dev/") (splitlines text)) disks).
Proof.
  exists (run_text h path ["--scan"]), (scanned_disks h path).
  unfold result_of, output_of.
  rewrite run_smartctl_from, get_physical_disks_from.
  split; [reflexivity |]. split; [reflexivity |]. split; [reflexivity |].
  unfold scanned_disks. repeat split.
  - destruct (truthy (run_text h path ["--scan"])) as [text |];
      [| constructor].
    apply Forall_map. apply Forall_forall. intros line Hin.
    apply filter_In in Hin. destruct Hin as [_ Hc].
    apply first_word_of_device_line. assumption.
  - intros ->. reflexivity.
  - intros text ->.
    assert (Hall : Forall (fun line => contains "/dev/" line = true)
                     (filter (contains "/dev/") (splitlines text))).
    { apply Forall_forall. intros line Hin. apply filter_In in Hin. tauto. }
    induction Hall as [| line lines Hline _ IH]; cbn [map]; constructor.
    + apply first_word_is_first_word_of. assumption.
    + exact IH.
Qed.

(** The scan of the sample with three disks: three identifiers, each the
    first word of its line. *)
Lemma X11_disk_identifiers_are_words_witness :
  result_of (get_physical_disks three_disk_host sample_path)
    = inr [sda; sdb; sdc]
  /\ Forall word_text [sda; sdb; sdc]
  /\ Forall2 first_word_of
       (filter (contains "/dev/") (splitlines scan_three)) [sda; sdb; sdc].
Proof.
  destruct (X11_disk_identifiers_are_words three_disk_host sample_path)
    as (output & disks & Ho & Hd & _ & Hw & _ & Hf).
  vm_compute in Ho. injection Ho as <-.
  vm_compute in Hd. injection Hd as <-.
  split; [vm_compute; reflexivity |]. split; [exact Hw |].
  exact (Hf scan_three eq_refl).
Defined.

(** *** The exit status *)

(** The exit status of [main], case by case. *)
Lemma main_status h :
  is_admin h = true ->
  fst (main h) =
    match result_of (initialize_smartmontools h) with
    | inl _ => 1
    | inr tool =>
        match truthy tool with
        | None => 1
        | Some path =>
            match scanned_disks h path with
            | [] => 1
            | disks =>
                match batch_findings h path disks with
                | [] => 0
                | _ :: _ => 1
                end
            end
        end
    end.
Proof.
  intros Ha.
  destruct (result_of (initialize_smartmontools h)) as [e | tool] eqn:Hi.
  - unfold main, try_except, main_body. rewrite Ha. cbn [negb].
    unfold bind at 1. cbn [print].
    unfold bind at 1. rewrite (framed_initialize_smartmontools h _).
    rewrite Hi. reflexivity.
  - destruct (truthy tool) as [path |] eqn:Ht.
    + destruct (scanned_disks h path) as [| disk_id disks] eqn:Hd.
      * unfold main, try_except, main_body. rewrite Ha. cbn [negb].
        unfold bind at 1. cbn [print].
        unfold bind at 1. rewrite (framed_initialize_smartmontools h _).
        rewrite Hi, Ht.
        unfold bind at 1. cbn [print].
        unfold bind at 1. cbn [print].
        unfold bind at 1. rewrite get_physical_disks_from, Hd.
        reflexivity.
      * rewrite (main_scans h tool path (disk_id :: disks) Ha Hi Ht);
          [reflexivity | | discriminate].
        unfold result_of. rewrite get_physical_disks_from, Hd. reflexivity.
    + unfold main, try_except, main_body. rewrite Ha. cbn [negb].
      unfold bind at 1. cbn [print].
      unfold bind at 1. rewrite (framed_initialize_smartmontools h _).
      rewrite Hi, Ht. reflexivity.
Qed.

Lemma main_not_admin h :
  is_admin h = false -> fst (main h) = 1.
Proof. intros H. unfold main. rewrite H. reflexivity. Qed.

Lemma truthy_some (tool : option string) (path : string) :
  truthy tool = Some path -> tool = Some path /\ is_empty path = false.
Proof.
  destruct tool as [t |]; [| discriminate]. cbn [truthy].
  destruct (is_empty t) eqn:E; [discriminate |].
  intros H. injection H as <-. split; [reflexivity | assumption].
Qed.

(** When [initialize_smartmontools] returns a path, it is the path of the
    constant, and one line was printed: that the utility is there, or that
    it is downloaded. *)
Lemma initialize_smartmontools_path h path :
  result_of (initialize_smartmontools h) = inr (Some path) ->
  path = SMARTCTL_PATH h
  /\ output_of (initialize_smartmontools h) =
       [if tool_present h then "SmartMonTools already available."
        else "Downloading from " ++ SMARTMONTOOLS_URL ++ " to "
             ++ download_path h].
Proof.
  unfold result_of, output_of, initialize_smartmontools, download_file,
    extract_exe, try_except, bind, may_raise.
  destruct (tool_present h).
  { cbn. intros H. injection H as <-. split; reflexivity. }
  destruct (makedirs h); [discriminate |].
  cbn [print ret raise fst snd stdout critical_issues initial_state app].
  destruct (urlretrieve h _ _); [discriminate |].
  cbn [print ret raise negb fst snd stdout critical_issues].
  destruct (seven_zip_present h);
    [destruct (run_seven_zip h _ _) | destruct (run_installer h _ _)];
    try discriminate;
    cbn [print ret raise negb fst snd stdout critical_issues];
    (destruct (tool_extracted h); [| discriminate]);
    cbn; intros H; injection H as <-; split; reflexivity.
Qed.

(** X12. The exit status of [main] is 0 or 1, and it is 0 exactly when the
    script runs with administrative privileges, [initialize_smartmontools]
    returns a path, the scan finds at least one disk, and no disk has a
    finding.  The script exits with this status and prints its output
    between the start and the end marker. *)
Theorem X12_exit_status_zero_means_all_clear (h : host) :
  let status := fst (main h) in
  (status = 0 \/ status = 1)
  /\ (status = 0 <->
      is_admin h = true
      /\ exists tool path disks,
           result_of (initialize_smartmontools h) = inr tool
           /\ truthy tool = Some path
           /\ result_of (get_physical_disks h path) = inr disks
           /\ disks <> []
           /\ batch_findings h path disks = [])
  /\ fst (script h) = status
  /\ hd "" (snd (script h)) = "<-Start Result->"
  /\ last (snd (script h)) "" = "<-End Result->".
Proof.
  cbv zeta.
  assert (Hscript : fst (script h) = fst (main h)
                    /\ hd "" (snd (script h)) = "<-Start Result->"
                    /\ last (snd (script h)) "" = "<-End Result->").
  { unfold script. destruct (main h) as [status s]. cbn [fst snd hd].
    repeat split.
    change ("<-Start Result->" :: stdout s ++ ["<-End Result->"])%list
      with (("<-Start Result->" :: stdout s) ++ ["<-End Result->"])%list.
    apply last_last. }
  assert (Hmain : (fst (main h) = 0 \/ fst (main h) = 1)
                  /\ (fst (main h) = 0 <->
                      is_admin h = true
                      /\ exists tool path disks,
                           result_of (initialize_smartmontools h) = inr tool
                           /\ truthy tool = Some path
                           /\ result_of (get_physical_disks h path)
                              = inr disks
                           /\ disks <> []
                           /\ batch_findings h path disks = [])).
  2:{ destruct Hmain as (H1 & H2). exact (conj H1 (conj H2 Hscript)). }
  clear Hscript.
  destruct (is_admin h) eqn:Ha.
  2:{ rewrite (main_not_admin h Ha).
      split; [right; reflexivity |]. split; [discriminate |].
      intros (Hf & _). discriminate. }
  rewrite (main_status h Ha).
  assert (Hscan : forall path,
            result_of (get_physical_disks h path)
            = inr (scanned_disks h path)).
  { intros path. unfold result_of. rewrite get_physical_disks_from.
    reflexivity. }
  destruct (result_of (initialize_smartmontools h)) as [e | tool].
  { split; [right; reflexivity |]. split; [discriminate |].
    intros (_ & t & p & ds & Hi & _). discriminate. }
  destruct (truthy tool) as [path |] eqn:Ht.
  2:{ split; [right; reflexivity |]. split; [discriminate |].
      intros (_ & t & p & ds & Hi & Hp & _). injection Hi as <-.
      rewrite Ht in Hp. discriminate. }
  destruct (scanned_disks h path) as [| disk_id disks] eqn:Hd.
  { split; [right; reflexivity |]. split; [discriminate |].
    intros (_ & t & p & ds & Hi & Hp & Hs & Hne & _). injection Hi as <-.
    rewrite Ht in Hp. injection Hp as <-.
    rewrite Hscan, Hd in Hs. injection Hs as <-. contradiction. }
  destruct (batch_findings h path (disk_id :: disks)) as [| f fs] eqn:Hb.
  - split; [left; reflexivity |]. split; [| reflexivity].
    intros _. split; [reflexivity |].
    exists tool, path, (disk_id :: disks).
    rewrite Hscan, Hd. repeat split; try assumption. discriminate.
  - split; [right; reflexivity |]. split; [discriminate |].
    intros (_ & t & p & ds & Hi & Hp & Hs & _ & Hnone). injection Hi as <-.
    rewrite Ht in Hp. injection Hp as <-.
    rewrite Hscan, Hd in Hs. injection Hs as <-.
    rewrite Hb in Hnone. discriminate.
Qed.

(** X13. When the privileges, the utility and at least one disk are there,
    the output of [main] is its header, then the lines of each disk in the
    order of the scan, then the summary.  The header holds, after its first
    line, the one line that [initialize_smartmontools] printed: that the
    utility is already available, or that it is downloaded; the path is the
    one of the constant.  With findings, the summary lists every finding of
    the run, so each of them is printed. *)
Theorem X13_report_lists_every_finding (h : host) (tool : option string)
    (path : string) (disks : list string) :
  is_admin h = true ->
  result_of (initialize_smartmontools h) = inr tool ->
  truthy tool = Some path ->
  result_of (get_physical_disks h path) = inr disks -> disks <> [] ->
  let issues := batch_findings h path disks in
  stdout (snd (main h)) =
    (header_lines h path disks ++ batch_output h path disks
     ++ summary_lines issues)%list
  /\ path = SMARTCTL_PATH h
  /\ output_of (initialize_smartmontools h) =
       [if tool_present h then "SmartMonTools already available."
        else "Downloading from " ++ SMARTMONTOOLS_URL ++ " to "
             ++ download_path h]
  /\ List.length (header_lines h path disks) = 8%nat
  /\ (forall issue,
        In issue issues ->
        In ("- " ++ text issue) (stdout (snd (main h)))).
Proof.
  intros Ha Hi Ht Hd Hne. cbv zeta.
  rewrite (main_scans h tool path disks Ha Hi Ht Hd Hne).
  cbn [snd stdout].
  destruct (truthy_some tool path Ht) as (-> & _).
  destruct (initialize_smartmontools_path h path Hi) as (Hp & Ho).
  split; [reflexivity |]. split; [exact Hp |]. split; [exact Ho |].
  split; [unfold header_lines; rewrite Ho; reflexivity |].
  intros issue Hin. apply in_or_app. right. apply in_or_app. right.
  destruct (batch_findings h path disks) as [| f fs]; [contradiction |].
  unfold summary_lines. apply in_or_app. right. apply in_or_app. left.
  apply (in_map (fun issue => "- " ++ text issue)). exact Hin.
Qed.

(** The NVMe sample: header, the twelve lines of its disk, and a summary
    with its one finding. *)
Lemma X13_report_lists_every_finding_witness :
  stdout (snd (main nvme_host)) =
    (header_lines nvme_host sample_path [sda]
     ++ (processing_line sda
         :: report_lines sda
              (extract nvme_host (Some nvme_identity) (Some health_passed)
                 (Some nvme_attributes)))
     ++ [append nl "===== Summary ====="; "CRITICAL ISSUES DETECTED:";
         "- Disk /dev/sda (Samsung 970 EVO 500GB) SSD life warning: 15%";
         status_warning])%list
  /\ output_of (initialize_smartmontools nvme_host) =
       ["SmartMonTools already available."].
Proof.
  destruct (X13_report_lists_every_finding nvme_host (Some sample_path)
              sample_path [sda] eq_refl eq_refl eq_refl eq_refl)
    as (H & _ & Ho & _); [discriminate |].
  split; [| exact Ho].
  rewrite H. vm_compute. reflexivity.
Defined.

End ScanExtras.
